(** * ProxmoxMCP: dispatch, fan-out aggregation and rendering rules

    A shallow embedding of the parts of the repository that carry its
    response-normalisation and error-handling contract:

    - [simple-proxmox-mcp/server.py]      ([run_proxmox_api],
      [handle_mcp_request], the interactive loop of [main]),
    - [simple-proxmox-mcp/proxmox_api.py] (the operations of the script
      and the options of its parser),
    - [proxmox_mcp/tools/*.py]            (container, backup, task,
      template and lifecycle tools),
    - [proxmox_mcp/formatting/templates.py] (list, configuration, detail
      and outcome renderers).

    Python values are an inductive type of JSON-like data, Python
    exceptions are an explicit error result, and the remote API client,
    the logger, standard output, the clock and the random source are
    threaded through a state-and-exception monad. *)

From Stdlib Require Import ZArith List String Ascii Bool Lia DecimalString.
Import ListNotations.

Local Open Scope string_scope.
Local Open Scope list_scope.
Local Open Scope Z_scope.

Infix "+++" := String.append (right associativity, at level 60).

(** ** Python values *)

(** JSON-like payloads: what [json.loads] and the remote client hand to
    the code.  Dictionaries keep insertion order, as Python's do.  Floats
    are not part of the model. *)
#[warnings="-register-all"]
Inductive value : Type :=
| VNone
| VBool (b : bool)
| VInt (z : Z)
| VStr (s : string)
| VList (l : list value)
| VDict (d : list (value * value)).

(** A dictionary: keys in insertion order.  Keys decoded from JSON are
    strings; a dictionary the code fills itself may be keyed by any
    hashable value. *)
Definition dict : Type := list (value * value).

(** Keyword arguments of a call, in the order the code passes them. *)
Definition kwargs : Type := list (string * value).

Coercion VStr : string >-> value.

(** One entry of a dictionary literal with a string key. *)
Definition kv (k : string) (v : value) : value * value := (VStr k, v).

(** Python exceptions, by class.  [ApiError] stands for whatever the
    remote client raises (transport, authentication, remote 4xx/5xx). *)
Inductive exn : Type :=
| KeyError (k : string)
| AttributeError (ty attr : string)
| TypeError (msg : string)
| ApiError (msg : string)
| CalledProcessError (returncode : Z) (stderr : string)
| JSONDecodeError (msg : string).

Inductive result (E A : Type) : Type :=
| Ok (a : A)
| Raise (e : E).
Arguments Ok {E A} a.
Arguments Raise {E A} e.

Abbreviation res := (result exn).

Definition string_of_Z (z : Z) : string :=
  NilZero.string_of_int (Z.to_int z).

Definition type_name (v : value) : string :=
  match v with
  | VNone => "NoneType"
  | VBool _ => "bool"
  | VInt _ => "int"
  | VStr _ => "str"
  | VList _ => "list"
  | VDict _ => "dict"
  end.

(** [str(e)] for the exception classes above. *)
Definition exn_str (e : exn) : string :=
  match e with
  | KeyError k => "'" +++ k +++ "'"
  | AttributeError ty attr =>
      "'" +++ ty +++ "' object has no attribute '" +++ attr +++ "'"
  | TypeError msg => msg
  | ApiError msg => msg
  | CalledProcessError _ stderr => stderr
  | JSONDecodeError msg => msg
  end.

(** Lists and dictionaries are unhashable: they cannot be keys. *)
Definition hashable (v : value) : bool :=
  match v with
  | VList _ | VDict _ => false
  | _ => true
  end.

(** Equality of two keys; [True] and [1], [False] and [0] are the same
    key. *)
Definition key_eq (a b : value) : bool :=
  match a, b with
  | VNone, VNone => true
  | VStr s, VStr t => String.eqb s t
  | VInt x, VInt y => x =? y
  | VBool x, VBool y => Bool.eqb x y
  | VBool x, VInt y => (if x then 1 else 0) =? y
  | VInt x, VBool y => x =? (if y then 1 else 0)
  | _, _ => false
  end.

Fixpoint dict_get (d : dict) (k : value) : option value :=
  match d with
  | [] => None
  | (k', v) :: d' => if key_eq k k' then Some v else dict_get d' k
  end.

(** [d[k] = v]: an existing key keeps its position, a new key goes last. *)
Fixpoint dict_set (d : dict) (k : value) (v : value) : dict :=
  match d with
  | [] => [(k, v)]
  | (k', v') :: d' =>
      if key_eq k k' then (k', v) :: d' else (k', v') :: dict_set d' k v
  end.

(** [d[k] = v] on a dictionary the code owns. *)
Definition dict_setitem (d : dict) (k : value) (v : value) : res dict :=
  if hashable k then Ok (dict_set d k v)
  else Raise (TypeError ("unhashable type: '" +++ type_name k +++ "'")).

(** [v.get(k, dflt)]; only dictionaries have a [get] method. *)
Definition py_get (v : value) (k : string) (dflt : value) : res value :=
  match v with
  | VDict d => Ok (match dict_get d k with Some x => x | None => dflt end)
  | _ => Raise (AttributeError (type_name v) "get")
  end.

(** The field [k] of a record, [dflt] where it has none. *)
Definition field (record : value) (k : string) (dflt : value) : value :=
  match py_get record k dflt with
  | Ok x => x
  | Raise _ => dflt
  end.

(** [v[k]] with a string key. *)
Definition py_getitem (v : value) (k : string) : res value :=
  match v with
  | VDict d =>
      match dict_get d k with
      | Some x => Ok x
      | None => Raise (KeyError k)
      end
  | VStr _ => Raise (TypeError "string indices must be integers, not 'str'")
  | VList _ =>
      Raise (TypeError "list indices must be integers or slices, not str")
  | _ => Raise (TypeError ("'" +++ type_name v +++ "' object is not subscriptable"))
  end.

(** [v[k] = x] with a string key. *)
Definition py_setitem (v : value) (k : string) (x : value) : res value :=
  match v with
  | VDict d => Ok (VDict (dict_set d k x))
  | VList _ =>
      Raise (TypeError "list indices must be integers or slices, not str")
  | _ =>
      Raise (TypeError
               ("'" +++ type_name v +++ "' object does not support item assignment"))
  end.

(** Truth value of an object: [if v:] / [not v]. *)
Definition truthy (v : value) : bool :=
  match v with
  | VNone => false
  | VBool b => b
  | VInt z => negb (z =? 0)
  | VStr s => negb (String.eqb s EmptyString)
  | VList l => match l with [] => false | _ => true end
  | VDict d => match d with [] => false | _ => true end
  end.

(** [v == "s"] against a string literal. *)
Definition py_eq_str (v : value) (s : string) : bool :=
  match v with
  | VStr s' => String.eqb s' s
  | _ => false
  end.

(** [v == n] against an integer literal; [True == 1] and [False == 0]
    hold in Python. *)
Definition py_eq_int (v : value) (n : Z) : bool :=
  match v with
  | VInt z => z =? n
  | VBool b => (if b then 1 else 0) =? n
  | _ => false
  end.

(** [for x in v]: the items a [for] loop visits. *)
Definition py_iter (v : value) : res (list value) :=
  match v with
  | VList l => Ok l
  | VDict d => Ok (map fst d)
  | VStr s => Ok (map (fun c => VStr (String c EmptyString)) (list_ascii_of_string s))
  | _ => Raise (TypeError ("'" +++ type_name v +++ "' object is not iterable"))
  end.

(** [len(v)]. *)
Definition py_len (v : value) : res Z :=
  match v with
  | VList l => Ok (Z.of_nat (List.length l))
  | VDict d => Ok (Z.of_nat (List.length d))
  | VStr s => Ok (Z.of_nat (String.length s))
  | _ => Raise (TypeError ("object of type '" +++ type_name v +++ "' has no len()"))
  end.

(** ** The world a handler runs in *)

Inductive verb : Type := GET | POST | PUT | DELETE.

(** What the code asks of its collaborators: an HTTP call through the
    remote client (the resource path is kept as the values the code
    passes, the keyword arguments in the order the code builds them), or
    a run of the [proxmox_api.py] script by [run_proxmox_api], with the
    command it hands to [subprocess.run]. *)
Inductive request : Type :=
| Http (m : verb) (path : list value) (params : kwargs)
| Script (cmd : list value).

Record world : Type := mkWorld {
  calls : list request;   (* remote calls made so far, oldest first *)
  logs : list string;     (* lines handed to the logger *)
  stdout : list string;   (* lines printed *)
  clock : Z;              (* what time.time() reads, in microseconds *)
  sleeps : nat;           (* time.sleep calls made so far *)
  draws : nat             (* random draws made so far *)
}.

(** [SystemExit] and [KeyboardInterrupt] derive from [BaseException] and
    not from [Exception]: an [except Exception] clause lets them pass. *)
Inductive base_exn : Type :=
| Exception (e : exn)
| SystemExit (code : Z)
| KeyboardInterrupt.

(** A computation in a world: it returns or raises, and leaves a world. *)
Definition computation (E A : Type) : Type := world -> result E A * world.

(** The code that raises nothing but [Exception]s, and the code that may
    also exit the process or be interrupted. *)
Abbreviation M := (computation exn).
Abbreviation P := (computation base_exn).

Definition ret {E A} (a : A) : computation E A := fun w => (Ok a, w).

Definition raise {E A} (e : E) : computation E A := fun w => (Raise e, w).

Definition bind {E A B} (c : computation E A) (k : A -> computation E B)
  : computation E B :=
  fun w =>
    match c w with
    | (Ok a, w') => k a w'
    | (Raise e, w') => (Raise e, w')
    end.

(** [try: c except Exception as e: h e]. *)
Definition try_ {A} (c : M A) (h : exn -> M A) : M A :=
  fun w =>
    match c w with
    | (Ok a, w') => (Ok a, w')
    | (Raise e, w') => h e w'
    end.

Definition lift {E A} (r : result E A) : computation E A := fun w => (r, w).

Notation "x <- c ;; k" := (bind c (fun x => k))
  (at level 61, c at next level, right associativity).
Notation "c ;;; k" := (bind c (fun _ => k))
  (at level 61, right associativity).

Definition log_line (s : string) : M unit :=
  fun w => (Ok tt, mkWorld (calls w) (logs w ++ [s]) (stdout w)
                           (clock w) (sleeps w) (draws w)).

Definition print_line (s : string) : M unit :=
  fun w => (Ok tt, mkWorld (calls w) (logs w) (stdout w ++ [s])
                           (clock w) (sleeps w) (draws w)).

Definition error_envelope (msg : string) : value :=
  VDict [kv "error" msg].

Fixpoint join (sep : string) (l : list string) : string :=
  match l with
  | [] => EmptyString
  | [x] => x
  | x :: rest => x +++ sep +++ join sep rest
  end.

(** [s.replace('_', '-')]. *)
Fixpoint dashes (s : string) : string :=
  match s with
  | EmptyString => EmptyString
  | String c s' =>
      String (if Ascii.eqb c "_"%char then "-"%char else c) (dashes s')
  end.

(** ** Exceptions without state *)

Definition rbind {A B} (r : res A) (k : A -> res B) : res B :=
  match r with
  | Ok a => k a
  | Raise e => Raise e
  end.

Notation "x <~ c ;; k" := (rbind c (fun x => k))
  (at level 61, c at next level, right associativity).

Fixpoint rmap {A B} (f : A -> res B) (l : list A) : res (list B) :=
  match l with
  | [] => Ok []
  | x :: rest => y <~ f x;; ys <~ rmap f rest;; Ok (y :: ys)
  end.

(** A list comprehension with a condition that may raise. *)
Fixpoint rfilter {A} (p : A -> res bool) (l : list A) : res (list A) :=
  match l with
  | [] => Ok []
  | x :: rest =>
      b <~ p x;; ys <~ rfilter p rest;; Ok (if b then x :: ys else ys)
  end.

(** Runs [c] and hands its outcome, value or exception, to the caller:
    the state at the point of the exception is kept. *)
Definition attempt {A} (c : M A) : M (res A) :=
  fun w => let (r, w') := c w in (Ok r, w').

(** Code that raises nothing but [Exception]s, run where the process may
    also exit or be interrupted. *)
Definition exc {A} (c : M A) : P A :=
  fun w =>
    match c w with
    | (Ok a, w') => (Ok a, w')
    | (Raise e, w') => (Raise (Exception e), w')
    end.

(** [try: c except Exception as e: h e] where [c] may exit or be
    interrupted: [SystemExit] and [KeyboardInterrupt] pass the clause. *)
Definition except_Exception {A} (c : P A) (h : exn -> P A) : P A :=
  fun w =>
    match c w with
    | (Raise (Exception e), w') => h e w'
    | other => other
    end.

(** [sys.exit(code)]. *)
Definition sys_exit {A} (code : Z) : P A := raise (SystemExit code).

Fixpoint foldM {A St} (f : St -> A -> M St) (l : list A) (s : St) : M St :=
  match l with
  | [] => ret s
  | x :: rest => s' <- f s x;; foldM f rest s'
  end.

(** [key.startswith(p)]. *)
Definition py_startswith (key : value) (p : string) : res bool :=
  match key with
  | VStr s => Ok (String.prefix p s)
  | _ => Raise (AttributeError (type_name key) "startswith")
  end.

Fixpoint has_slash (s : string) : bool :=
  match s with
  | EmptyString => false
  | String c s' => Ascii.eqb c "/"%char || has_slash s'
  end.

(** [s.split('/')[-1] if '/' in s else s]. *)
Fixpoint after_last_slash (s : string) : string :=
  match s with
  | EmptyString => EmptyString
  | String c s' =>
      if has_slash s' then after_last_slash s'
      else if Ascii.eqb c "/"%char then s'
      else String c s'
  end.

(** [v > 0] against the integer literal. *)
Definition py_gt0 (v : value) : res bool :=
  match v with
  | VInt z => Ok (0 <? z)
  | VBool b => Ok b
  | _ =>
      Raise (TypeError ("'>' not supported between instances of '"
                        +++ type_name v +++ "' and 'int'"))
  end.

(** The items of a sequence handed to [str.join]: each has to be a
    string. *)
Fixpoint str_items (i : nat) (l : list value) : res (list string) :=
  match l with
  | [] => Ok []
  | VStr s :: rest => ss <~ str_items (S i) rest;; Ok (s :: ss)
  | v :: _ =>
      Raise (TypeError ("sequence item " +++ string_of_Z (Z.of_nat i)
                        +++ ": expected str instance, " +++ type_name v
                        +++ " found"))
  end.

(** [sep.join(l)]. *)
Definition py_join (sep : string) (l : list value) : res string :=
  ss <~ str_items 0 l;; Ok (join sep ss).

(** The bullet the renderers start a detail line with (U+2022 in UTF-8). *)
Definition bullet : string :=
  String (ascii_of_nat 226) (String (ascii_of_nat 128)
    (String (ascii_of_nat 162) EmptyString)).

Definition newline : string := String (ascii_of_nat 10) EmptyString.

(** ** The operation catalogue of the simple server *)

(** [mcp_server_info()["tools"]]: each tool's name with the [required]
    list of its input schema. *)
Definition operation_registry : list (string * list string) :=
  [ ("get_nodes", []);
    ("get_node_status", ["node"]);
    ("get_vms", []);
    ("execute_vm_command", ["node"; "vmid"; "command"]);
    ("get_storage", []);
    ("get_cluster_status", []);
    ("get_templates", []);
    ("clone_template", ["node"; "template_vmid"; "new_vm_name"]);
    ("start_vm", ["node"; "vmid"]);
    ("stop_vm", ["node"; "vmid"]);
    ("reboot_vm", ["node"; "vmid"]);
    ("update_vm_config", ["node"; "vmid"]);
    ("get_vm_config", ["node"; "vmid"]);
    ("get_task_status", ["node"; "task_id"]);
    ("wait_for_task", ["node"; "task_id"]) ].

Definition registered_names : list string := map fst operation_registry.

(** The [success] field of an envelope, when it has one.  The data model
    of the specification asks for it in every envelope. *)
Definition success_field (v : value) : option value :=
  match v with
  | VDict d => dict_get d "success"
  | _ => None
  end.

Section Gateway.

Set Default Proof Using "Type".

(** ** Collaborators *)

(** [repr] of a list or dictionary, as [str()] shows containers. *)
Variable py_repr : value -> string.
(** The response to the [k]-th remote call of a run, given the request. *)
Variable remote : nat -> request -> res value.
(** Microseconds the [k]-th remote call takes. *)
Variable latency : nat -> N.
(** Microseconds by which the [k]-th [time.sleep] overshoots. *)
Variable oversleep : nat -> N.
(** The [k]-th raw integer of the random source. *)
Variable entropy : nat -> Z.
(** [sys.executable] and [API_SCRIPT_PATH]. *)
Variable sys_executable : string.
Variable API_SCRIPT_PATH : string.
(** What [open(CONFIG_PATH)] and [json.load] make of [config.json]: its
    decoded content, or the exception of a file that is missing,
    unreadable or no JSON.  The file is the same at every reading of a
    run. *)
Variable config_json : res value.

Definition py_str (v : value) : string :=
  match v with
  | VNone => "None"
  | VBool true => "True"
  | VBool false => "False"
  | VInt z => string_of_Z z
  | VStr s => s
  | VList _ | VDict _ => py_repr v
  end.

Definition call (r : request) : M value :=
  fun w =>
    let k := List.length (calls w) in
    (remote k r,
     mkWorld (calls w ++ [r]) (logs w) (stdout w)
             (clock w + Z.of_N (latency k)) (sleeps w) (draws w)).

(** [time.sleep(secs)]: at least [secs] seconds pass. *)
Definition time_sleep (secs : Z) : M unit :=
  fun w =>
    (Ok tt,
     mkWorld (calls w) (logs w) (stdout w)
             (clock w + secs * 1000000 + Z.of_N (oversleep (sleeps w)))
             (S (sleeps w)) (draws w)).

(** [random.randint(lo, hi)]: an integer of the inclusive range. *)
Definition random_randint (lo hi : Z) : M Z :=
  fun w =>
    (Ok (lo + entropy (draws w) mod (hi - lo + 1)),
     mkWorld (calls w) (logs w) (stdout w) (clock w) (sleeps w) (S (draws w))).

(** ** simple-proxmox-mcp/server.py *)

(** The loop of [run_proxmox_api] over its keyword arguments. *)
Fixpoint kwargs_flags (kw : kwargs) : list string :=
  match kw with
  | [] => []
  | (key, v) :: rest =>
      match v with
      | VNone => kwargs_flags rest
      | VBool true => ("--" +++ dashes key) :: kwargs_flags rest
      | VBool false => kwargs_flags rest
      | _ => ("--" +++ dashes key) :: py_str v :: kwargs_flags rest
      end
  end.

Definition load_config : P value :=
  except_Exception
    (exc (lift config_json))
    (fun e =>
       exc (log_line ("Failed to load configuration: " +++ exn_str e));;;
       sys_exit 1).

(** [config[section][key]]. *)
Definition configured (config : value) (section key : string) : res value :=
  entries <~ py_getitem config section;; py_getitem entries key.

(** The command is built before the [try]: a configuration without one of
    the four settings raises there.  Inside the [try], the command is
    joined for the log, which asks every word to be a string, and handed
    to [subprocess.run]; the answer of the remote to [Script cmd] stands
    for the run and for [json.loads] of its output. *)
Definition run_proxmox_api (action : string) (kw : kwargs) : P value :=
  config <- load_config;;
  host <- exc (lift (configured config "proxmox" "host"));;
  user <- exc (lift (configured config "auth" "user"));;
  token_name <- exc (lift (configured config "auth" "token_name"));;
  token_value <- exc (lift (configured config "auth" "token_value"));;
  let cmd :=
    ([VStr sys_executable; VStr API_SCRIPT_PATH;
      VStr "--host"; host; VStr "--user"; user;
      VStr "--token-name"; token_name; VStr "--token-value"; token_value;
      VStr "--action"; VStr action]
     ++ map VStr (kwargs_flags kw))%list in
  exc (try_ (line <- lift (py_join " " cmd);;
             log_line ("Running command: " +++ line);;;
             call (Script cmd))
            (fun e =>
               match e with
               | CalledProcessError rc stderr =>
                   log_line ("Command failed with exit code " +++ string_of_Z rc
                             +++ ": " +++ stderr);;;
                   ret (error_envelope ("Command failed: " +++ stderr))
               | JSONDecodeError msg =>
                   log_line ("Failed to parse JSON output: " +++ msg);;;
                   ret (error_envelope ("Failed to parse JSON output: " +++ msg))
               | _ =>
                   log_line ("Error running command: " +++ exn_str e);;;
                   ret (error_envelope ("Error running command: " +++ exn_str e))
               end)).

(** [v.get(k, dflt)] in the dispatcher. *)
Definition get (v : value) (k : string) (dflt : value) : P value :=
  exc (lift (py_get v k dflt)).

Definition arg (arguments : value) (k : string) : P value :=
  get arguments k VNone.

Definition handle_mcp_request (request : value) : P value :=
  except_Exception
    (tool_name <- get request "tool" VNone;;
     arguments <- get request "arguments" (VDict []);;
     if py_eq_str tool_name "get_nodes" then
       run_proxmox_api "get_nodes" []
     else if py_eq_str tool_name "get_node_status" then
       node <- arg arguments "node";;
       if negb (truthy node) then
         ret (error_envelope "Node name is required for get_node_status")
       else run_proxmox_api "get_node_status" [("node", node)]
     else if py_eq_str tool_name "get_vms" then
       run_proxmox_api "get_vms" []
     else if py_eq_str tool_name "execute_vm_command" then
       node <- arg arguments "node";;
       vmid <- arg arguments "vmid";;
       command <- arg arguments "command";;
       if negb (truthy node) || negb (truthy vmid) || negb (truthy command) then
         ret (error_envelope
                "Node name, VM ID, and command are required for execute_vm_command")
       else run_proxmox_api "execute_vm_command"
              [("node", node); ("vmid", vmid); ("command", command)]
     else if py_eq_str tool_name "get_storage" then
       run_proxmox_api "get_storage" []
     else if py_eq_str tool_name "get_cluster_status" then
       run_proxmox_api "get_cluster_status" []
     else if py_eq_str tool_name "get_templates" then
       run_proxmox_api "get_templates" []
     else if py_eq_str tool_name "clone_template" then
       node <- arg arguments "node";;
       template_vmid <- arg arguments "template_vmid";;
       new_vm_name <- arg arguments "new_vm_name";;
       target_node <- arg arguments "target_node";;
       full_clone <- get arguments "full_clone" (VBool true);;
       storage <- arg arguments "storage";;
       if negb (truthy node) || negb (truthy template_vmid)
          || negb (truthy new_vm_name) then
         ret (error_envelope
                "Node name, template VM ID, and new VM name are required for clone_template")
       else run_proxmox_api "clone_template"
              [("node", node); ("vmid", template_vmid);
               ("new_vm_name", new_vm_name); ("target_node", target_node);
               ("full_clone", full_clone); ("storage", storage)]
     else if py_eq_str tool_name "start_vm" then
       node <- arg arguments "node";;
       vmid <- arg arguments "vmid";;
       if negb (truthy node) || negb (truthy vmid) then
         ret (error_envelope "Node name and VM ID are required for start_vm")
       else run_proxmox_api "start_vm" [("node", node); ("vmid", vmid)]
     else if py_eq_str tool_name "stop_vm" then
       node <- arg arguments "node";;
       vmid <- arg arguments "vmid";;
       if negb (truthy node) || negb (truthy vmid) then
         ret (error_envelope "Node name and VM ID are required for stop_vm")
       else run_proxmox_api "stop_vm" [("node", node); ("vmid", vmid)]
     else if py_eq_str tool_name "reboot_vm" then
       node <- arg arguments "node";;
       vmid <- arg arguments "vmid";;
       if negb (truthy node) || negb (truthy vmid) then
         ret (error_envelope "Node name and VM ID are required for reboot_vm")
       else run_proxmox_api "reboot_vm" [("node", node); ("vmid", vmid)]
     else if py_eq_str tool_name "update_vm_config" then
       node <- arg arguments "node";;
       vmid <- arg arguments "vmid";;
       cpu <- arg arguments "cpu";;
       memory <- arg arguments "memory";;
       name <- arg arguments "name";;
       description <- arg arguments "description";;
       if negb (truthy node) || negb (truthy vmid) then
         ret (error_envelope
                "Node name and VM ID are required for update_vm_config")
       else run_proxmox_api "update_vm_config"
              [("node", node); ("vmid", vmid); ("cpu", cpu);
               ("memory", memory); ("name", name);
               ("description", description)]
     else if py_eq_str tool_name "get_vm_config" then
       node <- arg arguments "node";;
       vmid <- arg arguments "vmid";;
       if negb (truthy node) || negb (truthy vmid) then
         ret (error_envelope "Node name and VM ID are required for get_vm_config")
       else run_proxmox_api "get_vm_config" [("node", node); ("vmid", vmid)]
     else if py_eq_str tool_name "get_task_status" then
       node <- arg arguments "node";;
       task_id <- arg arguments "task_id";;
       if negb (truthy node) || negb (truthy task_id) then
         ret (error_envelope
                "Node name and task ID are required for get_task_status")
       else run_proxmox_api "get_task_status"
              [("node", node); ("task_id", task_id)]
     else if py_eq_str tool_name "wait_for_task" then
       node <- arg arguments "node";;
       task_id <- arg arguments "task_id";;
       timeout <- get arguments "timeout" (VInt 300);;
       if negb (truthy node) || negb (truthy task_id) then
         ret (error_envelope
                "Node name and task ID are required for wait_for_task")
       else run_proxmox_api "wait_for_task"
              [("node", node); ("task_id", task_id); ("timeout", timeout)]
     else
       ret (error_envelope ("Unknown tool: " +++ py_str tool_name)))
    (fun e =>
       exc (log_line ("Error handling MCP request: " +++ exn_str e));;;
       ret (error_envelope ("Error handling MCP request: " +++ exn_str e))).

(** The message each guarded branch of [handle_mcp_request] answers with
    when a required argument is missing. *)
Definition required_message (tool : string) : string :=
  if String.eqb tool "get_node_status" then
    "Node name is required for get_node_status"
  else if String.eqb tool "execute_vm_command" then
    "Node name, VM ID, and command are required for execute_vm_command"
  else if String.eqb tool "clone_template" then
    "Node name, template VM ID, and new VM name are required for clone_template"
  else if String.eqb tool "get_task_status" then
    "Node name and task ID are required for get_task_status"
  else if String.eqb tool "wait_for_task" then
    "Node name and task ID are required for wait_for_task"
  else "Node name and VM ID are required for " +++ tool.

(** ** simple-proxmox-mcp/proxmox_api.py *)

(** [json.dumps] of a value, as the script prints it. *)
Variable json_dumps : value -> string.

Definition nodes_request : request := Http GET [VStr "nodes"] [].

Definition qemu_request (node_name : value) : request :=
  Http GET [VStr "nodes"; node_name; VStr "qemu"] [].

Definition is_running (vm : value) : res bool :=
  st <~ py_getitem vm "status";; Ok (py_eq_str st "running").

(** One turn of the loop of [get_vms] over the nodes; the state is the
    pair of [vms] and [vms_by_node]. *)
Definition get_vms_node (acc : list value * dict) (node : value)
  : M (list value * dict) :=
  let (vms, vms_by_node) := acc in
  node_name <- lift (py_getitem node "node");;
  let failed (e : exn) (st : list value * dict) : M (list value * dict) :=
    print_line
      (json_dumps
         (error_envelope ("Failed to get VMs for node " +++ py_str node_name
                          +++ ": " +++ exn_str e)));;;
    ret st in
  r <- attempt (call (qemu_request node_name));;
  match r with
  | Raise e => failed e (vms, vms_by_node)
  | Ok node_vms =>
      match py_iter node_vms with
      | Raise e => failed e (vms, vms_by_node)
      | Ok items =>
          let vms := (vms ++ items)%list in
          match dict_setitem vms_by_node node_name node_vms with
          | Raise e => failed e (vms, vms_by_node)
          | Ok vms_by_node => ret (vms, vms_by_node)
          end
      end
  end.

(** The entry of [node_stats] built for one node. *)
Definition node_stat (node_vms : value) : res value :=
  items <~ py_iter node_vms;;
  node_running <~ rfilter is_running items;;
  total <~ py_len node_vms;;
  running_vms <~ rmap (fun vm =>
                         vmid <~ py_getitem vm "vmid";;
                         name <~ py_getitem vm "name";;
                         st <~ py_getitem vm "status";;
                         Ok (VDict [kv "vmid" vmid; kv "name" name;
                                    kv "status" st]))
                      node_running;;
  Ok (VDict [kv "total" (VInt total);
             kv "running" (VInt (Z.of_nat (List.length node_running)));
             kv "running_vms" (VList running_vms)]).

Fixpoint node_stats_of (vms_by_node : dict) (node_stats : dict) : res dict :=
  match vms_by_node with
  | [] => Ok node_stats
  | (node_name, node_vms) :: rest =>
      stat <~ node_stat node_vms;;
      node_stats_of rest (dict_set node_stats node_name stat)
  end.

Definition get_vms : M value :=
  try_
    (nodes <- call nodes_request;;
     node_list <- lift (py_iter nodes);;
     acc <- foldM get_vms_node node_list ([], []);;
     let (vms, vms_by_node) := acc in
     running_vms <- lift (rfilter is_running vms);;
     node_stats <- lift (node_stats_of vms_by_node []);;
     ret (VDict [kv "total_vms" (VInt (Z.of_nat (List.length vms)));
                 kv "total_running" (VInt (Z.of_nat (List.length running_vms)));
                 kv "nodes" (VDict node_stats);
                 kv "vms" (VList vms)]))
    (fun e => ret (error_envelope ("Failed to get VMs: " +++ exn_str e))).

Definition is_template (vm : value) : res bool :=
  t <~ py_get vm "template" VNone;; Ok (py_eq_int t 1).

(** One turn of the loop of [get_templates] over the nodes. *)
Definition get_templates_node (templates : list value) (node : value)
  : M (list value) :=
  node_name <- lift (py_getitem node "node");;
  let failed (e : exn) : M (list value) :=
    print_line
      (json_dumps
         (error_envelope ("Failed to get templates for node "
                          +++ py_str node_name +++ ": " +++ exn_str e)));;;
    ret templates in
  r <- attempt (call (qemu_request node_name));;
  match r with
  | Raise e => failed e
  | Ok node_vms =>
      match (items <~ py_iter node_vms;;
             node_templates <~ rfilter is_template items;;
             rmap (fun t => py_setitem t "node" node_name) node_templates) with
      | Raise e => failed e
      | Ok node_templates => ret (templates ++ node_templates)%list
      end
  end.

Definition get_templates : M value :=
  try_
    (nodes <- call nodes_request;;
     node_list <- lift (py_iter nodes);;
     templates <- foldM get_templates_node node_list [];;
     ret (VDict [kv "total_templates" (VInt (Z.of_nat (List.length templates)));
                 kv "templates" (VList templates)]))
    (fun e => ret (error_envelope ("Failed to get templates: " +++ exn_str e))).

Definition nextid_request : request :=
  Http GET [VStr "cluster"; VStr "nextid"] [].

Definition get_next_vmid : M value :=
  try_ (call nextid_request)
       (fun _ => n <- random_randint 100 999;; ret (VInt n)).

Definition clone_params (next_vmid new_vm_name target_node full_clone storage : value)
  : kwargs :=
  ([("newid", next_vmid); ("name", new_vm_name);
    ("full", VInt (if truthy full_clone then 1 else 0))]
   ++ (if truthy target_node then [("target", target_node)] else [])
   ++ (if truthy storage then [("storage", storage)] else []))%list.

Definition clone_request (node template_vmid : value) (params : kwargs)
  : request :=
  Http POST [VStr "nodes"; node; VStr "qemu"; template_vmid; VStr "clone"] params.

(** [isinstance(task_result, dict) and 'data' in task_result]. *)
Definition task_id_of (task_result : value) : value :=
  match task_result with
  | VDict d =>
      match dict_get d "data" with
      | Some x => x
      | None => task_result
      end
  | _ => task_result
  end.

Definition clone_template
  (node template_vmid new_vm_name target_node full_clone storage : value)
  : M value :=
  try_
    (next_vmid <- get_next_vmid;;
     let params :=
       clone_params next_vmid new_vm_name target_node full_clone storage in
     task_result <- call (clone_request node template_vmid params);;
     ret (VDict [kv "success" (VBool true);
                 kv "task_id" (task_id_of task_result);
                 kv "new_vmid" next_vmid;
                 kv "message"
                    (VStr ("Started cloning template " +++ py_str template_vmid
                           +++ " to create new VM '" +++ py_str new_vm_name
                           +++ "' with ID " +++ py_str next_vmid))]))
    (fun e =>
       ret (error_envelope ("Failed to clone template " +++ py_str template_vmid
                            +++ " on node " +++ py_str node +++ ": "
                            +++ exn_str e))).

Definition task_status_request (node task_id : value) : request :=
  Http GET [VStr "nodes"; node; VStr "tasks"; task_id; VStr "status"] [].

(** The body of the loop of [wait_for_task], a [try] whose handler
    returns: [Some r] when the function returns [r], [None] when the loop
    goes round again. *)
Definition poll_task (node task_id : value) (interval : Z) (w : world)
  : option value * world :=
  match
    (status <- call (task_status_request node task_id);;
     st <- lift (py_get status "status" VNone);;
     if py_eq_str st "stopped" then
       exitstatus <- lift (py_get status "exitstatus" VNone);;
       ret (Some (VDict [kv "success" (VBool (py_eq_str exitstatus "OK"));
                         kv "status" status]))
     else
       time_sleep interval;;; ret None) w
  with
  | (Ok r, w') => (r, w')
  | (Raise e, w') =>
      (Some (error_envelope ("Error checking task status: " +++ exn_str e)), w')
  end.

Definition timeout_message (task_id : value) (timeout : Z) : string :=
  "Task " +++ py_str task_id +++ " did not complete within "
  +++ string_of_Z timeout +++ " seconds".

(** The [while] loop of [wait_for_task], unrolled at most [fuel] times;
    [None] when the fuel runs out before the loop ends. *)
Fixpoint wait_for_task_loop (fuel : nat) (node task_id : value)
  (timeout interval start_time : Z) (w : world) : option (value * world) :=
  match fuel with
  | O => None
  | S fuel' =>
      if clock w - start_time <? timeout * 1000000 then
        match poll_task node task_id interval w with
        | (Some r, w') => Some (r, w')
        | (None, w') =>
            wait_for_task_loop fuel' node task_id timeout interval start_time w'
        end
      else Some (error_envelope (timeout_message task_id timeout), w)
  end.

Definition wait_for_task (fuel : nat) (node task_id : value)
  (timeout interval : Z) (w : world) : option (value * world) :=
  wait_for_task_loop fuel node task_id timeout interval (clock w) w.

(** *** The operations that make one remote call *)

(** [try: return <call> except Exception as e:
    return {"error": f"<what>: {str(e)}"}]. *)
Definition forwarded (r : request) (what : string) : M value :=
  try_ (call r) (fun e => ret (error_envelope (what +++ ": " +++ exn_str e))).

Definition get_nodes : M value :=
  forwarded nodes_request "Failed to get nodes".

Definition node_status_request (node : value) : request :=
  Http GET [VStr "nodes"; node; VStr "status"] [].

Definition get_node_status (node : value) : M value :=
  forwarded (node_status_request node)
            ("Failed to get status for node " +++ py_str node).

Definition agent_exec_request (node vmid command : value) : request :=
  Http POST [VStr "nodes"; node; VStr "qemu"; vmid; VStr "agent"; VStr "exec"]
       [("command", command)].

Definition execute_vm_command (node vmid command : value) : M value :=
  forwarded (agent_exec_request node vmid command)
            ("Failed to execute command in VM " +++ py_str vmid
             +++ " on node " +++ py_str node).

Definition storage_pools_request : request := Http GET [VStr "storage"] [].

Definition get_storage : M value :=
  forwarded storage_pools_request "Failed to get storage".

Definition cluster_status_request : request :=
  Http GET [VStr "cluster"; VStr "status"] [].

Definition get_cluster_status : M value :=
  forwarded cluster_status_request "Failed to get cluster status".

Definition qemu_config_request (node vmid : value) : request :=
  Http GET [VStr "nodes"; node; VStr "qemu"; vmid; VStr "config"] [].

Definition get_vm_config (node vmid : value) : M value :=
  forwarded (qemu_config_request node vmid)
            ("Failed to get configuration for VM " +++ py_str vmid
             +++ " on node " +++ py_str node).

Definition get_task_status (node task_id : value) : M value :=
  forwarded (task_status_request node task_id)
            ("Failed to get status for task " +++ py_str task_id
             +++ " on node " +++ py_str node).

(** *** Power operations *)

Definition power_request (node vmid : value) (op : string) : request :=
  Http POST [VStr "nodes"; node; VStr "qemu"; vmid; VStr "status"; VStr op] [].

(** [result.get('data') if isinstance(result, dict) else result]. *)
Definition data_of (result : value) : value :=
  match result with
  | VDict d =>
      match dict_get d "data" with
      | Some x => x
      | None => VNone
      end
  | _ => result
  end.

(** The shape [start_vm], [stop_vm] and [reboot_vm] share: the endpoint
    [op], the message of the success envelope and the words of the error
    message. *)
Definition power_operation (op doing failed : string) (node vmid : value)
  : M value :=
  try_
    (result <- call (power_request node vmid op);;
     ret (VDict [kv "success" (VBool true);
                 kv "task_id" (data_of result);
                 kv "message"
                    (VStr (doing +++ " VM " +++ py_str vmid
                           +++ " on node " +++ py_str node))]))
    (fun e =>
       ret (error_envelope ("Failed to " +++ failed +++ " VM " +++ py_str vmid
                            +++ " on node " +++ py_str node +++ ": "
                            +++ exn_str e))).

Definition start_vm : value -> value -> M value :=
  power_operation "start" "Started" "start".

Definition stop_vm : value -> value -> M value :=
  power_operation "shutdown" "Shutting down" "shutdown".

Definition reboot_vm : value -> value -> M value :=
  power_operation "reboot" "Rebooting" "reboot".

(** *** [update_vm_config] *)

(** [if v is not None: params[k] = v]. *)
Definition given (k : string) (v : value) : kwargs :=
  match v with
  | VNone => []
  | _ => [(k, v)]
  end.

Definition config_params (cpu memory name description : value) : kwargs :=
  (given "cores" cpu ++ given "memory" memory ++ given "name" name
   ++ given "description" description)%list.

Definition qemu_config_put (node vmid : value) (params : kwargs) : request :=
  Http PUT [VStr "nodes"; node; VStr "qemu"; vmid; VStr "config"] params.

Definition update_vm_config (node vmid cpu memory name description : value)
  : M value :=
  try_
    (let params := config_params cpu memory name description in
     match params with
     | [] => ret (error_envelope "No configuration parameters provided")
     | _ =>
         call (qemu_config_put node vmid params);;;
         ret (VDict [kv "success" (VBool true);
                     kv "message"
                        (VStr ("Updated configuration for VM " +++ py_str vmid
                               +++ " on node " +++ py_str node));
                     kv "updated_params"
                        (VDict (map (fun e => kv (fst e) (snd e)) params))])
     end)
    (fun e =>
       ret (error_envelope ("Failed to update VM " +++ py_str vmid
                            +++ " configuration on node " +++ py_str node
                            +++ ": " +++ exn_str e))).

(** *** The parser of the script's [main] *)

(** The [choices] of the [--action] option. *)
Definition script_actions : list string :=
  [ "get_nodes"; "get_node_status"; "get_vms"; "execute_vm_command";
    "get_storage"; "get_cluster_status"; "get_templates"; "clone_template";
    "start_vm"; "stop_vm"; "reboot_vm"; "update_vm_config"; "get_vm_config";
    "get_task_status"; "wait_for_task" ].

(** The options [main] declares with [parser.add_argument]. *)
Definition script_options : list string :=
  [ "--host"; "--user"; "--token-name"; "--token-value"; "--action";
    "--node"; "--vmid"; "--command"; "--new-vm-name"; "--target-node";
    "--full-clone"; "--storage"; "--cpu"; "--memory"; "--name";
    "--description"; "--task-id"; "--timeout" ].

(** ** simple-proxmox-mcp/server.py: the interactive loop of [main] *)

(** [json.loads] of a line. *)
Variable json_loads : string -> res value.
(** [c.isspace()] on one character. *)
Variable isspace : ascii -> bool.

(** What [sys.stdin.read(1)] finds: a character of the input, or the
    Ctrl-C of a user who interrupts the server while it waits for input.
    An input that is used up is at its end.  Interrupts at other points
    of the loop are not part of the model. *)
Inductive keystroke : Type :=
| Key (c : ascii)
| CtrlC.

(** The inner [while] of the loop: [sys.stdin.read(1)] until a line break
    has been read or the input has ended.  The result is the line, line
    break included, or the interrupt, and what is left of the input. *)
Fixpoint read_line (input : list keystroke)
  : result base_exn string * list keystroke :=
  match input with
  | [] => (Ok EmptyString, [])
  | CtrlC :: rest => (Raise KeyboardInterrupt, rest)
  | Key c :: rest =>
      if Ascii.eqb c (ascii_of_nat 10) then (Ok (String c EmptyString), rest)
      else
        let (r, rest') := read_line rest in
        (match r with
         | Ok line => Ok (String c line)
         | Raise b => Raise b
         end, rest')
  end.

(** [s.lstrip()]. *)
Fixpoint lstrip (s : string) : string :=
  match s with
  | EmptyString => EmptyString
  | String c s' => if isspace c then lstrip s' else s
  end.

Definition reversed (s : string) : string :=
  string_of_list_ascii (rev (list_ascii_of_string s)).

(** [s.strip()]. *)
Definition py_strip (s : string) : string :=
  reversed (lstrip (reversed (lstrip s))).

(** [try: c except json.JSONDecodeError as e: h str(e)]. *)
Definition except_JSONDecodeError {A} (c : P A) (h : string -> P A) : P A :=
  fun w =>
    match c w with
    | (Raise (Exception (JSONDecodeError msg)), w') => h msg w'
    | other => other
    end.

(** One turn of the [while True] loop, the inner [try] statement, started
    with [input] still to be read: [true] when the loop is left by
    [break], [false] when it goes round again ([continue], the end of
    the body, or the handler of the [try]).  With the turn comes what it
    leaves of the input. *)
Definition serve_turn (once : bool) (input : list keystroke)
  : P bool * list keystroke :=
  let (read, rest) := read_line input in
  (except_JSONDecodeError
     (line <- lift read;;
      if negb (truthy (VStr (py_strip line))) then ret false
      else
        exc (log_line ("Received request: " +++ py_strip line));;;
        request <- exc (lift (json_loads line));;
        response <- handle_mcp_request request;;
        exc (log_line ("Sending response: " +++ json_dumps response));;;
        exc (print_line (json_dumps response));;;
        if once then
          exc (log_line "Exiting after one request (--once flag)");;;
          ret true
        else ret false)
     (fun msg =>
        exc (print_line
               (json_dumps (error_envelope ("Failed to parse request: " +++ msg))));;;
        ret false),
   rest).

(** The [while True] loop, unrolled at most [fuel] times; [None] when the
    loop is still running after [fuel] turns. *)
Fixpoint serve_loop (fuel : nat) (once : bool) (input : list keystroke)
  (w : world) : option (result base_exn unit * world) :=
  match fuel with
  | O => None
  | S fuel' =>
      let (turn, rest) := serve_turn once input in
      match turn w with
      | (Ok true, w') => Some (Ok tt, w')
      | (Ok false, w') => serve_loop fuel' once rest w'
      | (Raise b, w') => Some (Raise b, w')
      end
  end.

(** How [main] is left: it returns, or the process exits with a status. *)
Inductive ending : Type :=
| Returned
| Exited (code : Z).

(** The outer [try] statement of [main]: after the loop, or after
    [except KeyboardInterrupt], [main] returns; [except Exception] ends
    the process with [sys.exit(1)]; a [SystemExit] raised in the loop
    passes both clauses. *)
Definition interactive_loop (fuel : nat) (once : bool) (input : list keystroke)
  (w : world) : option (ending * world) :=
  match serve_loop fuel once input w with
  | None => None
  | Some (Ok _, w') => Some (Returned, w')
  | Some (Raise KeyboardInterrupt, w') =>
      Some (Returned, snd (log_line "MCP server stopped by user" w'))
  | Some (Raise (Exception e), w') =>
      Some (Exited 1, snd (log_line ("Error in MCP server: " +++ exn_str e) w'))
  | Some (Raise (SystemExit code), w') => Some (Exited code, w')
  end.

(** ** proxmox_mcp/tools *)

(** [ProxmoxTool._format_response] and [ProxmoxTool._handle_error] live
    in [tools/base.py], which is not part of the sources at hand: the
    tools are parametric in them.  The response builder is taken as a
    function of the data and of the resource kind; the error hook may log
    and may raise, and when it returns the handler returns [None]. *)
Variable content : Type.
Variable format_response : value -> string -> content.
Variable handle_error : string -> exn -> M unit.

Definition handler (context : string) (body : M content) : M (option content) :=
  try_ (c <- body;; ret (Some c))
       (fun e => handle_error context e;;; ret None).

(** *** tools/container.py *)





(** *** tools/backup.py *)

Definition backup_params (storage vmid : value) : kwargs :=
  ((if truthy storage then [("storage", storage)] else [])
   ++ (if truthy vmid then [("vmid", vmid)] else []))%list.

Definition storage_request (node_name : value) (params : kwargs) : request :=
  Http GET [VStr "nodes"; node_name; VStr "storage"] params.

Definition backup_record (node_name backup : value) : res value :=
  volid <~ py_get backup "volid" (VStr EmptyString);;
  vmid <~ py_get backup "vmid" (VStr EmptyString);;
  size <~ py_get backup "size" (VInt 0);;
  ctime <~ py_get backup "ctime" (VInt 0);;
  format <~ py_get backup "format" (VStr EmptyString);;
  Ok (VDict [kv "filename" volid; kv "node" node_name; kv "vmid" vmid;
             kv "size" size; kv "timestamp" ctime; kv "format" format]).

(** The inner loop of [list_backups]; an exception ends it and keeps
    what was appended. *)
Fixpoint collect_backups (node_name : value) (items backups : list value)
  : list value :=
  match items with
  | [] => backups
  | backup :: rest =>
      match py_get backup "content" VNone with
      | Raise _ => backups
      | Ok c =>
          if py_eq_str c "backup" then
            match backup_record node_name backup with
            | Raise _ => backups
            | Ok b => collect_backups node_name rest (backups ++ [b])
            end
          else collect_backups node_name rest backups
      end
  end.

Definition list_backups_node (storage vmid : value) (backups : list value)
  (node_info : value) : M (list value) :=
  node_name <- lift (py_getitem node_info "node");;
  r <- attempt (call (storage_request node_name (backup_params storage vmid)));;
  match r with
  | Raise _ => ret backups
  | Ok node_backups =>
      match py_iter node_backups with
      | Raise _ => ret backups
      | Ok items => ret (collect_backups node_name items backups)
      end
  end.

Definition BackupTools_list_backups (storage vmid : value) : M (option content) :=
  handler "list backups"
    (nodes <- call nodes_request;;
     node_list <- lift (py_iter nodes);;
     backups <- foldM (list_backups_node storage vmid) node_list [];;
     ret (format_response (VList backups) "backups")).

(** *** tools/task.py *)

Definition task_record (node_name task : value) : res value :=
  upid <~ py_get task "upid" (VStr EmptyString);;
  type <~ py_get task "type" (VStr EmptyString);;
  status <~ py_get task "status" (VStr EmptyString);;
  starttime <~ py_get task "starttime" (VInt 0);;
  endtime <~ py_get task "endtime" (VInt 0);;
  id <~ py_get task "id" (VStr EmptyString);;
  user <~ py_get task "user" (VStr EmptyString);;
  vmid <~ py_get task "vmid" (VStr EmptyString);;
  Ok (VDict [kv "upid" upid; kv "type" type; kv "status" status;
             kv "node" node_name; kv "starttime" starttime;
             kv "endtime" endtime; kv "id" id; kv "user" user;
             kv "vmid" vmid]).

Definition reached (limit : Z) (tasks : list value) : bool :=
  limit <=? Z.of_nat (List.length tasks).

(** The inner loop of [get_tasks], with its [break]. *)
Fixpoint collect_tasks (limit : Z) (node_name : value)
  (items tasks : list value) : res (list value) :=
  match items with
  | [] => Ok tasks
  | task :: rest =>
      t <~ task_record node_name task;;
      let tasks := (tasks ++ [t])%list in
      if reached limit tasks then Ok tasks
      else collect_tasks limit node_name rest tasks
  end.

Definition tasks_request (node_name : value) (limit : Z) (vmid : value)
  : request :=
  Http GET [VStr "nodes"; node_name; VStr "tasks"]
       (("limit", VInt limit)
        :: (if truthy vmid then [("vmid", vmid)] else [])).

(** The outer loop of [get_tasks], with its [break]. *)
Fixpoint tasks_of_nodes (limit : Z) (vmid : value) (nodes tasks : list value)
  : M (list value) :=
  match nodes with
  | [] => ret tasks
  | node_info :: rest =>
      node_name <- lift (py_getitem node_info "node");;
      node_tasks <- call (tasks_request node_name limit vmid);;
      items <- lift (py_iter node_tasks);;
      tasks <- lift (collect_tasks limit node_name items tasks);;
      if reached limit tasks then ret tasks
      else tasks_of_nodes limit vmid rest tasks
  end.

(** The list [get_tasks] hands to the response builder. *)
Definition get_tasks_list (limit : Z) (vmid node : value) : M (list value) :=
  nodes <- (if truthy node then ret (VList [VDict [kv "node" node]])
            else call nodes_request);;
  node_list <- lift (py_iter nodes);;
  tasks_of_nodes limit vmid node_list [].

Definition TaskTools_get_tasks (limit : Z) (vmid node : value) : M (option content) :=
  handler "get tasks"
    (tasks <- get_tasks_list limit vmid node;;
     ret (format_response (VList tasks) "tasks")).

(** *** tools/template.py *)

Definition qemu_vm_path (node vmid : value) (rest : list value) : list value :=
  ([VStr "nodes"; node; VStr "qemu"; vmid] ++ rest)%list.

Definition vm_status_request (node vmid : value) : request :=
  Http GET (qemu_vm_path node vmid [VStr "status"; VStr "current"]) [].

Definition vm_config_request (node vmid : value) : request :=
  Http GET (qemu_vm_path node vmid [VStr "config"]) [].

Definition vm_config_put (node vmid : value) (params : kwargs) : request :=
  Http PUT (qemu_vm_path node vmid [VStr "config"]) params.

Definition vm_delete_request (node vmid : value) : request :=
  Http DELETE (qemu_vm_path node vmid []) [].

Definition vm_info_request (node vmid : value) : request :=
  Http GET (qemu_vm_path node vmid []) [].

Definition opt_param (k : string) (v : value) : kwargs :=
  if truthy v then [(k, v)] else [].

Definition not_stopped_message (vmid status : value) : string :=
  "VM " +++ py_str vmid
  +++ " must be stopped before converting to template. Current status: "
  +++ py_str status.

Definition not_a_template_message (vmid : value) : string :=
  "VM " +++ py_str vmid +++ " is not a template".

Definition failure (message : string) : value :=
  VDict [kv "success" (VBool false); kv "message" (VStr message)].

Definition TemplateTools_create_template (node vmid name description : value)
  : M (option content) :=
  handler ("create template from VM " +++ py_str vmid)
    (vm_status <- call (vm_status_request node vmid);;
     status <- lift (py_get vm_status "status" VNone);;
     if negb (py_eq_str status "stopped") then
       ret (format_response (failure (not_stopped_message vmid status))
                            "template_operation")
     else
       (if truthy name || truthy description then
          call (vm_config_put node vmid
                  (opt_param "name" name ++ opt_param "description" description));;;
          ret tt
        else ret tt);;;
       call (vm_config_put node vmid [("template", VInt 1)]);;;
       ret (format_response
              (VDict [kv "success" (VBool true);
                      kv "message"
                         (VStr ("VM " +++ py_str vmid
                                +++ " successfully converted to template"))])
              "template_operation")).

Definition TemplateTools_update_template
  (node vmid name description cores memory : value) : M (option content) :=
  handler ("update template " +++ py_str vmid)
    (vm_config <- call (vm_config_request node vmid);;
     template <- lift (py_get vm_config "template" VNone);;
     if negb (py_eq_int template 1) then
       ret (format_response (failure (not_a_template_message vmid))
                            "template_operation")
     else
       let params :=
         (opt_param "name" name ++ opt_param "description" description
          ++ opt_param "cores" cores ++ opt_param "memory" memory)%list in
       match params with
       | [] =>
           ret (format_response (failure "No update parameters provided")
                                "template_operation")
       | _ =>
           call (vm_config_put node vmid params);;;
           ret (format_response
                  (VDict [kv "success" (VBool true);
                          kv "message"
                             (VStr ("Template " +++ py_str vmid
                                    +++ " successfully updated"))])
                  "template_operation")
       end).

Definition TemplateTools_delete_template (node vmid : value)
  : M (option content) :=
  handler ("delete template " +++ py_str vmid)
    (vm_config <- call (vm_config_request node vmid);;
     template <- lift (py_get vm_config "template" VNone);;
     if negb (py_eq_int template 1) then
       ret (format_response (failure (not_a_template_message vmid))
                            "template_operation")
     else
       result <- call (vm_delete_request node vmid);;
       ret (format_response
              (VDict [kv "success" (VBool true);
                      kv "task_id" result;
                      kv "message"
                         (VStr ("Template " +++ py_str vmid
                                +++ " deletion initiated"))])
              "template_operation")).

(** [key.startswith('scsi') or key.startswith('ide') or
    key.startswith('sata')]. *)
Definition is_disk_key (key : value) : res bool :=
  a <~ py_startswith key "scsi";;
  if a then Ok true
  else b <~ py_startswith key "ide";;
       if b then Ok true else py_startswith key "sata".

(** [key.startswith('net')], the test of [get_template_details]. *)
Definition is_network_key (key : value) : res bool :=
  py_startswith key "net".

(** [template[k] = v] for the four settings read from the configuration. *)
Definition with_settings (template : value)
  (description cores memory os_type : value) : res value :=
  t <~ py_setitem template "description" description;;
  t <~ py_setitem t "cores" cores;;
  t <~ py_setitem t "memory" memory;;
  py_setitem t "os_type" os_type.

(** [for key, value in config.items(): if test(key): bucket[key] = value]. *)
Fixpoint bucket (test : value -> res bool) (items : dict) (acc : dict)
  : res dict :=
  match items with
  | [] => Ok acc
  | (key, v) :: rest =>
      b <~ test key;;
      bucket test rest (if b then dict_set acc key v else acc)
  end.

(** [config.items()]. *)
Definition py_items (v : value) : res dict :=
  match v with
  | VDict d => Ok d
  | _ => Raise (AttributeError (type_name v) "items")
  end.

(** The inner [try] of [get_templates]: the details of one template, read
    from its configuration.  The settings assigned before an exception
    stay assigned. *)
Definition template_with_details (node_name template : value) : M value :=
  let warned (vmid : value) (e : exn) (template : value) : M value :=
    log_line ("Could not get detailed info for template " +++ py_str vmid
              +++ ": " +++ exn_str e);;;
    ret template in
  match py_get template "vmid" VNone with
  | Raise e => warned VNone e template
  | Ok vmid =>
      if truthy vmid then
        r <- attempt (call (vm_config_request node_name vmid));;
        match r with
        | Raise e => warned vmid e template
        | Ok config =>
            match
              (description <~ py_get config "description" (VStr "No description");;
               cores <~ py_get config "cores" (VStr "N/A");;
               memory <~ py_get config "memory" (VStr "N/A");;
               os_type <~ py_get config "ostype" (VStr "N/A");;
               with_settings template description cores memory os_type)
            with
            | Raise e => warned vmid e template
            | Ok template =>
                match (items <~ py_items config;;
                       disks <~ bucket is_disk_key items [];;
                       py_setitem template "disks" (VDict disks)) with
                | Raise e => warned vmid e template
                | Ok template => ret template
                end
            end
        end
      else ret template
  end.

(** [for template in node_templates: template['node'] = node_name; ...]. *)
Fixpoint detail_templates (node_name : value) (node_templates : list value)
  : M (list value) :=
  match node_templates with
  | [] => ret []
  | template :: rest =>
      template <- lift (py_setitem template "node" node_name);;
      template <- template_with_details node_name template;;
      rest <- detail_templates node_name rest;;
      ret (template :: rest)
  end.

(** One turn of the loop of [TemplateTools.get_templates] over the nodes. *)
Definition TemplateTools_get_templates_node (templates : list value)
  (node : value) : M (list value) :=
  node_name <- lift (py_getitem node "node");;
  r <- attempt
         (node_vms <- call (qemu_request node_name);;
          items <- lift (py_iter node_vms);;
          node_templates <- lift (rfilter is_template items);;
          detail_templates node_name node_templates);;
  match r with
  | Raise e =>
      log_line ("Could not get templates for node " +++ py_str node_name
                +++ ": " +++ exn_str e);;;
      ret templates
  | Ok node_templates => ret (templates ++ node_templates)%list
  end.

Definition TemplateTools_get_templates : M (option content) :=
  handler "get templates"
    (nodes <- call nodes_request;;
     node_list <- lift (py_iter nodes);;
     templates <- foldM TemplateTools_get_templates_node node_list [];;
     ret (format_response (VList templates) "vm_templates")).

Definition TemplateTools_get_template_details (node vmid : value)
  : M (option content) :=
  handler ("get template details for " +++ py_str vmid)
    (vm_info <- call (vm_info_request node vmid);;
     template <- lift (py_get vm_info "template" VNone);;
     if negb (py_eq_int template 1) then
       ret (format_response (failure (not_a_template_message vmid))
                            "template_operation")
     else
       config <- call (vm_config_request node vmid);;
       name <- lift (py_get vm_info "name" (VStr ("vm-" +++ py_str vmid)));;
       description <- lift (py_get config "description" (VStr "No description"));;
       cores <- lift (py_get config "cores" (VStr "N/A"));;
       memory <- lift (py_get config "memory" (VStr "N/A"));;
       os_type <- lift (py_get config "ostype" (VStr "N/A"));;
       items <- lift (py_items config);;
       disks <- lift (bucket is_disk_key items []);;
       networks <- lift (bucket is_network_key items []);;
       ret (format_response
              (VDict [kv "vmid" vmid; kv "node" node; kv "name" name;
                      kv "description" description; kv "cores" cores;
                      kv "memory" memory; kv "os_type" os_type;
                      kv "disks" (VDict disks);
                      kv "networks" (VDict networks)])
              "template_details")).

(** *** tools/container.py: status, commands, performance, templates *)

Definition lxc_vm_path (node vmid : value) (rest : list value) : list value :=
  ([VStr "nodes"; node; VStr "lxc"; vmid] ++ rest)%list.

Definition lxc_status_request (node vmid : value) : request :=
  Http GET (lxc_vm_path node vmid [VStr "status"; VStr "current"]) [].

Definition lxc_config_request (node vmid : value) : request :=
  Http GET (lxc_vm_path node vmid [VStr "config"]) [].

Fixpoint repeat_string (s : string) (n : nat) : string :=
  match n with
  | O => EmptyString
  | S n' => s +++ repeat_string s n'
  end.

(** [v * n] for an integer literal [n]: a product of integers, or the
    repetition of a string or list. *)
Definition py_mul (v : value) (n : Z) : res value :=
  match v with
  | VInt z => Ok (VInt (z * n))
  | VBool b => Ok (VInt ((if b then 1 else 0) * n))
  | VStr s => Ok (VStr (repeat_string s (Z.to_nat n)))
  | VList l => Ok (VList (List.concat (repeat l (Z.to_nat n))))
  | _ =>
      Raise (TypeError ("unsupported operand type(s) for *: '" +++ type_name v
                        +++ "' and 'int'"))
  end.

Definition ContainerTools_get_container_status (node vmid : value)
  : M (option content) :=
  handler ("get container " +++ py_str vmid +++ " status")
    (status <- call (lxc_status_request node vmid);;
     config <- call (lxc_config_request node vmid);;
     st <- lift (py_get status "status" (VStr "unknown"));;
     name <- lift (py_get config "hostname" (VStr EmptyString));;
     cores <- lift (py_get config "cores" (VInt 1));;
     usage <- lift (py_get status "cpu" (VInt 0));;
     used <- lift (py_get status "mem" (VInt 0));;
     memory <- lift (py_get config "memory" (VInt 512));;
     total <- lift (kib <~ py_mul memory 1024;; py_mul kib 1024);;
     uptime <- lift (py_get status "uptime" (VInt 0));;
     disk <- lift (py_get status "disk" (VDict []));;
     network <- lift (py_get status "netout" (VDict []));;
     ret (format_response
            (VDict [kv "vmid" vmid; kv "node" node; kv "status" st;
                    kv "name" name;
                    kv "cpu" (VDict [kv "cores" cores; kv "usage" usage]);
                    kv "memory" (VDict [kv "used" used; kv "total" total]);
                    kv "uptime" uptime; kv "disk" disk;
                    kv "network" network])
            "container_status")).

Definition lxc_exec_request (node vmid command : value) : request :=
  Http POST (lxc_vm_path node vmid [VStr "exec"]) [("command", command)].

Definition task_log_request (node task_id : value) : request :=
  Http GET [VStr "nodes"; node; VStr "tasks"; task_id; VStr "log"] [].

(** [[entry.get("t", "") for entry in log]]. *)
Definition log_texts (log : value) : res (list value) :=
  entries <~ py_iter log;;
  rmap (fun entry => py_get entry "t" (VStr EmptyString)) entries.

Definition ContainerTools_execute_command (node vmid command : value)
  : M (option content) :=
  handler ("execute command in container " +++ py_str vmid)
    (task_id <- call (lxc_exec_request node vmid command);;
     task_status <- call (task_status_request node task_id);;
     exitstatus <- lift (py_get task_status "exitstatus" VNone);;
     if py_eq_str exitstatus "OK" then
       task_log <- call (task_log_request node task_id);;
       texts <- lift (log_texts task_log);;
       output <- lift (py_join newline texts);;
       ret (format_response
              (VDict [kv "success" (VBool true); kv "output" (VStr output);
                      kv "exit_code" (VInt 0)])
              "container_command")
     else
       reason <- lift (py_get task_status "exitstatus" (VStr "Unknown error"));;
       ret (format_response
              (VDict [kv "success" (VBool false);
                      kv "output"
                         (VStr ("Command execution failed: " +++ py_str reason));
                      kv "exit_code" (VInt 1)])
              "container_command")).

Definition lxc_rrddata_request (node vmid : value) : request :=
  Http GET (lxc_vm_path node vmid [VStr "rrddata"]) [].

(** The metrics [get_container_performance] and [get_vm_performance]
    read from the current status, with the history under [history_key]. *)
Definition performance_record (status rrd_data : value) (history_key : string)
  : res value :=
  cpu <~ py_get status "cpu" (VInt 0);;
  mem <~ py_get status "mem" (VInt 0);;
  maxmem <~ py_get status "maxmem" (VInt 0);;
  diskread <~ py_get status "diskread" (VInt 0);;
  diskwrite <~ py_get status "diskwrite" (VInt 0);;
  netin <~ py_get status "netin" (VInt 0);;
  netout <~ py_get status "netout" (VInt 0);;
  Ok (VDict [kv "cpu_usage" cpu;
             kv "memory" (VDict [kv "used" mem; kv "total" maxmem]);
             kv "disk_io" (VDict [kv "read_bytes" diskread;
                                  kv "write_bytes" diskwrite]);
             kv "network" (VDict [kv "in_bytes" netin; kv "out_bytes" netout]);
             kv history_key rrd_data]).

Definition ContainerTools_get_container_performance (node vmid : value)
  : M (option content) :=
  handler ("get container " +++ py_str vmid +++ " performance")
    (status <- call (lxc_status_request node vmid);;
     rrd_data <- try_ (call (lxc_rrddata_request node vmid))
                      (fun _ => ret (VList []));;
     performance <- lift (performance_record status rrd_data "historical_data");;
     ret (format_response performance "container_performance")).

(** [template.get("content", "").startswith("vztmpl")]. *)
Definition is_container_template (template : value) : res bool :=
  c <~ py_get template "content" (VStr EmptyString);;
  py_startswith c "vztmpl".

Definition ContainerTools_get_container_templates (node storage : value)
  : M (option content) :=
  handler "get container templates"
    (templates <- call (storage_request node (opt_param "storage" storage));;
     items <- lift (py_iter templates);;
     container_templates <- lift (rfilter is_container_template items);;
     ret (format_response (VList container_templates) "container_templates")).

(** *** tools/vm_lifecycle.py: power operations and performance *)

(** The shape [start_vm], [stop_vm] and [reboot_vm] share: [op] is the
    endpoint, and the word of the context and of the message. *)
Definition VMLifecycleTools_power (op : string) (node vmid : value)
  : M (option content) :=
  handler (op +++ " VM " +++ py_str vmid)
    (result <- call (power_request node vmid op);;
     task_id <- lift (py_get result "data" VNone);;
     ret (format_response
            (VDict [kv "success" (VBool true); kv "task_id" task_id;
                    kv "message"
                       (VStr ("VM " +++ py_str vmid +++ " " +++ op
                              +++ " initiated"))])
            "vm_operation")).

Definition VMLifecycleTools_start_vm : value -> value -> M (option content) :=
  VMLifecycleTools_power "start".

Definition VMLifecycleTools_stop_vm : value -> value -> M (option content) :=
  VMLifecycleTools_power "stop".

Definition VMLifecycleTools_reboot_vm : value -> value -> M (option content) :=
  VMLifecycleTools_power "reboot".

Definition qemu_rrddata_request (node vmid : value) : request :=
  Http GET (qemu_vm_path node vmid [VStr "rrddata"]) [("timeframe", VStr "hour")].

Definition VMLifecycleTools_get_vm_performance (node vmid : value)
  : M (option content) :=
  handler ("get performance metrics for VM " +++ py_str vmid)
    (status <- call (vm_status_request node vmid);;
     rrd_data <- try_ (call (qemu_rrddata_request node vmid))
                      (fun _ => ret (VList []));;
     metrics <- lift (performance_record status rrd_data "historical");;
     ret (format_response metrics "vm_performance")).

(** *** tools/task.py: the log of a task *)

Definition TaskTools_get_task_log (node upid : value) : M value :=
  try_ (log_result <- call (task_log_request node upid);;
        texts <- lift (log_texts log_result);;
        ret (VList texts))
       (fun _ => ret (VList [])).

(** *** tools/template.py: cloning a template *)

Definition template_clone_params
  (name target_node target_vmid target_storage full_clone : value) : kwargs :=
  ([("name", name); ("full", VInt (if truthy full_clone then 1 else 0))]
   ++ opt_param "target" target_node ++ opt_param "newid" target_vmid
   ++ opt_param "storage" target_storage)%list.

Definition TemplateTools_clone_template
  (node template_vmid name target_node target_vmid target_storage full_clone
   description : value) : M (option content) :=
  handler ("clone template " +++ py_str template_vmid)
    (task_id <- call (clone_request node template_vmid
                        (template_clone_params name target_node target_vmid
                                               target_storage full_clone));;
     (if truthy description && truthy target_vmid then
        let target_node_name := if truthy target_node then target_node else node in
        try_ (call (vm_config_put target_node_name target_vmid
                                  [("description", description)]);;;
              ret tt)
             (fun e =>
                log_line ("Could not update description for cloned VM: "
                          +++ exn_str e))
      else ret tt);;;
     ret (format_response
            (VDict [kv "success" (VBool true); kv "task_id" task_id;
                    kv "message"
                       (VStr ("Template " +++ py_str template_vmid
                              +++ " clone initiated with name '" +++ py_str name
                              +++ "'"))])
            "template_clone")).

(** ** proxmox_mcp/formatting/templates.py *)

(** [ProxmoxTheme.RESOURCES] and [ProxmoxTheme.SECTIONS] ([theme.py]) and
    [ProxmoxFormatters.format_bytes] and [ProxmoxFormatters.format_uptime]
    ([formatters.py]) are not part of the sources at hand; the renderers
    are parametric in them. *)
Variable RESOURCES : string -> string.
Variable SECTIONS : string -> string.
Variable format_bytes : value -> res string.
Variable format_uptime : value -> res string.
(** [s.upper()]. *)
Variable str_upper : string -> string.
(** Python floats: [used / total * 100] and the [:.1f] format. *)
Variable pyfloat : Type.
Variable float_percent : value -> value -> res pyfloat.
Variable format_1f : pyfloat -> string.

(** [(used / total * 100) if total > 0 else 0]: a float, or the integer
    zero of the guard. *)
Inductive percent : Type :=
| PZero
| PFloat (x : pyfloat).

Definition percent_of (used total : value) : res percent :=
  positive <~ py_gt0 total;;
  if positive then x <~ float_percent used total;; Ok (PFloat x)
  else Ok PZero.

(** [f"{p:.1f}"]. *)
Definition percent_1f (p : percent) : string :=
  match p with
  | PZero => "0.0"
  | PFloat x => format_1f x
  end.

Definition py_upper (v : value) : res string :=
  match v with
  | VStr s => Ok (str_upper s)
  | _ => Raise (AttributeError (type_name v) "upper")
  end.

Definition detail (label text : string) : string :=
  "  " +++ bullet +++ " " +++ label +++ ": " +++ text.


(** [result.extend(["", ...])] for each record, then ["\n".join(result)]. *)
Definition render_blocks (title : string) (blocks : list (list string))
  : string :=
  join newline (title :: List.concat (map (fun b => EmptyString :: b) blocks)).



(** [volid.split('/')[-1] if '/' in volid else volid]. *)
Definition template_name_of (volid : value) : res value :=
  match volid with
  | VStr s => Ok (VStr (after_last_slash s))
  | VList l =>
      if existsb (fun x => py_eq_str x "/") l
      then Raise (AttributeError "list" "split") else Ok volid
  | VDict d =>
      match dict_get d "/" with
      | Some _ => Raise (AttributeError "dict" "split")
      | None => Ok volid
      end
  | _ =>
      Raise (TypeError ("argument of type '" +++ type_name volid
                        +++ "' is not iterable"))
  end.




(** [key.startswith('net') and key != 'netif'], the test of
    [container_config]. *)
Definition is_net_interface_key (key : value) : res bool :=
  a <~ py_startswith key "net";;
  Ok (a && negb (py_eq_str key "netif")).

(** [key.startswith('mp') or key == 'rootfs']. *)
Definition is_mount_point_key (key : value) : res bool :=
  a <~ py_startswith key "mp";;
  Ok (a || py_eq_str key "rootfs").

(** [[f"  * {key}: {value}" for key, value in config.items() if test(key)]]. *)
Fixpoint config_lines (test : value -> res bool) (items : dict)
  : res (list string) :=
  match items with
  | [] => Ok []
  | (key, v) :: rest =>
      b <~ test key;;
      ls <~ config_lines test rest;;
      Ok (if b then detail (py_str key) (py_str v) :: ls else ls)
  end.

Definition section (title : string) (lines : list string) : list string :=
  match lines with
  | [] => []
  | _ => EmptyString :: title :: lines
  end.

Definition ProxmoxTemplates_container_config (config : value) : res string :=
  hostname <~ py_get config "hostname" (VStr "N/A");;
  cores <~ py_get config "cores" (VStr "N/A");;
  memory <~ py_get config "memory" (VStr "N/A");;
  swap <~ py_get config "swap" (VStr "N/A");;
  onboot <~ py_get config "onboot" (VInt 0);;
  items <~ py_items config;;
  net_interfaces <~ config_lines is_net_interface_key items;;
  mount_points <~ config_lines is_mount_point_key items;;
  Ok (join newline
        ([ SECTIONS "configuration" +++ " Container Configuration";
           EmptyString;
           detail "Hostname" (py_str hostname);
           "  " +++ bullet +++ " CPU: " +++ py_str cores +++ " cores";
           "  " +++ bullet +++ " Memory: " +++ py_str memory +++ " MB";
           "  " +++ bullet +++ " Swap: " +++ py_str swap +++ " MB";
           detail "Start on boot" (if py_eq_int onboot 1 then "Yes" else "No") ]
         ++ section (SECTIONS "network" +++ " Network Interfaces") net_interfaces
         ++ section (SECTIONS "storage" +++ " Storage") mount_points)).

(** *** Lists of virtual machines and storage pools *)





(** *** The list of nodes *)

(** [f"  * Disk: {format_bytes(disk_used)} / {format_bytes(disk_total)}
    ({disk_percent:.1f}%)"], the line of [if disk:]. *)
Definition disk_line (disk : value) : res string :=
  disk_used <~ py_get disk "used" (VInt 0);;
  disk_total <~ py_get disk "total" (VInt 0);;
  disk_percent <~ percent_of disk_used disk_total;;
  used <~ format_bytes disk_used;;
  total <~ format_bytes disk_total;;
  Ok (detail "Disk" (used +++ " / " +++ total
                     +++ " (" +++ percent_1f disk_percent +++ "%)")).

(** The lines of one node, without the empty line before them. *)
Definition node_lines (node : value) : res (list string) :=
  status <~ py_get node "status" (VStr "unknown");;
  memory <~ py_get node "memory" (VDict []);;
  memory_used <~ py_get memory "used" (VInt 0);;
  memory_total <~ py_get memory "total" (VInt 0);;
  memory_percent <~ percent_of memory_used memory_total;;
  name <~ py_getitem node "node";;
  status <~ py_upper status;;
  uptime <~ py_get node "uptime" (VInt 0);;
  uptime <~ format_uptime uptime;;
  maxcpu <~ py_get node "maxcpu" (VStr "N/A");;
  used <~ format_bytes memory_used;;
  total <~ format_bytes memory_total;;
  let lines :=
    [ RESOURCES "node" +++ " " +++ py_str name;
      detail "Status" status;
      detail "Uptime" uptime;
      detail "CPU Cores" (py_str maxcpu);
      detail "Memory" (used +++ " / " +++ total
                       +++ " (" +++ percent_1f memory_percent +++ "%)") ] in
  disk <~ py_get node "disk" (VDict []);;
  if truthy disk then
    line <~ disk_line disk;;
    Ok (lines ++ [line])%list
  else Ok lines.

Definition ProxmoxTemplates_node_list (nodes : value) : res string :=
  items <~ py_iter nodes;;
  blocks <~ rmap node_lines items;;
  Ok (render_blocks (RESOURCES "node" +++ " Proxmox Nodes") blocks).

(** *** Templates of virtual machines *)

(** [[f"    - {disk_id}: {disk_value}" for disk_id, disk_value in
    disks.items()]], under its heading when there is a line. *)
Definition disk_info_lines (disks : value) : res (list string) :=
  if truthy disks then
    items <~ py_items disks;;
    match items with
    | [] => Ok []
    | _ =>
        Ok (("  " +++ bullet +++ " Disks:")
            :: map (fun e => "    - " +++ py_str (fst e) +++ ": " +++ py_str (snd e))
                   items)
    end
  else Ok [].

(** The lines of one template, without the empty line before them. *)
Definition vm_template_lines (template : value) : res (list string) :=
  fallback <~ py_get template "vmid" (VStr "Unknown");;
  template_name <~ py_get template "name" (VStr ("vm-" +++ py_str fallback));;
  vmid <~ py_get template "vmid" (VStr "Unknown");;
  node <~ py_get template "node" (VStr "N/A");;
  description <~ py_get template "description" (VStr "No description");;
  cores <~ py_get template "cores" (VStr "N/A");;
  memory <~ py_get template "memory" (VStr "N/A");;
  os_type <~ py_get template "os_type" (VStr "N/A");;
  disks <~ py_get template "disks" (VDict []);;
  disk_info <~ disk_info_lines disks;;
  Ok ([ RESOURCES "template" +++ " " +++ py_str template_name
          +++ " (ID: " +++ py_str vmid +++ ")";
        detail "Node" (py_str node);
        detail "Description" (py_str description);
        detail "CPU Cores" (py_str cores);
        "  " +++ bullet +++ " Memory: " +++ py_str memory +++ " MB";
        detail "OS Type" (py_str os_type) ] ++ disk_info)%list.

Definition no_vm_templates : string :=
  RESOURCES "template" +++ " No VM templates found".

Definition ProxmoxTemplates_vm_templates (templates : value) : res string :=
  if negb (truthy templates) then Ok no_vm_templates
  else
    items <~ py_iter templates;;
    blocks <~ rmap vm_template_lines items;;
    Ok (render_blocks (RESOURCES "template" +++ " VM Templates") blocks).

(** [[f"  * {key}: {value}" for key, value in bucket.items()]], under an
    empty line and a title when the bucket is not empty. *)
Definition bucket_section (title : string) (bucket : value)
  : res (list string) :=
  if truthy bucket then
    items <~ py_items bucket;;
    Ok (EmptyString :: title
        :: map (fun e => detail (py_str (fst e)) (py_str (snd e))) items)
  else Ok [].

Definition no_template_details : string :=
  RESOURCES "template" +++ " Template details not found".

Definition ProxmoxTemplates_template_details (template : value) : res string :=
  if negb (truthy template) then Ok no_template_details
  else
    fallback <~ py_get template "vmid" (VStr "Unknown");;
    template_name <~ py_get template "name" (VStr ("vm-" +++ py_str fallback));;
    vmid <~ py_get template "vmid" (VStr "Unknown");;
    node <~ py_get template "node" (VStr "N/A");;
    description <~ py_get template "description" (VStr "No description");;
    cores <~ py_get template "cores" (VStr "N/A");;
    memory <~ py_get template "memory" (VStr "N/A");;
    os_type <~ py_get template "os_type" (VStr "N/A");;
    disks <~ py_get template "disks" (VDict []);;
    disk_lines <~ bucket_section (SECTIONS "storage" +++ " Disks") disks;;
    networks <~ py_get template "networks" (VDict []);;
    network_lines <~ bucket_section (SECTIONS "network" +++ " Network Interfaces")
                                    networks;;
    Ok (join newline
          ([ RESOURCES "template" +++ " Template: " +++ py_str template_name
               +++ " (ID: " +++ py_str vmid +++ ")";
             detail "Node" (py_str node);
             detail "Description" (py_str description);
             detail "CPU Cores" (py_str cores);
             "  " +++ bullet +++ " Memory: " +++ py_str memory +++ " MB";
             detail "OS Type" (py_str os_type) ]
           ++ disk_lines ++ network_lines)).

(** *** Outcomes of operations *)

Fixpoint is_substring (needle s : string) : bool :=
  String.prefix needle s
  || match s with
     | EmptyString => false
     | String _ s' => is_substring needle s'
     end.

(** ['k' in container] for a string literal [k]. *)
Definition py_contains (container : value) (k : string) : res bool :=
  match container with
  | VDict d => Ok (match dict_get d k with Some _ => true | None => false end)
  | VList l => Ok (existsb (fun x => py_eq_str x k) l)
  | VStr s => Ok (is_substring k s)
  | _ =>
      Raise (TypeError ("argument of type '" +++ type_name container
                        +++ "' is not iterable"))
  end.

(** The body [template_operation] and [template_clone] share: the
    defaults of the message are [done] and [failed]. *)
Definition outcome_lines (done failed : string) (operation : value)
  : res (list string) :=
  success <~ py_get operation "success" (VBool false);;
  if truthy success then
    message <~ py_get operation "message" (VStr done);;
    has_task <~ py_contains operation "task_id";;
    if has_task then
      task_id <~ py_get operation "task_id" (VStr "N/A");;
      Ok [SECTIONS "success" +++ " " +++ py_str message; EmptyString;
          "Task ID: " +++ py_str task_id]
    else Ok [SECTIONS "success" +++ " " +++ py_str message]
  else
    message <~ py_get operation "message" (VStr failed);;
    has_error <~ py_contains operation "error";;
    if has_error then
      error <~ py_get operation "error" (VStr "Unknown error");;
      Ok [SECTIONS "error" +++ " " +++ py_str message; EmptyString;
          "Error: " +++ py_str error]
    else Ok [SECTIONS "error" +++ " " +++ py_str message].

Definition ProxmoxTemplates_template_operation (operation : value)
  : res string :=
  lines <~ outcome_lines "Operation completed successfully" "Operation failed"
                         operation;;
  Ok (join newline lines).

Definition ProxmoxTemplates_template_clone (clone_result : value) : res string :=
  lines <~ outcome_lines "Template cloned successfully" "Template clone failed"
                         clone_result;;
  Ok (join newline lines).

Definition ProxmoxTemplates_container_command (command_result : value)
  : res string :=
  success <~ py_get command_result "success" (VBool false);;
  exit_code <~ py_get command_result "exit_code" (VInt 1);;
  output <~ py_get command_result "output" (VStr EmptyString);;
  Ok (join newline
        [ if truthy success
          then SECTIONS "success" +++ " Command executed successfully (exit code: "
               +++ py_str exit_code +++ ")"
          else SECTIONS "error" +++ " Command execution failed (exit code: "
               +++ py_str exit_code +++ ")";
          EmptyString; "Output:"; py_str output ]).

(** ** Buckets of configuration keys, as the specification words them *)

(** A mapping as JSON decodes it: its keys are strings. *)
Definition json_object (items : list (string * value)) : dict :=
  map (fun e => (VStr (fst e), snd e)) items.

(** Network interfaces: prefix [net], the literal [netif] apart. *)
Definition net_interface_key (k : string) : bool :=
  String.prefix "net" k && negb (String.eqb k "netif").

(** Storage and mount points: prefix [mp], or [rootfs] itself. *)
Definition mount_point_key (k : string) : bool :=
  String.prefix "mp" k || String.eqb k "rootfs".

(** Disks: prefix [scsi], [ide] or [sata]. *)
Definition disk_key (k : string) : bool :=
  String.prefix "scsi" k || String.prefix "ide" k || String.prefix "sata" k.

(** Every key with prefix [net], [netif] included. *)
Definition net_prefixed_key (k : string) : bool := String.prefix "net" k.

Definition select (p : string -> bool) (items : list (string * value))
  : list (string * value) :=
  filter (fun e => p (fst e)) items.

(** ** Blocks and separating lines, as the specification words them *)

(** Every block preceded by exactly one empty line: a line break ends the
    previous line, a second one makes the empty line. *)
Fixpoint separated (blocks : list (list string)) : string :=
  match blocks with
  | [] => EmptyString
  | b :: rest => newline +++ newline +++ join newline b +++ separated rest
  end.

(** The outcome of a list renderer on a non-empty list: the title, then
    each record's block after one empty line. *)
Definition rendered {A} (f : A -> res (list string)) (title : string)
  (l : list A) (r : res string) : Prop :=
  match r with
  | Ok text =>
      exists blocks,
        Forall2 (fun x b => f x = Ok b) l blocks
        /\ text = title +++ separated blocks
  | Raise e => exists x, In x l /\ f x = Raise e
  end.

(** The identifier drawn by [random.randint(100, 999)] in the world [w]. *)
Definition fallback_vmid (w : world) : Z := 100 + entropy (draws w) mod 900.

(** ** The three ways [wait_for_task] ends *)






(** One rendered line per selected entry, as [container_config] writes
    them. *)
Definition entry_lines (p : string -> bool) (items : list (string * value))
  : list string :=
  map (fun e => detail (fst e) (py_str (snd e))) (select p items).

(** The head of a rendered container configuration: the title, an empty
    line and the five basic settings. *)
Definition config_head (items : list (string * value)) : list string :=
  let config := VDict (json_object items) in
  [ SECTIONS "configuration" +++ " Container Configuration";
    EmptyString;
    detail "Hostname" (py_str (field config "hostname" (VStr "N/A")));
    "  " +++ bullet +++ " CPU: " +++ py_str (field config "cores" (VStr "N/A"))
         +++ " cores";
    "  " +++ bullet +++ " Memory: "
         +++ py_str (field config "memory" (VStr "N/A")) +++ " MB";
    "  " +++ bullet +++ " Swap: " +++ py_str (field config "swap" (VStr "N/A"))
         +++ " MB";
    detail "Start on boot"
           (if py_eq_int (field config "onboot" (VInt 0)) 1 then "Yes" else "No") ].

(** The record [get_template_details] builds, with its two buckets
    filled by [disks] and [networks]. *)
Definition template_details_of (node vmid vm_info : value)
  (items : list (string * value)) (disks networks : list (string * value))
  : value :=
  let config := VDict (json_object items) in
  VDict [kv "vmid" vmid; kv "node" node;
         kv "name" (field vm_info "name" (VStr ("vm-" +++ py_str vmid)));
         kv "description" (field config "description" (VStr "No description"));
         kv "cores" (field config "cores" (VStr "N/A"));
         kv "memory" (field config "memory" (VStr "N/A"));
         kv "os_type" (field config "ostype" (VStr "N/A"));
         kv "disks" (VDict (json_object disks));
         kv "networks" (VDict (json_object networks))].

(** ** Fan-out over the nodes, as the specification words it *)

(** The concatenation, in the order of the node list, of what each node
    contributes; the node at position [i] is asked by the remote call
    number [k + i] of the run. *)
Fixpoint fanout {A} (contribution : nat -> string -> list A) (k : nat)
  (names : list string) : list A :=
  match names with
  | [] => []
  | name :: rest => (contribution k name ++ fanout contribution (S k) rest)%list
  end.

(** The state of a loop over the nodes after it visited [names]. *)
Fixpoint visit {St} (next : nat -> string -> St -> St) (k : nat)
  (names : list string) (s : St) : St :=
  match names with
  | [] => s
  | name :: rest => visit next (S k) rest (next k name s)
  end.

(** A node record that carries the node's name. *)
Definition named (node : value) (name : string) : Prop :=
  py_getitem node "node" = Ok (VStr name).

Definition is_dict (v : value) : Prop := exists d, v = VDict d.

(** What a node's call may do: raise, or return a list of records. *)
Definition records_or_raises (r : res value) : Prop :=
  match r with
  | Ok v => exists l, v = VList l /\ Forall is_dict l
  | Raise _ => True
  end.


(** [record['node'] = node_name] on a record. *)
Definition tagged (name : string) (record : value) : value :=
  match record with
  | VDict d => VDict (dict_set d "node" (VStr name))
  | _ => record
  end.



Definition is_backup (record : value) : bool :=
  py_eq_str (field record "content" VNone) "backup".

Definition backup_entry (name : string) (b : value) : value :=
  VDict [kv "filename" (field b "volid" (VStr EmptyString));
         kv "node" (VStr name);
         kv "vmid" (field b "vmid" (VStr EmptyString));
         kv "size" (field b "size" (VInt 0));
         kv "timestamp" (field b "ctime" (VInt 0));
         kv "format" (field b "format" (VStr EmptyString))].


Definition vm_contribution (k : nat) (name : string) : list value :=
  match remote k (qemu_request name) with
  | Ok (VList l) => l
  | _ => []
  end.

Definition vm_complaints (k : nat) (name : string) : list string :=
  match remote k (qemu_request name) with
  | Ok _ => []
  | Raise e =>
      [json_dumps (error_envelope ("Failed to get VMs for node " +++ name
                                   +++ ": " +++ exn_str e))]
  end.

Definition marked_template (record : value) : bool :=
  py_eq_int (field record "template" VNone) 1.

Definition template_contribution (k : nat) (name : string) : list value :=
  match remote k (qemu_request name) with
  | Ok (VList l) => map (tagged name) (filter marked_template l)
  | _ => []
  end.

Definition template_complaints (k : nat) (name : string) : list string :=
  match remote k (qemu_request name) with
  | Ok _ => []
  | Raise e =>
      [json_dumps (error_envelope ("Failed to get templates for node " +++ name
                                   +++ ": " +++ exn_str e))]
  end.



(** The entries of a configuration whose key names a disk. *)
Definition disk_entries (config : dict) : dict :=
  filter (fun e => match fst e with VStr k => disk_key k | _ => false end)
         config.

(** A template record with the details [TemplateTools.get_templates]
    reads from the answer [r] to its configuration query. *)
Definition details_from (template : value) (r : res value) : value :=
  match template, r with
  | VDict d, Ok (VDict config) =>
      let c := VDict config in
      VDict
        (dict_set
           (dict_set
              (dict_set
                 (dict_set
                    (dict_set d "description"
                              (field c "description" (VStr "No description")))
                    "cores" (field c "cores" (VStr "N/A")))
                 "memory" (field c "memory" (VStr "N/A")))
              "os_type" (field c "ostype" (VStr "N/A")))
           "disks" (VDict (disk_entries config)))
  | _, _ => template
  end.

Definition detailed (name : string) (template : value) : value :=
  let vmid := field template "vmid" VNone in
  if truthy vmid
  then details_from template (remote 0%nat (vm_config_request name vmid))
  else template.




(** A virtual-machine record [get_vms] can summarise: it has a status,
    and an identifier and a name when it runs. *)
Definition summarisable (vm : value) : Prop :=
  exists st, py_getitem vm "status" = Ok st
             /\ (py_eq_str st "running" = true ->
                 exists vmid name, py_getitem vm "vmid" = Ok vmid
                                   /\ py_getitem vm "name" = Ok name).

Definition vms_or_raises (r : res value) : Prop :=
  match r with
  | Ok v => exists l, v = VList l /\ Forall summarisable l
  | Raise _ => True
  end.

(** [vm['status'] == 'running'] where the status is there. *)
Definition running_vm (vm : value) : bool :=
  match py_getitem vm "status" with
  | Ok st => py_eq_str st "running"
  | Raise _ => false
  end.

(** An entry of [vms_by_node] that [node_stat] can summarise. *)
Definition stat_ready (entry : value * value) : Prop :=
  exists l, snd entry = VList l /\ Forall summarisable l.

(** The state of the loop of [get_vms], the pair of [vms] and
    [vms_by_node], after the node [name] answered call [k]. *)
Definition vms_next (k : nat) (name : string) (s : list value * dict)
  : list value * dict :=
  match remote k (qemu_request name) with
  | Ok (VList l) => ((fst s ++ l)%list, dict_set (snd s) (VStr name) (VList l))
  | _ => s
  end.

(** ** The task listing, as the specification words it *)

(** The entry [get_tasks] makes of a task of the node [name]. *)
Definition task_entry (name : string) (task : value) : value :=
  VDict [kv "upid" (field task "upid" (VStr EmptyString));
         kv "type" (field task "type" (VStr EmptyString));
         kv "status" (field task "status" (VStr EmptyString));
         kv "node" (VStr name);
         kv "starttime" (field task "starttime" (VInt 0));
         kv "endtime" (field task "endtime" (VInt 0));
         kv "id" (field task "id" (VStr EmptyString));
         kv "user" (field task "user" (VStr EmptyString));
         kv "vmid" (field task "vmid" (VStr EmptyString))].

(** The entries of the tasks the node [name] reports to call [k]. *)
Definition task_contribution (limit : Z) (vmid : value) (k : nat)
  (name : string) : list value :=
  match remote k (tasks_request name limit vmid) with
  | Ok (VList l) => map (task_entry name) l
  | _ => []
  end.

(** A call that answers a list of records. *)
Definition answers_records (r : res value) : Prop :=
  exists l, r = Ok (VList l) /\ Forall is_dict l.

(** The nodes a listing has to ask, in order, when it holds [have]
    entries and stops as soon as it holds [limit] of them: each node is
    asked only if the nodes before it left the listing short. *)
Fixpoint nodes_asked (limit : Z) (contribution : nat -> string -> list value)
  (k : nat) (names : list string) (have : nat) : list string :=
  match names with
  | [] => []
  | name :: rest =>
      let have' := (have + List.length (contribution k name))%nat in
      name :: (if limit <=? Z.of_nat have' then []
               else nodes_asked limit contribution (S k) rest have')
  end.

(** ** Outcomes, as the further properties word them *)

(** The data [execute_command] hands to the response builder. *)
Definition command_outcome (ok : bool) (output : string) : value :=
  VDict [kv "success" (VBool ok); kv "output" (VStr output);
         kv "exit_code" (VInt (if ok then 0 else 1))].

(** A computation that ends normally in every world. *)
Definition returns {A} (c : M A) : Prop :=
  forall w, exists a w', c w = (Ok a, w').

(** The setting [config[section][key]] of the configuration at hand,
    [None] where it has none. *)
Definition setting (section key : string) : value :=
  match config_json with
  | Ok config =>
      match configured config section key with
      | Ok v => v
      | Raise _ => VNone
      end
  | Raise _ => VNone
  end.

(** The four settings in the order [run_proxmox_api] reads them, or the
    exception of the first one that cannot be read. *)
Definition credentials (config : value) : res (list value) :=
  host <~ configured config "proxmox" "host";;
  user <~ configured config "auth" "user";;
  token_name <~ configured config "auth" "token_name";;
  token_value <~ configured config "auth" "token_value";;
  Ok [host; user; token_name; token_value].

(** The words every command starts with: the interpreter, the script and
    the four settings. *)
Definition script_prefix : list value :=
  [ VStr sys_executable; VStr API_SCRIPT_PATH;
    VStr "--host"; setting "proxmox" "host";
    VStr "--user"; setting "auth" "user";
    VStr "--token-name"; setting "auth" "token_name";
    VStr "--token-value"; setting "auth" "token_value" ].

(** The command line [run_proxmox_api] builds. *)
Definition command_line (action : string) (kw : kwargs) : list value :=
  (script_prefix ++ [VStr "--action"; VStr action]
   ++ map VStr (kwargs_flags kw))%list.

(** The reply to a run of the script: its decoded output, or an error
    envelope when the run or the decoding raised. *)
Definition script_reply (r : res value) (v : value) : Prop :=
  match r with
  | Ok x => v = x
  | Raise _ => exists msg, v = error_envelope msg
  end.

(** An option the script's parser declares. *)
Definition flag_declared (e : string * value) : Prop :=
  In ("--" +++ dashes (fst e)) script_options.

(** What the body of [handle_mcp_request] does in a world: it answers
    with an error envelope and touches nothing, it raises and touches
    nothing, or it is one run of the script. *)
Definition dispatches (c : P value) : Prop :=
  forall w,
    (exists msg, c w = (Ok (error_envelope msg), w))
    \/ (exists e, c w = (Raise (Exception e), w))
    \/ (exists action kw,
           In action script_actions /\ Forall flag_declared kw
           /\ c w = run_proxmox_api action kw w).

(** The world after the logger has been handed one line. *)
Definition logged (line : string) (w : world) : world :=
  mkWorld (calls w) (logs w ++ [line]) (stdout w) (clock w) (sleeps w) (draws w).

(** The text of the [AttributeError] that [v.get] raises on a value that
    is no mapping, under the prefix of the dispatcher's handler. *)
Definition malformed_message (v : value) : string :=
  "Error handling MCP request: '" +++ type_name v
  +++ "' object has no attribute 'get'".

(** The world after the remote call [r]. *)
Definition called (r : request) (w : world) : world :=
  mkWorld (calls w ++ [r]) (logs w) (stdout w)
          (clock w + Z.of_N (latency (List.length (calls w))))
          (sleeps w) (draws w).

(** [c] is one remote call: it hands back the answer as it is, or an
    error envelope that ends with the text of the exception. *)
Definition forwards (r : request) (c : M value) : Prop :=
  forall w,
    exists v,
      c w = (Ok v, called r w)
      /\ match remote (List.length (calls w)) r with
         | Ok x => v = x
         | Raise e => exists what, v = error_envelope (what +++ ": " +++ exn_str e)
         end.

(** The identifier [get_next_vmid] returns in the world [w]. *)
Definition next_vmid_of (w : world) : value :=
  match remote (List.length (calls w)) nextid_request with
  | Ok x => x
  | Raise _ => VInt (fallback_vmid w)
  end.

(** What a node's call may do: raise, or return a list. *)
Definition list_or_raises (r : res value) : Prop :=
  match r with
  | Ok v => exists l, v = VList l
  | Raise _ => True
  end.

(** [record[k]], [None] where the record has no such field. *)
Definition item (record : value) (k : string) : value :=
  match py_getitem record k with
  | Ok x => x
  | Raise _ => VNone
  end.

(** The entry of [running_vms] for one virtual machine. *)
Definition vm_summary (vm : value) : value :=
  VDict [kv "vmid" (item vm "vmid"); kv "name" (item vm "name");
         kv "status" (item vm "status")].

(** The entry of [node_stats] for a node that answered with [l]. *)
Definition node_summary (l : list value) : value :=
  VDict [kv "total" (VInt (Z.of_nat (List.length l)));
         kv "running" (VInt (Z.of_nat (List.length (filter running_vm l))));
         kv "running_vms" (VList (map vm_summary (filter running_vm l)))].

(** The node asked by call [k] with the list it answered, when it did. *)
Definition answered (k : nat) (name : string) : list (string * list value) :=
  match remote k (qemu_request name) with
  | Ok (VList l) => [(name, l)]
  | _ => []
  end.

Definition by_node_entry (e : string * list value) : string * value :=
  (fst e, VList (snd e)).

Definition node_stats_entry (e : string * list value) : string * value :=
  (fst e, node_summary (snd e)).

(** The outcome of a handler whose body raised [e] in the world [w]: the
    error hook is called with the context and the exception, and the
    handler returns [None] when the hook returns. *)
Definition handed_to_hook (context : string) (e : exn) (w : world)
  : res (option content) * world :=
  (handle_error context e;;; ret None) w.

(** The history a performance report carries: the answer of the history
    query, the empty list when it raised. *)
Definition history_of (r : res value) : value :=
  match r with
  | Ok x => x
  | Raise _ => VList []
  end.

(** A storage entry that names a container template. *)
Definition names_container_template (entry : value) : bool :=
  match field entry "content" (VStr EmptyString) with
  | VStr c => String.prefix "vztmpl" c
  | _ => false
  end.

(** A storage entry whose [content], when it has one, is a string. *)
Definition content_is_text (entry : value) : Prop :=
  is_dict entry
  /\ exists c : string, field entry "content" (VStr EmptyString) = VStr c.

(** The reply of a conversion that went through. *)
Definition converted (vmid : value) : content :=
  format_response
    (VDict [kv "success" (VBool true);
            kv "message"
               (VStr ("VM " +++ py_str vmid
                      +++ " successfully converted to template"))])
    "template_operation".

(** The outcome of a handler whose last remote call is [r], made in the
    world [w]: the reply when the call answers, the error hook when it
    raises. *)
Definition concluded (context : string) (r : request) (reply : content)
  (w : world) : res (option content) * world :=
  match remote (List.length (calls w)) r with
  | Ok _ => (Ok (Some reply), called r w)
  | Raise e => handed_to_hook context e (called r w)
  end.

(** The reply of a clone that was accepted. *)
Definition clone_initiated (template_vmid name task_id : value) : content :=
  format_response
    (VDict [kv "success" (VBool true); kv "task_id" task_id;
            kv "message"
               (VStr ("Template " +++ py_str template_vmid
                      +++ " clone initiated with name '" +++ py_str name
                      +++ "'"))])
    "template_clone".

(** The records at the head of a list, up to its first entry that is no
    mapping. *)
Fixpoint leading_records (l : list value) : list value :=
  match l with
  | VDict d :: rest => VDict d :: leading_records rest
  | _ => []
  end.

(** What a node contributes to [list_backups], whatever its call does. *)
Definition backups_of (storage vmid : value) (k : nat) (name : string)
  : list value :=
  match remote k (storage_request name (backup_params storage vmid)) with
  | Ok answer =>
      match py_iter answer with
      | Ok items =>
          map (backup_entry name) (filter is_backup (leading_records items))
      | Raise _ => []
      end
  | Raise _ => []
  end.

(** The head of rendered template details: the title and the five
    settings. *)
Definition details_head (node vmid vm_info : value)
  (items : list (string * value)) : list string :=
  let config := VDict (json_object items) in
  [ RESOURCES "template" +++ " Template: "
      +++ py_str (field vm_info "name" (VStr ("vm-" +++ py_str vmid)))
      +++ " (ID: " +++ py_str vmid +++ ")";
    detail "Node" (py_str node);
    detail "Description"
           (py_str (field config "description" (VStr "No description")));
    detail "CPU Cores" (py_str (field config "cores" (VStr "N/A")));
    "  " +++ bullet +++ " Memory: "
         +++ py_str (field config "memory" (VStr "N/A")) +++ " MB";
    detail "OS Type" (py_str (field config "ostype" (VStr "N/A"))) ].

(** The data of a success envelope the tools build. *)
Definition success_with (message : string) (task_id : option value) : value :=
  VDict (kv "success" (VBool true)
         :: match task_id with
            | Some t => [kv "task_id" t; kv "message" (VStr message)]
            | None => [kv "message" (VStr message)]
            end).

(** ** The percentage of a pair, as the specification words it *)




(** ** Concrete collaborators for worked runs *)

(** Stand-ins for the formatters: a size written out in bytes, a duration
    in seconds, and a percentage of integers kept in tenths. *)
Definition in_bytes (v : value) : res string :=
  match v with
  | VInt z => Ok (string_of_Z z +++ " B")
  | _ => Raise (TypeError "unsupported operand type(s) for /")
  end.

Definition in_seconds (v : value) : res string :=
  match v with
  | VInt z => Ok (string_of_Z z +++ "s")
  | _ => Raise (TypeError "unsupported operand type(s) for //")
  end.

Definition in_tenths (used total : value) : res Z :=
  match used, total with
  | VInt u, VInt t => Ok (u * 1000 / t)
  | _, _ => Raise (TypeError "unsupported operand type(s) for /")
  end.

Definition tenths_1f (x : Z) : string :=
  string_of_Z (x / 10) +++ "." +++ string_of_Z (x mod 10).

Definition unchanged (s : string) : string := s.




(** A guest and a node whose memory and disk are half used. *)
Definition half_used : value :=
  VDict [kv "used" (VInt 512); kv "total" (VInt 1024)].


Definition busy_node : value :=
  VDict [kv "node" (VStr "pve1"); kv "status" (VStr "online");
         kv "uptime" (VInt 3600); kv "maxcpu" (VInt 8);
         kv "memory" half_used; kv "disk" half_used].

(** A remote that answers the [k]-th call of a run with the [k]-th entry
    of a script, whatever is asked. *)
Definition scripted (script : list (res value)) (k : nat) (_ : request)
  : res value :=
  nth k script (Raise (ApiError "connection lost")).

Definition instant (_ : nat) : N := 0%N.

Definition constant_draw (z : Z) (_ : nat) : Z := z.

Definition plain_repr (_ : value) : string := "<container>".

Definition world0 : world := mkWorld [] [] [] 0 0 0.

(** A configuration with the four settings. *)
Definition sample_settings : value :=
  VDict [kv "proxmox" (VDict [kv "host" (VStr "pve.example.org")]);
         kv "auth" (VDict [kv "user" (VStr "root@pam");
                           kv "token_name" (VStr "mcp");
                           kv "token_value" (VStr "secret")])].

(** What a user types. *)
Definition typed (s : string) : list keystroke :=
  map Key (list_ascii_of_string s).

(** A response builder that keeps the data and the kind side by side. *)
Definition paired (data : value) (kind : string) : value * string :=
  (data, kind).

(** An error hook that logs and raises, as the handlers expect of it. *)
Definition failing_hook (context : string) (e : exn) : M unit :=
  log_line ("Failed to " +++ context +++ ": " +++ exn_str e);;;
  raise (ApiError ("Failed to " +++ context +++ ": " +++ exn_str e)).

Definition node_record (name : string) : value := VDict [kv "node" (VStr name)].

(** A guest record that every listing can use. *)
Definition guest (vmid : Z) (name status : string) : value :=
  VDict [kv "vmid" (VInt vmid); kv "name" (VStr name);
         kv "status" (VStr status); kv "template" (VInt 1);
         kv "content" (VStr "backup"); kv "volid" (VStr ("local:backup/" +++ name))].

(** Three nodes; the call for the second raises. *)
Definition three_nodes : list (res value) :=
  [ Ok (VList [node_record "pve1"; node_record "pve2"; node_record "pve3"]);
    Ok (VList [guest 101 "web" "running"]);
    Raise (ApiError "pve2 unreachable");
    Ok (VList [guest 301 "db" "stopped"]) ].

(** A theme that writes each key between brackets. *)
Definition bracketed (key : string) : string := "[" +++ key +++ "]".

Definition three_names : list string := ["pve1"; "pve2"; "pve3"].

(** [json.dumps] reduced to the text of the first field. *)
Definition first_text (v : value) : string :=
  match v with
  | VDict ((_, VStr m) :: _) => m
  | _ => "<json>"
  end.

Definition unknown_request : value :=
  VDict [kv "tool" (VStr "unknown_op"); kv "arguments" (VDict [])].

(** [start_vm] without its [vmid]. *)
Definition start_vm_request : value :=
  VDict [kv "tool" (VStr "start_vm");
         kv "arguments" (VDict [kv "node" (VStr "pve1")])].

(** A template that is running, and a stopped guest that is no template. *)
Definition running_template : value :=
  VDict [kv "status" (VStr "running"); kv "template" (VInt 1);
         kv "name" (VStr "golden")].

Definition stopped_guest : value :=
  VDict [kv "status" (VStr "stopped"); kv "name" (VStr "web")].

(** A container configuration with the literal key [netif]. *)
Definition sample_config : list (string * value) :=
  [ ("hostname", VStr "ct1"); ("net0", VStr "name=eth0,bridge=vmbr0");
    ("netif", VStr "legacy"); ("mp0", VStr "local:100/data");
    ("rootfs", VStr "local:100/root"); ("scsi0", VStr "local:100/disk-0");
    ("ide2", VStr "none,media=cdrom"); ("memory", VInt 512) ].

(** A template and its configuration, for [get_template_details]. *)
Definition template_script : list (res value) :=
  [ Ok (VDict [kv "template" (VInt 1); kv "name" (VStr "golden")]);
    Ok (VDict (json_object sample_config)) ].

(** A remote that answers by the path alone: three nodes, the guests of
    the second cannot be listed, every guest has the configuration
    [sample_config]. *)
Definition steady_cluster (_ : nat) (r : request) : res value :=
  match r with
  | Http GET [VStr _] [] =>
      Ok (VList [node_record "pve1"; node_record "pve2"; node_record "pve3"])
  | Http GET [VStr _; VStr n; VStr _] [] =>
      if String.eqb n "pve2" then Raise (ApiError "pve2 unreachable")
      else Ok (VList [guest 101 "web" "stopped"])
  | Http GET [VStr _; VStr _; VStr _; _; VStr _] [] =>
      Ok (VDict (json_object sample_config))
  | _ => Raise (ApiError "not found")
  end.

(** A task that runs at the first poll and has stopped at the second. *)
Definition task_script : list (res value) :=
  [ Ok (VDict [kv "status" (VStr "running")]);
    Ok (VDict [kv "status" (VStr "stopped"); kv "exitstatus" (VStr "OK")]) ].

(** One node with three tasks. *)
Definition tasks_script : list (res value) :=
  [ Ok (VList [node_record "pve1"; node_record "pve2"]);
    Ok (VList [VDict [kv "upid" (VStr "UPID:1")];
               VDict [kv "upid" (VStr "UPID:2")];
               VDict [kv "upid" (VStr "UPID:3")]]) ].

(** The next-identifier query fails; the clone is accepted. *)
Definition clone_script : list (res value) :=
  [ Raise (ApiError "nextid unavailable"); Ok (VStr "UPID:clone") ].

Definition fst_of {A B} (o : option (A * B)) : option A :=
  match o with
  | Some (a, _) => Some a
  | None => None
  end.

(** The entry [get_tasks] makes of a task that only has its [upid]. *)
Definition task_record_of (node upid : string) : value :=
  VDict [kv "upid" (VStr upid); kv "type" (VStr EmptyString);
         kv "status" (VStr EmptyString); kv "node" (VStr node);
         kv "starttime" (VInt 0); kv "endtime" (VInt 0);
         kv "id" (VStr EmptyString); kv "user" (VStr EmptyString);
         kv "vmid" (VStr EmptyString)].

(** A request whose [arguments] are a string. *)
Definition start_vm_with_text : value :=
  VDict [kv "tool" (VStr "start_vm"); kv "arguments" (VStr "pve1")].

Definition get_nodes_with_text : value :=
  VDict [kv "tool" (VStr "get_nodes"); kv "arguments" (VStr "pve1")].


(** A decoder that knows one line. *)
Definition one_line_decoder (line : string) : res value :=
  if String.eqb line ("get_nodes" +++ newline)
  then Ok (VDict [kv "tool" (VStr "get_nodes")])
  else Raise (JSONDecodeError "Expecting value").

Definition blank (c : ascii) : bool :=
  Ascii.eqb c " "%char || Ascii.eqb c (ascii_of_nat 10).

(** One node whose only record has no [status]. *)
Definition statusless_script : list (res value) :=
  [ Ok (VList [node_record "pve1"]);
    Ok (VList [VDict [kv "vmid" (VInt 101); kv "name" (VStr "web")]]) ].

(** A running container whose configuration has no [memory]. *)
Definition container_script : list (res value) :=
  [ Ok (VDict [kv "status" (VStr "running"); kv "mem" (VInt 1048576)]);
    Ok (VDict [kv "hostname" (VStr "ct1")]) ].

(** A command whose task is still running when its status is read. *)
Definition command_script : list (res value) :=
  [ Ok (VStr "UPID:exec"); Ok (VDict [kv "status" (VStr "running")]) ].

(** A status that is there, a history that is not. *)
Definition performance_script : list (res value) :=
  [ Ok (VDict [kv "cpu" (VInt 0); kv "mem" (VInt 2048)]);
    Raise (ApiError "rrd unavailable") ].

Definition storage_entry (volid content : string) : value :=
  VDict [kv "volid" (VStr volid); kv "content" (VStr content)].

(** A storage listing: a container template, a backup and an entry
    without [content]. *)
Definition storage_listing : list value :=
  [ storage_entry "local:vztmpl/debian-12.tar.zst" "vztmpl";
    storage_entry "local:backup/vzdump-qemu-100.vma" "backup";
    VDict [kv "volid" (VStr "local:iso/debian-12.iso")] ].

(** The remote answers a POST with the identifier of the task. *)
Definition upid_script : list (res value) := [ Ok (VStr "UPID:pve1:start") ].

(** A stopped virtual machine whose configuration is locked. *)
Definition locked_script : list (res value) :=
  [ Ok (VDict [kv "status" (VStr "stopped")]); Raise (ApiError "VM is locked") ].

Definition marked_script : list (res value) :=
  [ Ok (VDict [kv "template" (VInt 1)]) ].

(** A clone that is accepted, and a clone that does not exist yet when
    its description is set. *)
Definition early_script : list (res value) :=
  [ Ok (VStr "UPID:clone"); Raise (ApiError "VM 120 does not exist") ].

(** Three nodes: the first answers a list with a stray entry after its
    first backup, the second answers a text, the call of the third
    raises. *)
Definition untidy_nodes : list (res value) :=
  [ Ok (VList [node_record "pve1"; node_record "pve2"; node_record "pve3"]);
    Ok (VList [guest 101 "web" "running"; VStr "stray";
               guest 102 "api" "running"]);
    Ok (VStr "maintenance");
    Raise (ApiError "pve3 unreachable") ].

(* ================================================================== *)
(** * Properties *)

(** ** The dispatcher of the simple server *)

Lemma py_get_dict (request : value) (k : string) (dflt x : value) :
  py_get request k dflt = Ok x -> exists d, request = VDict d.
Proof.
  destruct request; simpl; try discriminate. intros _. now exists d.
Qed.

(** C1 (as amended).  A request whose tool name is not in the catalogue
    is answered with the mapping that holds the single field [error],
    whose text is "Unknown tool: " followed by the name; the mapping has
    no [success] field.  The world is left as it was: nothing is run,
    nothing is logged. *)
Theorem handle_mcp_request_unknown_tool :
  forall (request : value) (name : string) (w : world),
    py_get request "tool" VNone = Ok (VStr name) ->
    ~ In name registered_names ->
    handle_mcp_request request w
    = (Ok (VDict [kv "error" (VStr ("Unknown tool: " +++ name))]), w).
Proof.
  intros request name w Htool Hnot.
  destruct (py_get_dict _ _ _ _ Htool) as [d ->].
  assert (Hall : forall s, In s registered_names -> String.eqb name s = false).
  { intros s Hs. apply String.eqb_neq. intros ->. contradiction. }
  unfold handle_mcp_request, except_Exception, bind.
  unfold get at 1, exc, lift. rewrite Htool.
  unfold get at 1, exc, lift. unfold py_get at 1.
  unfold py_eq_str.
  repeat match goal with
         | |- context [String.eqb name ?s] =>
             rewrite (Hall s) by (simpl; repeat (first [now left | right]))
         end.
  reflexivity.
Qed.


(** C2 (as amended).  For a tool of the catalogue and an argument mapping
    in which a required argument is absent or falsy ([None], the empty
    string, zero, ...), the answer is the mapping that holds the single
    field [error], whose text is the tool's fixed message listing its
    required arguments; the mapping has no [success] field.  The world is
    left as it was: the script is not run. *)
Theorem handle_mcp_request_missing_argument :
  forall (request arguments x : value) (tool k : string)
         (required : list string) (w : world),
    In (tool, required) operation_registry ->
    In k required ->
    py_get request "tool" VNone = Ok (VStr tool) ->
    py_get request "arguments" (VDict []) = Ok arguments ->
    py_get arguments k VNone = Ok x ->
    truthy x = false ->
    handle_mcp_request request w
    = (Ok (VDict [kv "error" (VStr (required_message tool))]), w).
Proof.
  intros request arguments x tool k required w Hreg Hk Htool Hargs Hx Hfalsy.
  destruct (py_get_dict _ _ _ _ Htool) as [d ->].
  destruct (py_get_dict _ _ _ _ Hx) as [a ->].
  simpl in Hx. injection Hx as Hx. subst x.
  unfold handle_mcp_request, except_Exception, bind.
  unfold get at 1, exc, lift. rewrite Htool.
  unfold get at 1, exc, lift. rewrite Hargs.
  simpl in Hreg.
  repeat (destruct Hreg as [Hreg | Hreg];
          [ injection Hreg as <- <-; simpl in Hk;
            repeat (destruct Hk as [<- | Hk]; [ | ]); try contradiction;
            simpl; rewrite Hfalsy; simpl;
            repeat match goal with
                   | |- context [truthy ?v] => destruct (truthy v)
                   end; reflexivity
          | ]).
  contradiction.
Qed.


(** ** Fan-out over the nodes *)

Lemma fanout_visit {A} (c : nat -> string -> list A) (names : list string) :
  forall k acc,
    visit (fun k name acc => (acc ++ c k name)%list) k names acc
    = (acc ++ fanout c k names)%list.
Proof.
  induction names as [|name rest IH]; intros k acc; simpl.
  - now rewrite app_nil_r.
  - rewrite IH. now rewrite app_assoc.
Qed.

(** A loop over the nodes whose every turn makes one call and moves the
    state by [next] ends in the state [visit] computes. *)
Lemma foldM_visit {St} (step : St -> value -> M St)
  (next : nat -> string -> St -> St) (req : string -> request)
  (expected : res value -> Prop)
  (logged printed : nat -> string -> list string) :
  (forall s node name w,
      named node name ->
      expected (remote (List.length (calls w)) (req name)) ->
      exists w',
        step s node w = (Ok (next (List.length (calls w)) name s), w')
        /\ calls w' = (calls w ++ [req name])%list
        /\ logs w' = (logs w ++ logged (List.length (calls w)) name)%list
        /\ stdout w' = (stdout w ++ printed (List.length (calls w)) name)%list) ->
  forall nodes names s w,
    Forall2 named nodes names ->
    (forall i name, nth_error names i = Some name ->
                    expected (remote (List.length (calls w) + i) (req name))) ->
    exists w',
      foldM step nodes s w
      = (Ok (visit next (List.length (calls w)) names s), w')
      /\ calls w' = (calls w ++ map req names)%list
      /\ logs w' = (logs w ++ fanout logged (List.length (calls w)) names)%list
      /\ stdout w' = (stdout w ++ fanout printed (List.length (calls w)) names)%list.
Proof.
  intros Hstep nodes names s w Hnames.
  revert s w.
  induction Hnames as [|node name nodes names Hnode Hrest IH]; intros s w Hexp.
  - exists w. simpl. rewrite !app_nil_r. auto.
  - destruct (Hstep s node name w Hnode) as (w1 & Hrun & Hcalls & Hlogs & Hout).
    { specialize (Hexp 0%nat name eq_refl). now rewrite Nat.add_0_r in Hexp. }
    assert (Hlen : List.length (calls w1) = S (List.length (calls w))).
    { rewrite Hcalls, length_app. simpl. lia. }
    destruct (IH (next (List.length (calls w)) name s) w1) as (w2 & Hrun2 & Hc2 & Hl2 & Ho2).
    { intros i nm Hi. rewrite Hlen.
      specialize (Hexp (S i) nm Hi).
      now replace (S (List.length (calls w)) + i)%nat
        with (List.length (calls w) + S i)%nat by lia. }
    rewrite Hlen in Hrun2, Hl2, Ho2.
    exists w2. simpl. unfold bind at 1. rewrite Hrun.
    rewrite Hrun2, Hc2, Hl2, Ho2, Hcalls, Hlogs, Hout.
    rewrite <- !app_assoc. auto.
Qed.







Lemma rfilter_is_template (l : list value) :
  Forall is_dict l ->
  rfilter is_template l = Ok (filter marked_template l).
Proof.
  induction 1 as [|v l [d ->] _ IH]; simpl; [reflexivity|].
  rewrite IH. reflexivity.
Qed.

Lemma rmap_tag (name : string) (l : list value) :
  Forall is_dict l ->
  rmap (fun t => py_setitem t "node" (VStr name)) l = Ok (map (tagged name) l).
Proof.
  induction 1 as [|v l [d ->] _ IH]; simpl; [reflexivity|].
  rewrite IH. reflexivity.
Qed.

Lemma Forall_filter {A} (P : A -> Prop) (f : A -> bool) (l : list A) :
  Forall P l -> Forall P (filter f l).
Proof.
  induction 1; simpl; [constructor|].
  destruct (f x); [constructor|]; assumption.
Qed.

Lemma get_templates_node_step :
  forall s node name w,
    named node name ->
    records_or_raises (remote (List.length (calls w)) (qemu_request name)) ->
    exists w',
      get_templates_node s node w
      = (Ok (s ++ template_contribution (List.length (calls w)) name)%list, w')
      /\ calls w' = (calls w ++ [qemu_request name])%list
      /\ logs w' = (logs w ++ [])%list
      /\ stdout w'
         = (stdout w ++ template_complaints (List.length (calls w)) name)%list.
Proof.
  intros s node name w Hname Hexp.
  unfold get_templates_node, bind, lift, attempt, call.
  rewrite Hname.
  unfold template_contribution, template_complaints.
  destruct (remote (List.length (calls w)) (qemu_request name)) as [v|e].
  - destruct Hexp as (l & -> & Hl). cbn [py_iter rbind].
    rewrite (rfilter_is_template l Hl). cbn [rbind].
    rewrite (rmap_tag name _ (Forall_filter _ _ _ Hl)).
    eexists. split; [reflexivity|]. simpl. rewrite !app_nil_r. auto.
  - eexists. split; [unfold print_line, ret; simpl; rewrite app_nil_r; reflexivity|].
    simpl. rewrite !app_nil_r. auto.
Qed.

Lemma get_templates_fanout :
  forall nodes names w,
    remote (List.length (calls w)) nodes_request = Ok (VList nodes) ->
    Forall2 named nodes names ->
    (forall i name,
        nth_error names i = Some name ->
        records_or_raises
          (remote (S (List.length (calls w)) + i) (qemu_request name))) ->
    let templates :=
      fanout template_contribution (S (List.length (calls w))) names in
    exists w',
      get_templates w
      = (Ok (VDict [kv "total_templates" (VInt (Z.of_nat (List.length templates)));
                    kv "templates" (VList templates)]), w')
      /\ stdout w'
         = (stdout w
            ++ fanout template_complaints (S (List.length (calls w))) names)%list.
Proof.
  intros nodes names w Hnodes Hnames Hexp templates.
  unfold get_templates, try_, bind.
  unfold call at 1. rewrite Hnodes. unfold lift at 1. simpl py_iter. cbv iota beta.
  set (w1 := mkWorld _ _ _ _ _ _).
  assert (Hlen : List.length (calls w1) = S (List.length (calls w))).
  { subst w1. simpl. rewrite length_app. simpl. lia. }
  destruct (foldM_visit get_templates_node
              (fun k name acc => (acc ++ template_contribution k name)%list)
              (fun name : string => qemu_request name) records_or_raises
              (fun _ _ => []) template_complaints
              get_templates_node_step nodes names [] w1 Hnames)
    as (w2 & Hrun & _ & _ & Hout).
  { intros i name Hi. rewrite Hlen. now apply Hexp. }
  rewrite Hrun, Hlen, fanout_visit. simpl.
  eexists. split; [reflexivity|].
  rewrite Hout, Hlen. reflexivity.
Qed.

Lemma rfilter_is_running (l : list value) :
  Forall summarisable l ->
  rfilter is_running l = Ok (filter running_vm l).
Proof.
  induction 1 as [|vm l (st & Hst & _) _ IH]; simpl; [reflexivity|].
  unfold is_running at 1, running_vm at 1. rewrite Hst. simpl.
  rewrite IH. reflexivity.
Qed.




Lemma dict_set_ready (d : dict) (k v : value) :
  Forall stat_ready d -> stat_ready (k, v) -> Forall stat_ready (dict_set d k v).
Proof.
  intros Hd Hv. induction Hd as [|[k' v'] d Hx Hd IH]; simpl.
  - constructor; [assumption|constructor].
  - destruct (key_eq k k').
    + constructor; [|assumption].
      destruct Hv as (l & Hl & Hs). exists l. auto.
    + constructor; assumption.
Qed.


Lemma visit_vms (names : list string) :
  forall k s,
    (forall i name,
        nth_error names i = Some name ->
        vms_or_raises (remote (k + i) (qemu_request name))) ->
    Forall summarisable (fst s) ->
    Forall stat_ready (snd s) ->
    fst (visit vms_next k names s) = (fst s ++ fanout vm_contribution k names)%list
    /\ Forall summarisable (fst (visit vms_next k names s))
    /\ Forall stat_ready (snd (visit vms_next k names s)).
Proof.
  induction names as [|name rest IH]; intros k s Hexp Hvms Hby; simpl.
  - rewrite app_nil_r. auto.
  - assert (Hrest : forall i nm,
               nth_error rest i = Some nm ->
               vms_or_raises (remote (S k + i) (qemu_request nm))).
    { intros i nm Hi. specialize (Hexp (S i) nm Hi).
      now replace (S k + i)%nat with (k + S i)%nat by lia. }
    specialize (Hexp 0%nat name eq_refl). rewrite Nat.add_0_r in Hexp.
    assert (Hnext : vms_next k name s
                    = match remote k (qemu_request name) with
                      | Ok (VList l) =>
                          ((fst s ++ l)%list,
                           dict_set (snd s) (VStr name) (VList l))
                      | _ => s
                      end) by reflexivity.
    unfold vm_contribution at 1.
    destruct (remote k (qemu_request name)) as [v|e].
    + destruct Hexp as (l & -> & Hl). rewrite Hnext.
      destruct (IH (S k) ((fst s ++ l)%list, dict_set (snd s) (VStr name) (VList l)))
        as (H1 & H2 & H3); auto.
      * simpl. apply Forall_app. auto.
      * simpl. apply dict_set_ready; [assumption|]. exists l. auto.
      * simpl in H1. split; [rewrite H1, <- app_assoc; reflexivity|].
        split; assumption.
    + rewrite Hnext. destruct (IH (S k) s) as (H1 & H2 & H3); auto.
Qed.



(** ** Preconditions of the template tools *)

(** The envelope of a failed precondition carries [success = False]. *)
Lemma failure_has_success_false (message : string) :
  success_field (failure message) = Some (VBool false).
Proof. reflexivity. Qed.

(** C5.  [create_template] on a virtual machine whose status query
    answers with a status other than 'stopped' returns the response built
    from a [success = False] envelope whose message names the requirement
    and the current status.  [update_template] and [delete_template] on a
    virtual machine whose configuration query answers without
    [template = 1] return the response built from a [success = False]
    envelope saying that the machine is not a template.  Each of the
    three stands alone: nothing is asked of the configuration for
    [create_template], nor of the status for the other two.  In each
    case the handler ends normally, the query is the only remote call of
    the run (no [config.put], no [delete]), and nothing is logged or
    printed. *)
Theorem template_preconditions_guard_mutation :
  forall (node vmid : value) (w : world),
    (forall (name description vm_status status : value),
        remote (List.length (calls w)) (vm_status_request node vmid)
        = Ok vm_status ->
        py_get vm_status "status" VNone = Ok status ->
        py_eq_str status "stopped" = false ->
        exists w',
          TemplateTools_create_template node vmid name description w
          = (Ok (Some (format_response (failure (not_stopped_message vmid status))
                                       "template_operation")), w')
          /\ success_field (failure (not_stopped_message vmid status))
             = Some (VBool false)
          /\ calls w' = (calls w ++ [vm_status_request node vmid])%list
          /\ logs w' = logs w /\ stdout w' = stdout w)
    /\ (forall (name description cores memory vm_config template : value),
           remote (List.length (calls w)) (vm_config_request node vmid)
           = Ok vm_config ->
           py_get vm_config "template" VNone = Ok template ->
           py_eq_int template 1 = false ->
           exists w',
             TemplateTools_update_template node vmid name description cores
                                           memory w
             = (Ok (Some (format_response (failure (not_a_template_message vmid))
                                          "template_operation")), w')
             /\ success_field (failure (not_a_template_message vmid))
                = Some (VBool false)
             /\ calls w' = (calls w ++ [vm_config_request node vmid])%list
             /\ logs w' = logs w /\ stdout w' = stdout w)
    /\ (forall (vm_config template : value),
           remote (List.length (calls w)) (vm_config_request node vmid)
           = Ok vm_config ->
           py_get vm_config "template" VNone = Ok template ->
           py_eq_int template 1 = false ->
           exists w',
             TemplateTools_delete_template node vmid w
             = (Ok (Some (format_response (failure (not_a_template_message vmid))
                                          "template_operation")), w')
             /\ success_field (failure (not_a_template_message vmid))
                = Some (VBool false)
             /\ calls w' = (calls w ++ [vm_config_request node vmid])%list
             /\ logs w' = logs w /\ stdout w' = stdout w).
Proof.
  intros node vmid w. split; [|split].
  - intros name description vm_status status Hstatus Hget Hrunning.
    unfold TemplateTools_create_template, handler, try_, bind.
    unfold call at 1. rewrite Hstatus. unfold lift at 1. rewrite Hget, Hrunning.
    eexists. split; [reflexivity|]. simpl. auto.
  - intros name description cores memory vm_config template
           Hconfig Htemplate Hnot.
    unfold TemplateTools_update_template, handler, try_, bind.
    unfold call at 1. rewrite Hconfig. unfold lift at 1. rewrite Htemplate, Hnot.
    eexists. split; [reflexivity|]. simpl. auto.
  - intros vm_config template Hconfig Htemplate Hnot.
    unfold TemplateTools_delete_template, handler, try_, bind.
    unfold call at 1. rewrite Hconfig. unfold lift at 1. rewrite Htemplate, Hnot.
    eexists. split; [reflexivity|]. simpl. auto.
Qed.


(** ** Buckets of configuration keys *)

Lemma config_lines_select (test : value -> res bool) (p : string -> bool)
  (items : list (string * value)) :
  (forall k : string, test (VStr k) = Ok (p k)) ->
  config_lines test (json_object items)
  = Ok (map (fun e => detail (fst e) (py_str (snd e))) (select p items)).
Proof.
  intros Htest. induction items as [|[k v] rest IH]; [reflexivity|].
  cbn [json_object map config_lines fst snd]. rewrite Htest. cbn [rbind].
  fold (json_object rest). rewrite IH. cbn [rbind].
  unfold select. cbn [filter fst]. destruct (p k); reflexivity.
Qed.

Lemma dict_set_fresh (k : string) (v : value) (acc : list (string * value)) :
  ~ In k (map fst acc) ->
  dict_set (json_object acc) (VStr k) v = json_object (acc ++ [(k, v)]).
Proof.
  induction acc as [|[k' v'] acc IH]; intros Hk; [reflexivity|].
  cbn [json_object map dict_set fst snd key_eq app]. simpl in Hk.
  destruct (String.eqb_spec k k') as [->|Hne]; [exfalso; apply Hk; now left|].
  fold (json_object acc).
  rewrite IH by (intros Hin; apply Hk; now right). reflexivity.
Qed.

Lemma select_keys (p : string -> bool) (items : list (string * value)) (k : string) :
  In k (map fst (select p items)) -> In k (map fst items).
Proof.
  induction items as [|[k' v'] rest IH]; simpl; [auto|].
  destruct (p k'); simpl; [intros [H|H]; auto|auto].
Qed.

Lemma bucket_select (test : value -> res bool) (p : string -> bool) :
  (forall k : string, test (VStr k) = Ok (p k)) ->
  forall (items acc : list (string * value)),
    NoDup (map fst items) ->
    (forall k, In k (map fst items) -> ~ In k (map fst acc)) ->
    bucket test (json_object items) (json_object acc)
    = Ok (json_object (acc ++ select p items)).
Proof.
  intros Htest. induction items as [|[k v] rest IH]; intros acc Hnodup Hfresh.
  - simpl. now rewrite app_nil_r.
  - simpl in Hnodup. inversion Hnodup as [|? ? Hk Hrest]; subst.
    cbn [json_object map bucket fst snd]. rewrite Htest. cbn [rbind].
    unfold select. cbn [filter fst]. fold (select p rest).
    destruct (p k).
    + rewrite dict_set_fresh by (apply Hfresh; simpl; auto).
      fold (json_object rest). rewrite IH; [|assumption|].
      * now rewrite <- app_assoc.
      * intros k' Hk' Hin. rewrite map_app, in_app_iff in Hin.
        destruct Hin as [Hin|[<-|[]]]; [|contradiction].
        apply (Hfresh k'); simpl; auto.
    + fold (json_object rest). apply IH; [assumption|].
      intros k' Hk'. apply Hfresh. simpl. auto.
Qed.

Lemma bucket_select_all (test : value -> res bool) (p : string -> bool)
  (items : list (string * value)) :
  (forall k : string, test (VStr k) = Ok (p k)) ->
  NoDup (map fst items) ->
  bucket test (json_object items) [] = Ok (json_object (select p items)).
Proof.
  intros Htest Hnodup.
  apply (bucket_select test p Htest items [] Hnodup). intros k _ [].
Qed.

Lemma is_net_interface_key_str (k : string) :
  is_net_interface_key (VStr k) = Ok (net_interface_key k).
Proof. reflexivity. Qed.

Lemma is_mount_point_key_str (k : string) :
  is_mount_point_key (VStr k) = Ok (mount_point_key k).
Proof. reflexivity. Qed.

Lemma is_disk_key_str (k : string) : is_disk_key (VStr k) = Ok (disk_key k).
Proof.
  unfold is_disk_key, disk_key. simpl.
  destruct (String.prefix "scsi" k); [reflexivity|].
  destruct (String.prefix "ide" k); reflexivity.
Qed.

Lemma is_network_key_str (k : string) :
  is_network_key (VStr k) = Ok (net_prefixed_key k).
Proof. reflexivity. Qed.

Lemma container_config_sections (items : list (string * value)) :
  ProxmoxTemplates_container_config (VDict (json_object items))
  = Ok (join newline
          (config_head items
           ++ section (SECTIONS "network" +++ " Network Interfaces")
                      (entry_lines net_interface_key items)
           ++ section (SECTIONS "storage" +++ " Storage")
                      (entry_lines mount_point_key items))).
Proof.
  unfold ProxmoxTemplates_container_config. cbn [py_get py_items rbind].
  rewrite (config_lines_select is_net_interface_key net_interface_key items
             is_net_interface_key_str).
  cbn [rbind].
  rewrite (config_lines_select is_mount_point_key mount_point_key items
             is_mount_point_key_str).
  reflexivity.
Qed.

Lemma get_template_details_buckets
  (node vmid vm_info template : value) (items : list (string * value))
  (w : world) :
  NoDup (map fst items) ->
  remote (List.length (calls w)) (vm_info_request node vmid) = Ok vm_info ->
  py_get vm_info "template" VNone = Ok template ->
  py_eq_int template 1 = true ->
  remote (S (List.length (calls w))) (vm_config_request node vmid)
  = Ok (VDict (json_object items)) ->
  exists w',
    TemplateTools_get_template_details node vmid w
    = (Ok (Some (format_response
                   (template_details_of node vmid vm_info items
                      (select disk_key items) (select net_prefixed_key items))
                   "template_details")), w').
Proof.
  intros Hnodup Hinfo Htemplate Hmarked Hconfig.
  destruct (py_get_dict _ _ _ _ Htemplate) as [d ->].
  unfold TemplateTools_get_template_details, handler, try_, bind.
  unfold call at 1. rewrite Hinfo. unfold lift at 1. rewrite Htemplate, Hmarked.
  cbn [negb]. unfold call at 1. cbn [calls].
  assert (Hlen : List.length (calls w ++ [vm_info_request node vmid])
                 = S (List.length (calls w))).
  { rewrite length_app. simpl. lia. }
  rewrite Hlen, Hconfig.
  unfold lift. cbn [py_get py_items].
  rewrite (bucket_select_all is_disk_key disk_key items is_disk_key_str Hnodup).
  cbn iota beta.
  rewrite (bucket_select_all is_network_key net_prefixed_key items
             is_network_key_str Hnodup).
  eexists. reflexivity.
Qed.

(** C6 (as amended).  On a configuration with distinct string keys the
    container-configuration renderer lists under its network section
    exactly the entries whose key has prefix [net] and is not [netif],
    and under its storage section exactly those whose key has prefix [mp]
    or is [rootfs], each in the configuration's order;
    [get_template_details] collects as disks exactly the entries whose
    key has prefix [scsi], [ide] or [sata], and as networks every entry
    whose key has prefix [net], the key [netif] included. *)
Theorem config_keys_are_bucketed_by_prefix :
  forall (items : list (string * value)) (node vmid vm_info template : value)
         (w : world),
    NoDup (map fst items) ->
    remote (List.length (calls w)) (vm_info_request node vmid) = Ok vm_info ->
    py_get vm_info "template" VNone = Ok template ->
    py_eq_int template 1 = true ->
    remote (S (List.length (calls w))) (vm_config_request node vmid)
    = Ok (VDict (json_object items)) ->
    ProxmoxTemplates_container_config (VDict (json_object items))
    = Ok (join newline
            (config_head items
             ++ section (SECTIONS "network" +++ " Network Interfaces")
                        (entry_lines net_interface_key items)
             ++ section (SECTIONS "storage" +++ " Storage")
                        (entry_lines mount_point_key items)))
    /\ exists w',
         TemplateTools_get_template_details node vmid w
         = (Ok (Some (format_response
                        (template_details_of node vmid vm_info items
                           (select disk_key items)
                           (select net_prefixed_key items))
                        "template_details")), w').
Proof.
  intros items node vmid vm_info template w Hnodup Hinfo Htemplate Hmarked
         Hconfig.
  split.
  - apply container_config_sections.
  - now apply (get_template_details_buckets node vmid vm_info template).
Qed.


(** ** Fan-out of [TemplateTools.get_templates] *)



Lemma detailed_is_dict (name : string) (t : value) :
  is_dict t -> is_dict (detailed name t).
Proof.
  intros [d ->]. unfold detailed.
  destruct (truthy _); [|now exists d].
  unfold details_from.
  destruct (remote 0%nat _) as [[]|]; eexists; reflexivity.
Qed.






(** ** List renderers *)

Lemma append_assoc (a b c : string) : (a +++ b) +++ c = a +++ b +++ c.
Proof. induction a as [|x a IH]; simpl; [reflexivity|]. now rewrite IH. Qed.

Lemma append_nil_r (a : string) : a +++ EmptyString = a.
Proof. induction a as [|x a IH]; simpl; [reflexivity|]. now rewrite IH. Qed.

Lemma join_cons (sep x y : string) (l : list string) :
  join sep (x :: y :: l) = x +++ sep +++ join sep (y :: l).
Proof. reflexivity. Qed.

Lemma join_app (sep : string) (l1 l2 : list string) :
  l1 <> [] -> l2 <> [] ->
  join sep (l1 ++ l2) = join sep l1 +++ sep +++ join sep l2.
Proof.
  intros H1 H2. induction l1 as [|x l1 IH]; [contradiction|].
  destruct l1 as [|y l1].
  - destruct l2 as [|z l2]; [contradiction|]. reflexivity.
  - change ((x :: y :: l1) ++ l2)%list with (x :: y :: (l1 ++ l2))%list.
    rewrite !join_cons.
    change (y :: (l1 ++ l2))%list with ((y :: l1) ++ l2)%list.
    rewrite IH by discriminate. now rewrite !append_assoc.
Qed.

Lemma join_blocks (l : list string) (blocks : list (list string)) :
  l <> [] ->
  Forall (fun b => b <> []) blocks ->
  join newline (l ++ List.concat (map (fun b => EmptyString :: b) blocks))
  = join newline l +++ separated blocks.
Proof.
  intros Hl Hblocks. revert l Hl.
  induction Hblocks as [|b rest Hb _ IH]; intros l Hl; simpl.
  - now rewrite app_nil_r, append_nil_r.
  - change (l ++ EmptyString :: b ++ List.concat (map (fun b => EmptyString :: b) rest))%list
      with (l ++ (EmptyString :: b) ++ List.concat (map (fun b => EmptyString :: b) rest))%list.
    rewrite app_assoc, IH by (destruct l; discriminate).
    rewrite join_app by (assumption || discriminate).
    destruct b as [|x b]; [contradiction|].
    rewrite join_cons. simpl. now rewrite !append_assoc.
Qed.

Lemma render_blocks_separated (title : string) (blocks : list (list string)) :
  Forall (fun b => b <> []) blocks ->
  render_blocks title blocks = title +++ separated blocks.
Proof.
  intros H. unfold render_blocks.
  apply (join_blocks [title] blocks); [discriminate|assumption].
Qed.

(** What the renderers make of a list of records: one block per record,
    in order, or the exception of the first record that does not render. *)
Lemma rmap_blocks {A} (f : A -> res (list string)) (l : list A)
  (blocks : list (list string)) :
  (forall x b, f x = Ok b -> b <> []) ->
  rmap f l = Ok blocks ->
  Forall2 (fun x b => f x = Ok b) l blocks /\ Forall (fun b => b <> []) blocks.
Proof.
  intros Hf. revert blocks.
  induction l as [|x l IH]; simpl; intros blocks H.
  - injection H as <-. split; constructor.
  - destruct (f x) as [b|e] eqn:E; simpl in H; [|discriminate].
    destruct (rmap f l) as [bs|e]; simpl in H; [|discriminate].
    injection H as <-. destruct (IH bs eq_refl) as [H1 H2].
    split; constructor; eauto.
Qed.



Lemma rmap_raise {A B} (f : A -> res B) (l : list A) (e : exn) :
  rmap f l = Raise e -> exists x, In x l /\ f x = Raise e.
Proof.
  induction l as [|x l IH]; simpl; [discriminate|].
  destruct (f x) as [b|e'] eqn:E; simpl.
  - destruct (rmap f l) as [bs|e'']; simpl; [discriminate|].
    intros H. injection H as <-. destruct (IH eq_refl) as (y & Hy & Hfy).
    exists y. auto.
  - intros H. injection H as <-. exists x. auto.
Qed.



(** ** The limit of the task listing *)

Lemma collect_tasks_bound (limit : Z) (node_name : value) (items : list value) :
  forall tasks r,
    Z.of_nat (List.length tasks) < limit ->
    collect_tasks limit node_name items tasks = Ok r ->
    Z.of_nat (List.length r) <= limit.
Proof.
  induction items as [|task rest IH]; intros tasks r Hlt H; simpl in H.
  - injection H as <-. lia.
  - destruct (task_record node_name task) as [t|e]; simpl in H; [|discriminate].
    unfold reached in H.
    assert (Hlen : Z.of_nat (List.length (tasks ++ [t])) = Z.of_nat (List.length tasks) + 1).
    { rewrite length_app. simpl. lia. }
    destruct (limit <=? Z.of_nat (List.length (tasks ++ [t]))) eqn:E.
    + injection H as <-. lia.
    + apply Z.leb_gt in E. now apply (IH (tasks ++ [t])%list).
Qed.

Lemma tasks_of_nodes_bound (limit : Z) (vmid : value) (nodes : list value) :
  forall tasks w r w',
    Z.of_nat (List.length tasks) < limit ->
    tasks_of_nodes limit vmid nodes tasks w = (Ok r, w') ->
    Z.of_nat (List.length r) <= limit.
Proof.
  induction nodes as [|node_info rest IH]; intros tasks w r w' Hlt H; simpl in H.
  - unfold ret in H. injection H as <- _. lia.
  - unfold bind, lift in H.
    destruct (py_getitem node_info "node") as [node_name|e]; [|discriminate].
    destruct (call (tasks_request node_name limit vmid) w) as [[node_tasks|e] w1];
      [|discriminate].
    destruct (py_iter node_tasks) as [items|e]; [|discriminate].
    destruct (collect_tasks limit node_name items tasks) as [tasks'|e] eqn:E;
      [|discriminate].
    pose proof (collect_tasks_bound _ _ _ _ _ Hlt E) as Hle.
    unfold reached in H.
    destruct (limit <=? Z.of_nat (List.length tasks')) eqn:Er.
    + unfold ret in H. injection H as <- _. exact Hle.
    + apply Z.leb_gt in Er. now apply (IH tasks' w1 r w').
Qed.

Lemma task_record_entry (name : string) (task : value) :
  is_dict task -> task_record (VStr name) task = Ok (task_entry name task).
Proof. intros [d ->]. reflexivity. Qed.

(** The inner loop on a list of records: it takes what the listing still
    lacks, and at least one task. *)
Lemma collect_tasks_takes (limit : Z) (name : string) (l : list value) :
  Forall is_dict l ->
  forall tasks,
    collect_tasks limit (VStr name) l tasks
    = Ok (tasks
          ++ firstn (Z.to_nat (Z.max 1 (limit - Z.of_nat (List.length tasks))))
                    (map (task_entry name) l))%list.
Proof.
  induction 1 as [|task l Htask _ IH]; intros tasks.
  - simpl. now rewrite firstn_nil, app_nil_r.
  - cbn [collect_tasks map]. rewrite (task_record_entry name task Htask).
    cbn [rbind]. unfold reached.
    assert (Hlen : Z.of_nat (List.length (tasks ++ [task_entry name task]))
                   = Z.of_nat (List.length tasks) + 1).
    { rewrite length_app. simpl. lia. }
    destruct (limit <=? Z.of_nat (List.length (tasks ++ [task_entry name task])))
      eqn:E.
    + apply Z.leb_le in E.
      replace (Z.to_nat (Z.max 1 (limit - Z.of_nat (List.length tasks))))
        with 1%nat by lia.
      reflexivity.
    + apply Z.leb_gt in E. rewrite IH, Hlen.
      replace (Z.to_nat (Z.max 1 (limit - Z.of_nat (List.length tasks))))
        with (S (Z.to_nat (Z.max 1 (limit - (Z.of_nat (List.length tasks) + 1)))))
        by lia.
      cbn [firstn]. now rewrite <- app_assoc.
Qed.

Lemma firstn_short {A} (n : nat) (l : list A) :
  (List.length l <= n)%nat -> firstn n l = l.
Proof. intros H. now apply firstn_all2. Qed.

(** The outer loop over nodes that answer lists of records, with a limit
    that the listing has not reached. *)
Lemma tasks_of_nodes_takes (limit : Z) (vmid : value) :
  forall (nodes : list value) (names : list string),
    Forall2 named nodes names ->
    forall (tasks : list value) (w : world),
      Z.of_nat (List.length tasks) < limit ->
      let k := List.length (calls w) in
      let asked :=
        nodes_asked limit (task_contribution limit vmid) k names
                    (List.length tasks) in
      (forall i name,
          nth_error asked i = Some name ->
          answers_records (remote (k + i) (tasks_request name limit vmid))) ->
      exists w',
        tasks_of_nodes limit vmid nodes tasks w
        = (Ok (firstn (Z.to_nat limit)
                      (tasks ++ fanout (task_contribution limit vmid) k names)),
           w')
        /\ calls w'
           = (calls w
              ++ map (fun name : string => tasks_request name limit vmid) asked)%list
        /\ logs w' = logs w /\ stdout w' = stdout w.
Proof.
  induction 1 as [|node name nodes names Hnode _ IH]; intros tasks w Hlt k asked Hexp.
  - exists w. cbn [tasks_of_nodes fanout]. unfold ret.
    rewrite app_nil_r, firstn_short by lia.
    subst asked. simpl. rewrite app_nil_r. auto.
  - cbn [tasks_of_nodes]. unfold bind at 1, lift at 1.
    unfold named in Hnode. rewrite Hnode.
    unfold bind at 1, call at 1. fold k.
    destruct (Hexp 0%nat name eq_refl) as (l & Hanswer & Hl).
    rewrite Nat.add_0_r in Hanswer. rewrite Hanswer.
    unfold bind at 1, lift at 1. cbn [py_iter].
    unfold bind at 1, lift at 1. rewrite (collect_tasks_takes limit name l Hl).
    set (w1 := mkWorld _ _ _ _ _ _).
    assert (Hlen1 : List.length (calls w1) = S k).
    { subst w1 k. simpl. rewrite length_app. simpl. lia. }
    assert (Hc : task_contribution limit vmid k name = map (task_entry name) l).
    { unfold task_contribution. now rewrite Hanswer. }
    replace (Z.to_nat (Z.max 1 (limit - Z.of_nat (List.length tasks))))
      with (Z.to_nat limit - List.length tasks)%nat by lia.
    assert (Hfirst : (tasks ++ firstn (Z.to_nat limit - List.length tasks)
                                     (map (task_entry name) l))%list
                     = firstn (Z.to_nat limit) (tasks ++ map (task_entry name) l)).
    { rewrite firstn_app, (firstn_short _ tasks) by lia. reflexivity. }
    rewrite Hfirst. unfold reached.
    subst asked. cbn [nodes_asked fanout]. rewrite Hc.
    assert (Hcount : List.length (firstn (Z.to_nat limit)
                                         (tasks ++ map (task_entry name) l))
                     = Nat.min (Z.to_nat limit)
                               (List.length tasks + List.length l)).
    { rewrite length_firstn, length_app, length_map. reflexivity. }
    rewrite Hcount, length_map.
    destruct (limit <=? Z.of_nat (List.length tasks + List.length l)) eqn:E.
    + apply Z.leb_le in E.
      replace (limit <=? Z.of_nat (Nat.min (Z.to_nat limit)
                                           (List.length tasks + List.length l)))
        with true by (symmetry; apply Z.leb_le; lia).
      exists w1. unfold ret. split; [|subst w1; simpl; auto].
      f_equal. f_equal. rewrite app_assoc.
      rewrite (firstn_app _ (tasks ++ map (task_entry name) l)).
      replace (Z.to_nat limit
               - List.length (tasks ++ map (task_entry name) l))%nat
        with 0%nat
        by (rewrite length_app, length_map; lia).
      now rewrite firstn_O, app_nil_r.
    + apply Z.leb_gt in E.
      replace (limit <=? Z.of_nat (Nat.min (Z.to_nat limit)
                                           (List.length tasks + List.length l)))
        with false by (symmetry; apply Z.leb_gt; lia).
      rewrite firstn_short by (rewrite length_app, length_map; lia).
      destruct (IH (tasks ++ map (task_entry name) l)%list w1)
        as (w' & Hrun & Hcalls & Hlogs & Hout).
      * rewrite length_app, length_map. lia.
      * intros i nm Hi. rewrite Hlen1.
        replace (S k + i)%nat with (k + S i)%nat by lia.
        apply Hexp. cbn [nodes_asked nth_error]. rewrite Hc, length_map.
        replace (limit <=? Z.of_nat (List.length tasks + List.length l))
          with false by (symmetry; apply Z.leb_gt; lia).
        rewrite length_app, length_map, Hlen1 in Hi. exact Hi.
      * rewrite Hlen1 in Hrun, Hcalls. rewrite length_app, length_map in Hcalls.
        exists w'. rewrite Hrun, <- app_assoc. split; [reflexivity|].
        rewrite Hcalls, Hlogs, Hout. subst w1. simpl.
        rewrite <- app_assoc. auto.
Qed.

(** C9.  With a limit of at least one, whatever the filters: a response
    of [get_tasks] is built from a task list of at most [limit] entries,
    whatever the remote answers.  Over nodes that answer lists of
    records the list is exactly the first [limit] entries of the
    concatenation, in node order, of the tasks of the nodes, each task
    in the order its node reports it; and the nodes are asked one after
    the other only as long as the listing is short of [limit] entries:
    the node at which the limit is reached is the last one asked.  With
    a node filter the one node is asked, and the list is the first
    [limit] entries of its tasks. *)
Theorem get_tasks_respects_limit :
  forall (limit : Z) (vmid : value),
    1 <= limit ->
    (forall (node : value) (w w' : world) (c : content),
        TaskTools_get_tasks limit vmid node w = (Ok (Some c), w') ->
        exists tasks,
          c = format_response (VList tasks) "tasks"
          /\ Z.of_nat (List.length tasks) <= limit)
    /\ (forall (node : value) (nodes : list value) (names : list string)
               (w : world),
           truthy node = false ->
           remote (List.length (calls w)) nodes_request = Ok (VList nodes) ->
           Forall2 named nodes names ->
           let k := S (List.length (calls w)) in
           let asked :=
             nodes_asked limit (task_contribution limit vmid) k names 0 in
           (forall i name,
               nth_error asked i = Some name ->
               answers_records (remote (k + i) (tasks_request name limit vmid))) ->
           exists w',
             TaskTools_get_tasks limit vmid node w
             = (Ok (Some (format_response
                            (VList (firstn (Z.to_nat limit)
                                           (fanout (task_contribution limit vmid)
                                                   k names)))
                            "tasks")), w')
             /\ calls w'
                = (calls w
                   ++ nodes_request
                   :: map (fun name : string => tasks_request name limit vmid)
                          asked)%list)
    /\ (forall (name : string) (w : world),
           truthy (VStr name) = true ->
           answers_records (remote (List.length (calls w))
                                   (tasks_request name limit vmid)) ->
           exists w',
             TaskTools_get_tasks limit vmid (VStr name) w
             = (Ok (Some (format_response
                            (VList (firstn (Z.to_nat limit)
                                           (task_contribution
                                              limit vmid
                                              (List.length (calls w)) name)))
                            "tasks")), w')
             /\ calls w' = (calls w ++ [tasks_request name limit vmid])%list).
Proof.
  intros limit vmid Hlimit. split; [|split].
  - intros node w w' c H.
    unfold TaskTools_get_tasks, handler, try_, bind in H.
    destruct (get_tasks_list limit vmid node w) as [[tasks|e] w1] eqn:E.
    + unfold ret in H. injection H as <- _. exists tasks. split; [reflexivity|].
      unfold get_tasks_list, bind, lift in E.
      destruct ((if truthy node then ret (VList [VDict [kv "node" node]])
                 else call nodes_request) w) as [[nodes|e] w0]; [|discriminate].
      destruct (py_iter nodes) as [node_list|e]; [|discriminate].
      apply (tasks_of_nodes_bound limit vmid node_list [] w0 tasks w1);
        [simpl; lia|].
      exact E.
    + destruct (handle_error "get tasks" e w1) as [[[]|e'] w2]; discriminate.
  - intros node nodes names w Hnode Hnodes Hnames k asked Hexp.
    assert (Hlist : get_tasks_list limit vmid node w
                    = tasks_of_nodes limit vmid nodes [] (called nodes_request w)).
    { unfold get_tasks_list, bind, call, lift. rewrite Hnode, Hnodes.
      reflexivity. }
    assert (Hlen : List.length (calls (called nodes_request w)) = k).
    { subst k. simpl. rewrite length_app. simpl. lia. }
    destruct (tasks_of_nodes_takes limit vmid nodes names Hnames []
                (called nodes_request w))
      as (w' & Hrun & Hcalls & _).
    + simpl. lia.
    + rewrite Hlen. exact Hexp.
    + rewrite Hlen in Hrun, Hcalls. cbn [app List.length] in Hrun, Hcalls.
      unfold TaskTools_get_tasks, handler, try_, bind.
      rewrite Hlist, Hrun. unfold ret. exists w'. split; [reflexivity|].
      rewrite Hcalls. simpl. now rewrite <- app_assoc.
  - intros name w Hname Hexp.
    assert (Hlist : get_tasks_list limit vmid (VStr name) w
                    = tasks_of_nodes limit vmid [VDict [kv "node" (VStr name)]]
                                     [] w).
    { unfold get_tasks_list, bind, ret, lift. rewrite Hname. reflexivity. }
    destruct (tasks_of_nodes_takes limit vmid [VDict [kv "node" (VStr name)]]
                [name]) with (tasks := @nil value) (w := w)
      as (w' & Hrun & Hcalls & _).
    + repeat constructor.
    + simpl. lia.
    + intros [|i] nm Hi; cbn [nodes_asked nth_error] in Hi.
      * injection Hi as <-. now rewrite Nat.add_0_r.
      * destruct (limit <=? _) in Hi; destruct i; discriminate.
    + cbn [app List.length fanout nodes_asked] in Hrun, Hcalls.
      rewrite app_nil_r in Hrun.
      unfold TaskTools_get_tasks, handler, try_, bind.
      rewrite Hlist, Hrun. unfold ret. exists w'. split; [reflexivity|].
      rewrite Hcalls.
      destruct (limit <=? _); reflexivity.
Qed.


(** ** The fallback of the next-identifier query *)

Lemma random_randint_range (lo hi : Z) (w : world) :
  lo <= hi ->
  exists n w', random_randint lo hi w = (Ok n, w') /\ lo <= n <= hi.
Proof.
  intros H. unfold random_randint. eexists _, _. split; [reflexivity|].
  pose proof (Z.mod_pos_bound (entropy (draws w)) (hi - lo + 1)). lia.
Qed.

(** The identifier [get_next_vmid] falls back to. *)
Lemma get_next_vmid_fallback (w : world) (e : exn) :
  remote (List.length (calls w)) nextid_request = Raise e ->
  get_next_vmid w
  = (Ok (VInt (fallback_vmid w)),
     mkWorld (calls w ++ [nextid_request]) (logs w) (stdout w)
             (clock w + Z.of_N (latency (List.length (calls w))))
             (sleeps w) (S (draws w))).
Proof.
  intros H. unfold get_next_vmid, try_, call. rewrite H. reflexivity.
Qed.

Lemma clone_template_fallback
  (node template_vmid new_vm_name target_node full_clone storage : value)
  (w : world) (e : exn) :
  remote (List.length (calls w)) nextid_request = Raise e ->
  let request :=
    clone_request node template_vmid
      (clone_params (VInt (fallback_vmid w)) new_vm_name target_node
                    full_clone storage) in
  calls (snd (clone_template node template_vmid new_vm_name target_node
                             full_clone storage w))
  = (calls w ++ [nextid_request; request])%list
  /\ logs (snd (clone_template node template_vmid new_vm_name target_node
                               full_clone storage w)) = logs w
  /\ stdout (snd (clone_template node template_vmid new_vm_name target_node
                                 full_clone storage w)) = stdout w
  /\ forall task_result,
       remote (S (List.length (calls w))) request = Ok task_result ->
       fst (clone_template node template_vmid new_vm_name target_node
                           full_clone storage w)
       = Ok (VDict
               [kv "success" (VBool true);
                kv "task_id" (task_id_of task_result);
                kv "new_vmid" (VInt (fallback_vmid w));
                kv "message"
                   (VStr ("Started cloning template " +++ py_str template_vmid
                          +++ " to create new VM '" +++ py_str new_vm_name
                          +++ "' with ID " +++ string_of_Z (fallback_vmid w)))]).
Proof.
  intros H request.
  unfold clone_template, try_, bind. rewrite (get_next_vmid_fallback w e H).
  fold request. unfold call. cbn [calls].
  assert (Hlen : List.length (calls w ++ [nextid_request]) = S (List.length (calls w))).
  { rewrite length_app. simpl. lia. }
  rewrite Hlen. split; [|split; [|split]].
  - destruct (remote (S (List.length (calls w))) request); simpl;
      rewrite <- app_assoc; reflexivity.
  - destruct (remote (S (List.length (calls w))) request); reflexivity.
  - destruct (remote (S (List.length (calls w))) request); reflexivity.
  - intros task_result Hpost. rewrite Hpost. reflexivity.
Qed.


(** ** Termination of the wait for a task *)






(** ** The guard of the percentage *)









(** * Further properties *)

(** ** The dispatcher lets no exception escape *)

Lemma try_returns {A} (c : M A) (h : exn -> M A) :
  (forall e, returns (h e)) -> returns (try_ c h).
Proof.
  intros Hh w. unfold try_. destruct (c w) as [[a|e] w']; [eauto|apply Hh].
Qed.

Lemma ret_returns {A} (a : A) : returns (ret a).
Proof. intros w. now exists a, w. Qed.

Lemma str_items_raises (l : list value) :
  forall i e, str_items i l = Raise e -> exists msg, e = TypeError msg.
Proof.
  induction l as [|v l IH]; intros i e H; simpl in H; [discriminate|].
  destruct v; try (injection H as <-; eauto).
  destruct (str_items (S i) l) as [ss|e'] eqn:E; simpl in H; [discriminate|].
  injection H as <-. eapply IH. exact E.
Qed.

Lemma credentials_settings (config : value) (host user token_name token_value : value) :
  config_json = Ok config ->
  credentials config = Ok [host; user; token_name; token_value] ->
  script_prefix
  = [ VStr sys_executable; VStr API_SCRIPT_PATH; VStr "--host"; host;
      VStr "--user"; user; VStr "--token-name"; token_name;
      VStr "--token-value"; token_value ].
Proof.
  intros Hconfig H. unfold script_prefix, setting. rewrite Hconfig.
  unfold credentials in H.
  destruct (configured config "proxmox" "host") as [h|]; [|discriminate].
  destruct (configured config "auth" "user") as [u|]; [|discriminate].
  destruct (configured config "auth" "token_name") as [n|]; [|discriminate].
  destruct (configured config "auth" "token_value") as [v|]; [|discriminate].
  simpl in H. injection H as -> -> -> ->. reflexivity.
Qed.

Lemma bind_exc_lift {A B} (r : res A) (k : A -> P B) (w : world) :
  bind (exc (lift r)) k w
  = match r with
    | Ok a => k a w
    | Raise e => (Raise (Exception e), w)
    end.
Proof. unfold bind, exc, lift. now destruct r. Qed.

Lemma load_config_spec (w : world) :
  load_config w
  = match config_json with
    | Ok config => (Ok config, w)
    | Raise e =>
        (Raise (SystemExit 1),
         logged ("Failed to load configuration: " +++ exn_str e) w)
    end.
Proof.
  unfold load_config, except_Exception, exc, lift.
  now destruct config_json.
Qed.

Lemma bind_load_config {B} (k : value -> P B) (w : world) :
  bind load_config k w
  = match config_json with
    | Ok config => k config w
    | Raise e =>
        (Raise (SystemExit 1),
         logged ("Failed to load configuration: " +++ exn_str e) w)
    end.
Proof. unfold bind. rewrite load_config_spec. now destruct config_json. Qed.

(** What a call of [run_proxmox_api] comes to: the exit of a
    configuration that cannot be loaded, the exception of a setting that
    cannot be read, the envelope of a command that cannot be joined, or
    one run of the script. *)
Lemma run_proxmox_api_spec (action : string) (kw : kwargs) (w : world) :
  match config_json with
  | Raise e =>
      run_proxmox_api action kw w
      = (Raise (SystemExit 1),
         logged ("Failed to load configuration: " +++ exn_str e) w)
  | Ok config =>
      match credentials config with
      | Raise e => run_proxmox_api action kw w = (Raise (Exception e), w)
      | Ok _ =>
          match py_join " " (command_line action kw) with
          | Raise e =>
              run_proxmox_api action kw w
              = (Ok (error_envelope ("Error running command: " +++ exn_str e)),
                 logged ("Error running command: " +++ exn_str e) w)
          | Ok line =>
              exists v w',
                run_proxmox_api action kw w = (Ok v, w')
                /\ calls w'
                   = (calls w ++ [Script (command_line action kw)])%list
                /\ script_reply (remote (List.length (calls w))
                                        (Script (command_line action kw))) v
          end
      end
  end.
Proof.
  assert (Hload : forall B (k : value -> P B),
             bind load_config k w
             = match config_json with
               | Ok config => k config w
               | Raise e =>
                   (Raise (SystemExit 1),
                    logged ("Failed to load configuration: " +++ exn_str e) w)
               end) by (intros; apply bind_load_config).
  destruct config_json as [config|e] eqn:Hconfig;
    [|unfold run_proxmox_api; now rewrite Hload].
  unfold credentials.
  destruct (configured config "proxmox" "host") as [host|e] eqn:Hhost;
    [|unfold run_proxmox_api;
      now rewrite Hload, bind_exc_lift, Hhost].
  destruct (configured config "auth" "user") as [user|e] eqn:Huser;
    [|unfold run_proxmox_api;
      now rewrite Hload, bind_exc_lift, Hhost, bind_exc_lift, Huser].
  destruct (configured config "auth" "token_name") as [token_name|e] eqn:Hname;
    [|unfold run_proxmox_api;
      now rewrite Hload, bind_exc_lift, Hhost, bind_exc_lift, Huser,
        bind_exc_lift, Hname].
  destruct (configured config "auth" "token_value") as [token_value|e] eqn:Hvalue;
    [|unfold run_proxmox_api;
      now rewrite Hload, bind_exc_lift, Hhost, bind_exc_lift, Huser,
        bind_exc_lift, Hname, bind_exc_lift, Hvalue].
  cbn [rbind].
  assert (Hrun : run_proxmox_api action kw w
                 = exc (try_ (line <- lift (py_join " " (command_line action kw));;
                              log_line ("Running command: " +++ line);;;
                              call (Script (command_line action kw)))
                             (fun e =>
                                match e with
                                | CalledProcessError rc stderr =>
                                    log_line ("Command failed with exit code "
                                              +++ string_of_Z rc
                                              +++ ": " +++ stderr);;;
                                    ret (error_envelope ("Command failed: " +++ stderr))
                                | JSONDecodeError msg =>
                                    log_line ("Failed to parse JSON output: " +++ msg);;;
                                    ret (error_envelope
                                           ("Failed to parse JSON output: " +++ msg))
                                | _ =>
                                    log_line ("Error running command: " +++ exn_str e);;;
                                    ret (error_envelope
                                           ("Error running command: " +++ exn_str e))
                                end)) w).
  { unfold run_proxmox_api.
    rewrite Hload, bind_exc_lift, Hhost, bind_exc_lift, Huser,
      bind_exc_lift, Hname, bind_exc_lift, Hvalue.
    unfold command_line.
    rewrite (credentials_settings config host user token_name token_value Hconfig).
    - reflexivity.
    - unfold credentials. rewrite Hhost, Huser, Hname, Hvalue. reflexivity. }
  destruct (py_join " " (command_line action kw)) as [line|e] eqn:Hjoin.
  - rewrite Hrun. unfold exc, try_, bind at 1, lift at 1.
    unfold bind, log_line, call. cbn [calls].
    destruct (remote (List.length (calls w)) _) as [x|e]; simpl.
    + eexists _, _. split; [reflexivity|]. simpl. auto.
    + destruct e; simpl; eexists _, _; (split; [reflexivity|]); simpl; eauto.
  - rewrite Hrun. unfold exc, try_, bind at 1, lift at 1.
    unfold py_join in Hjoin.
    destruct (str_items 0 (command_line action kw)) as [ss|e'] eqn:Hitems;
      [discriminate|].
    simpl in Hjoin. injection Hjoin as <-.
    destruct (str_items_raises _ _ _ Hitems) as [msg ->]. reflexivity.
Qed.

Lemma dispatches_envelope (msg : string) : dispatches (ret (error_envelope msg)).
Proof. intros w. left. now exists msg. Qed.

Lemma dispatches_get (v : value) (k : string) (dflt : value)
  (c : value -> P value) :
  (forall a, dispatches (c a)) -> dispatches (bind (get v k dflt) c).
Proof.
  intros Hc w. unfold get. rewrite bind_exc_lift.
  destruct (py_get v k dflt) as [a|e]; [apply Hc|].
  right. left. now exists e.
Qed.

Lemma dispatches_if (b : bool) (c1 c2 : P value) :
  dispatches c1 -> dispatches c2 -> dispatches (if b then c1 else c2).
Proof. now destruct b. Qed.

Lemma dispatches_run (action : string) (kw : kwargs) :
  In action script_actions -> Forall flag_declared kw ->
  dispatches (run_proxmox_api action kw).
Proof. intros Ha Hkw w. right. right. now exists action, kw. Qed.

Ltac listed := simpl; repeat (first [left; reflexivity | right]).

Ltac dispatch :=
  repeat first
    [ apply dispatches_get; intro
    | apply dispatches_if
    | apply dispatches_envelope
    | apply dispatches_run;
      [ listed
      | repeat (apply Forall_cons; [unfold flag_declared; listed|]);
        apply Forall_nil ] ].

(** The handler of the [try] of [handle_mcp_request]. *)
Lemma handled (e : exn) (w : world) :
  (exc (log_line ("Error handling MCP request: " +++ exn_str e));;;
   ret (error_envelope ("Error handling MCP request: " +++ exn_str e))) w
  = (@Ok base_exn _
       (error_envelope ("Error handling MCP request: " +++ exn_str e)),
     logged ("Error handling MCP request: " +++ exn_str e) w).
Proof. reflexivity. Qed.

(** The body of [handle_mcp_request], the [try] without its handler. *)
Lemma handle_mcp_request_dispatches (request : value) :
  exists body,
    handle_mcp_request request
    = except_Exception body
        (fun e =>
           exc (log_line ("Error handling MCP request: " +++ exn_str e));;;
           ret (error_envelope ("Error handling MCP request: " +++ exn_str e)))
    /\ dispatches body.
Proof.
  eexists. split; [reflexivity|].
  unfold arg. dispatch.
Qed.

(** X1.  [handle_mcp_request] lets no [Exception] escape.  It answers
    every request, whatever the request is and whatever the script does,
    but for one case: when it comes to run the script and [config.json]
    cannot be loaded, the failure is logged and the process exits with
    status 1.  The script is run at most once.  When it is not run the
    answer is an error envelope; when it is, the answer is the decoded
    output of the script, or an error envelope when the run or the
    decoding failed. *)
Theorem handle_mcp_request_answers_or_exits :
  forall (request : value) (w : world),
    (exists v w',
        handle_mcp_request request w = (Ok v, w')
        /\ ((calls w' = calls w /\ exists msg, v = error_envelope msg)
            \/ exists cmd,
                 calls w' = (calls w ++ [Script cmd])%list
                 /\ script_reply (remote (List.length (calls w)) (Script cmd)) v))
    \/ (exists e,
           config_json = Raise e
           /\ handle_mcp_request request w
              = (Raise (SystemExit 1),
                 logged ("Failed to load configuration: " +++ exn_str e) w)).
Proof.
  intros request w.
  destruct (handle_mcp_request_dispatches request) as (body & -> & Hbody).
  unfold except_Exception.
  destruct (Hbody w) as [(msg & ->)|[(e & ->)|(action & kw & _ & _ & ->)]].
  - left. eexists _, _. split; [reflexivity|]. left. eauto.
  - left. rewrite handled. eexists _, _. split; [reflexivity|]. left. eauto.
  - pose proof (run_proxmox_api_spec action kw w) as Hrun.
    destruct config_json as [config|e].
    + left. destruct (credentials config) as [settings|e].
      * destruct (py_join " " (command_line action kw)) as [line|e].
        -- destruct Hrun as (v & w' & -> & Hcalls & Hv).
           exists v, w'. split; [reflexivity|]. right. eauto.
        -- rewrite Hrun. eexists _, _. split; [reflexivity|]. left. eauto.
      * rewrite Hrun, handled. eexists _, _. split; [reflexivity|]. left. eauto.
    + right. exists e. rewrite Hrun. auto.
Qed.

(** X2.  Whatever the request, when [handle_mcp_request] runs the script
    the command line is the fixed prefix, [--action] with one of the
    actions the script's parser accepts, and flags made of keyword
    arguments whose options the script's parser declares. *)
Theorem handle_mcp_request_command_line :
  forall (request : value) (w : world),
    let w' := snd (handle_mcp_request request w) in
    calls w' = calls w
    \/ exists action kw,
         calls w' = (calls w ++ [Script (command_line action kw)])%list
         /\ In action script_actions
         /\ Forall flag_declared kw.
Proof.
  intros request w.
  destruct (handle_mcp_request_dispatches request) as (body & -> & Hbody).
  unfold except_Exception.
  destruct (Hbody w) as [(msg & ->)|[(e & ->)|(action & kw & Ha & Hkw & ->)]].
  - now left.
  - now left.
  - pose proof (run_proxmox_api_spec action kw w) as Hrun.
    destruct config_json as [config|e]; [|rewrite Hrun; now left].
    destruct (credentials config) as [settings|e]; [|rewrite Hrun; now left].
    destruct (py_join " " (command_line action kw)) as [line|e];
      [|rewrite Hrun; now left].
    destruct Hrun as (v & w' & -> & Hcalls & _).
    right. exists action, kw. auto.
Qed.

Lemma py_get_not_dict (v : value) (k : string) (dflt : value) :
  ~ is_dict v -> py_get v k dflt = Raise (AttributeError (type_name v) "get").
Proof.
  intros H. destruct v; try reflexivity. exfalso. apply H. now exists d.
Qed.

(** X3.  A request that is no mapping, and a request for a tool with
    required arguments whose [arguments] are no mapping, are answered
    with an error envelope that carries the text of the attribute error;
    the error is logged and the script is not run. *)
Theorem handle_mcp_request_malformed :
  forall (request : value) (w : world),
    (~ is_dict request ->
     handle_mcp_request request w
     = (Ok (error_envelope (malformed_message request)),
        logged (malformed_message request) w))
    /\ (forall (tool : string) (required : list string) (arguments : value),
           In (tool, required) operation_registry ->
           required <> [] ->
           py_get request "tool" VNone = Ok (VStr tool) ->
           py_get request "arguments" (VDict []) = Ok arguments ->
           ~ is_dict arguments ->
           handle_mcp_request request w
           = (Ok (error_envelope (malformed_message arguments)),
              logged (malformed_message arguments) w)).
Proof.
  intros request w. split.
  - intros H. unfold handle_mcp_request, except_Exception.
    unfold get at 1. rewrite bind_exc_lift, (py_get_not_dict _ _ _ H).
    reflexivity.
  - intros tool required arguments Hreg Hreq Htool Hargs H.
    unfold handle_mcp_request, except_Exception.
    unfold get at 1. rewrite bind_exc_lift, Htool.
    unfold get at 1. rewrite bind_exc_lift, Hargs.
    simpl in Hreg.
    repeat (destruct Hreg as [Hreg | Hreg];
            [ injection Hreg as <- <-;
              first [ now contradiction Hreq
                    | simpl; unfold arg, get; rewrite bind_exc_lift;
                      rewrite (py_get_not_dict _ _ _ H); reflexivity ]
            | ]).
    contradiction.
Qed.

(** X4.  For a tool without required arguments the [arguments] of the
    request are not looked at: whatever they are, a mapping or not, the
    request is served like the request that names the tool and nothing
    else.  What it comes to depends on the configuration alone: the exit
    with status 1 when [config.json] cannot be loaded; an error envelope,
    logged, and no run of the script when a setting cannot be read or the
    command cannot be joined; otherwise one run of the script with
    [--action] and the tool's name and no other flag. *)
Theorem handle_mcp_request_plain_tool :
  forall (request : value) (tool : string) (w : world),
    In (tool, []) operation_registry ->
    py_get request "tool" VNone = Ok (VStr tool) ->
    let cmd := (script_prefix ++ [VStr "--action"; VStr tool])%list in
    handle_mcp_request request w
    = handle_mcp_request (VDict [kv "tool" (VStr tool)]) w
    /\ match config_json with
       | Raise e =>
           handle_mcp_request request w
           = (Raise (SystemExit 1),
              logged ("Failed to load configuration: " +++ exn_str e) w)
       | Ok config =>
           match credentials config with
           | Raise e =>
               handle_mcp_request request w
               = (Ok (error_envelope
                        ("Error handling MCP request: " +++ exn_str e)),
                  logged ("Error handling MCP request: " +++ exn_str e) w)
           | Ok _ =>
               match py_join " " cmd with
               | Raise e =>
                   handle_mcp_request request w
                   = (Ok (error_envelope
                            ("Error running command: " +++ exn_str e)),
                      logged ("Error running command: " +++ exn_str e) w)
               | Ok _ =>
                   exists v w',
                     handle_mcp_request request w = (Ok v, w')
                     /\ calls w' = (calls w ++ [Script cmd])%list
                     /\ script_reply
                          (remote (List.length (calls w)) (Script cmd)) v
               end
           end
       end.
Proof.
  intros request tool w Hreg Htool cmd.
  assert (H : forall r,
             py_get r "tool" VNone = Ok (VStr tool) ->
             handle_mcp_request r w
             = except_Exception (run_proxmox_api tool [])
                 (fun e =>
                    exc (log_line ("Error handling MCP request: " +++ exn_str e));;;
                    ret (error_envelope
                           ("Error handling MCP request: " +++ exn_str e))) w).
  { intros r Hr. destruct (py_get_dict _ _ _ _ Hr) as [d ->].
    unfold handle_mcp_request, except_Exception.
    unfold get at 1. rewrite bind_exc_lift, Hr.
    unfold get at 1. rewrite bind_exc_lift. cbn [py_get].
    simpl in Hreg.
    repeat (destruct Hreg as [Hreg | Hreg];
            [ first [ discriminate Hreg
                    | injection Hreg as <-; reflexivity ]
            | ]).
    contradiction. }
  split; [rewrite (H request Htool); now rewrite (H (VDict [kv "tool" (VStr tool)]))|].
  rewrite (H request Htool). unfold except_Exception.
  pose proof (run_proxmox_api_spec tool [] w) as Hrun.
  assert (Hcmd : command_line tool [] = cmd).
  { unfold command_line, cmd. simpl. reflexivity. }
  rewrite Hcmd in Hrun.
  destruct config_json as [config|e]; [|now rewrite Hrun].
  destruct (credentials config) as [settings|e]; [|now rewrite Hrun].
  destruct (py_join " " cmd) as [line|e]; [|now rewrite Hrun].
  destruct Hrun as (v & w' & -> & Hcalls & Hv). eauto.
Qed.

(** ** The interactive loop *)







(** ** The operations of the script *)

Lemma forwarded_forwards (r : request) (what : string) :
  forwards r (forwarded r what).
Proof.
  intros w. unfold forwarded, try_, call, called.
  destruct (remote (List.length (calls w)) r) as [x|e];
    eexists; (split; [reflexivity|]); eauto.
Qed.

(** X6.  No operation of the script lets an exception escape: whatever
    the remote does, each returns a value.  The seven plain queries make
    exactly one remote call, log and print nothing, and return the
    remote's answer unchanged, or an error envelope that ends with the
    text of the exception. *)
Theorem script_operations_never_raise :
  (forwards nodes_request get_nodes
   /\ (forall node, forwards (node_status_request node) (get_node_status node))
   /\ (forall node vmid command,
          forwards (agent_exec_request node vmid command)
                   (execute_vm_command node vmid command))
   /\ forwards storage_pools_request get_storage
   /\ forwards cluster_status_request get_cluster_status
   /\ (forall node vmid,
          forwards (qemu_config_request node vmid) (get_vm_config node vmid))
   /\ (forall node task_id,
          forwards (task_status_request node task_id)
                   (get_task_status node task_id)))
  /\ returns get_vms
  /\ returns get_templates
  /\ returns get_next_vmid
  /\ (forall node template_vmid new_vm_name target_node full_clone storage,
         returns (clone_template node template_vmid new_vm_name target_node
                                 full_clone storage))
  /\ (forall node vmid, returns (start_vm node vmid))
  /\ (forall node vmid, returns (stop_vm node vmid))
  /\ (forall node vmid, returns (reboot_vm node vmid))
  /\ (forall node vmid cpu memory name description,
         returns (update_vm_config node vmid cpu memory name description)).
Proof.
  repeat split; intros;
    first [ apply forwarded_forwards
          | apply try_returns; intros e; first [apply ret_returns|idtac] ].
  intros w. unfold bind, random_randint, ret. eauto.
Qed.

(** X7.  [start_vm], [stop_vm] and [reboot_vm] make exactly one remote
    call, a POST to the status endpoint [start], [shutdown] or [reboot].
    The reply carries [success = True] exactly when the remote answered;
    its task identifier is then the answer itself, or the [data] field of
    an answer that is a mapping, [None] when that mapping has no such
    field.  When the remote raised, the reply is an error envelope. *)
Theorem power_operations_report_the_task :
  forall (node vmid : value) (w : world),
    let k := List.length (calls w) in
    let outcome (op : string) (c : M value) : Prop :=
      exists reply,
        c w = (Ok reply, called (power_request node vmid op) w)
        /\ match remote k (power_request node vmid op) with
           | Ok result =>
               success_field reply = Some (VBool true)
               /\ field reply "task_id" VNone = data_of result
           | Raise e =>
               success_field reply = None
               /\ reply
                  = error_envelope ("Failed to " +++ op +++ " VM " +++ py_str vmid
                                    +++ " on node " +++ py_str node +++ ": "
                                    +++ exn_str e)
           end in
    outcome "start" (start_vm node vmid)
    /\ outcome "shutdown" (stop_vm node vmid)
    /\ outcome "reboot" (reboot_vm node vmid).
Proof.
  intros node vmid w k outcome. subst outcome k.
  repeat split;
    unfold start_vm, stop_vm, reboot_vm, power_operation, try_, bind, call, called;
    destruct (remote (List.length (calls w)) _) as [result|e];
    eexists; (split; [reflexivity|]); simpl;
    (split; reflexivity).
Qed.

Lemma given_spec (k : string) (v : value) (k' : string) (v' : value) :
  In (k', v') (given k v) <-> v <> VNone /\ (k', v') = (k, v).
Proof.
  destruct v; simpl; split; try (intros [H|[]]; split; [discriminate|now symmetry]);
    try (intros [_ H]; left; now symmetry).
  - intros [].
  - intros [H _]. now contradiction H.
Qed.

(** X8.  [update_vm_config] sends the settings that are not [None], and
    only those, in the order cores, memory, name, description: zero and
    the empty string are sent.  With no setting given it makes no remote
    call and answers with an error envelope; otherwise it makes exactly
    one call, a PUT of the settings, and on success echoes them under
    [updated_params]. *)
Theorem update_vm_config_sends_what_is_given :
  forall (node vmid cpu memory name description : value) (w : world),
    let params := config_params cpu memory name description in
    (forall k v,
        In (k, v) params
        <-> v <> VNone
            /\ In (k, v) [("cores", cpu); ("memory", memory); ("name", name);
                          ("description", description)])
    /\ (params = [] ->
        update_vm_config node vmid cpu memory name description w
        = (Ok (error_envelope "No configuration parameters provided"), w))
    /\ (params <> [] ->
        exists reply,
          update_vm_config node vmid cpu memory name description w
          = (Ok reply, called (qemu_config_put node vmid params) w)
          /\ match remote (List.length (calls w))
                          (qemu_config_put node vmid params) with
             | Ok _ =>
                 success_field reply = Some (VBool true)
                 /\ field reply "updated_params" VNone
                    = VDict (map (fun e => kv (fst e) (snd e)) params)
             | Raise e =>
                 reply
                 = error_envelope ("Failed to update VM " +++ py_str vmid
                                   +++ " configuration on node " +++ py_str node
                                   +++ ": " +++ exn_str e)
             end).
Proof.
  intros node vmid cpu memory name description w params.
  split; [|split].
  - intros k v. unfold params, config_params.
    rewrite !in_app_iff, !given_spec. simpl. split.
    + intros [H|[H|[H|H]]]; destruct H as [Hv H]; injection H as -> ->;
        (split; [exact Hv|]); auto 6.
    + intros [Hv [H|[H|[H|[H|[]]]]]]; injection H as <- <-; auto 8.
  - intros H. unfold update_vm_config, try_. fold params. rewrite H. reflexivity.
  - intros H. unfold update_vm_config, try_. fold params.
    destruct params as [|p rest]; [now contradiction H|].
    unfold bind, call, called.
    destruct (remote (List.length (calls w)) _) as [x|e];
      eexists; (split; [reflexivity|]); simpl; auto.
Qed.

(** X9.  With a timeout of zero or less [wait_for_task] does not poll:
    it returns at once the message that the task did not complete within
    the timeout, and leaves the world as it was. *)
Theorem wait_for_task_without_time :
  forall (node task_id : value) (timeout interval : Z) (fuel : nat) (w : world),
    timeout <= 0 ->
    wait_for_task (S fuel) node task_id timeout interval w
    = Some (error_envelope (timeout_message task_id timeout), w).
Proof.
  intros node task_id timeout interval fuel w H.
  unfold wait_for_task. cbn [wait_for_task_loop].
  rewrite Z.sub_diag.
  destruct (0 <? timeout * 1000000) eqn:E; [|reflexivity].
  apply Z.ltb_lt in E. lia.
Qed.

(** X10.  [clone_template] makes exactly two remote calls, the
    next-identifier query and the clone, whether the query answered or
    not.  The identifier it submits as [newid] is the remote's answer to
    the query, unchecked, or the random fallback; when the clone is
    accepted the reply reports that same identifier as [new_vmid], and
    the task the remote named.  When the clone raises, the reply is an
    error envelope. *)
Theorem clone_template_reports_the_id_it_submits :
  forall (node template_vmid new_vm_name target_node full_clone storage : value)
         (w : world),
    let submitted :=
      clone_request node template_vmid
        (clone_params (next_vmid_of w) new_vm_name target_node full_clone
                      storage) in
    exists reply w',
      clone_template node template_vmid new_vm_name target_node full_clone
                     storage w = (Ok reply, w')
      /\ calls w' = (calls w ++ [nextid_request; submitted])%list
      /\ match remote (S (List.length (calls w))) submitted with
         | Ok task_result =>
             success_field reply = Some (VBool true)
             /\ field reply "new_vmid" VNone = next_vmid_of w
             /\ field reply "task_id" VNone = task_id_of task_result
         | Raise e =>
             reply
             = error_envelope ("Failed to clone template "
                               +++ py_str template_vmid +++ " on node "
                               +++ py_str node +++ ": " +++ exn_str e)
         end.
Proof.
  intros node template_vmid new_vm_name target_node full_clone storage w submitted.
  assert (Hlen : List.length (calls w ++ [nextid_request])
                 = S (List.length (calls w))).
  { rewrite length_app. simpl. lia. }
  unfold clone_template, get_next_vmid, try_, bind, call, random_randint, ret.
  subst submitted. unfold next_vmid_of, fallback_vmid.
  destruct (remote (List.length (calls w)) nextid_request) as [x|e0];
    cbn [calls]; rewrite Hlen;
    destruct (remote (S (List.length (calls w))) _) as [task_result|e];
    eexists _, _; (split; [reflexivity|]); simpl; rewrite <- app_assoc;
    (split; [reflexivity|]); auto.
Qed.

(** ** The summary of [get_vms] *)

Lemma visit_vms_fst (names : list string) :
  forall k s,
    fst (visit vms_next k names s)
    = (fst s ++ fanout vm_contribution k names)%list.
Proof.
  induction names as [|name rest IH]; intros k s; simpl.
  - now rewrite app_nil_r.
  - rewrite IH. unfold vms_next, vm_contribution.
    destruct (remote k (qemu_request name)) as [[]|]; simpl;
      rewrite <- ?app_assoc; reflexivity.
Qed.

Lemma get_vms_node_step_lists :
  forall s node name w,
    named node name ->
    list_or_raises (remote (List.length (calls w)) (qemu_request name)) ->
    exists w',
      get_vms_node s node w = (Ok (vms_next (List.length (calls w)) name s), w')
      /\ calls w' = (calls w ++ [qemu_request name])%list
      /\ logs w' = (logs w ++ [])%list
      /\ stdout w' = (stdout w ++ vm_complaints (List.length (calls w)) name)%list.
Proof.
  intros [vms by_node] node name w Hname Hexp.
  unfold get_vms_node, bind, lift, attempt, call.
  rewrite Hname.
  unfold vms_next, vm_complaints.
  destruct (remote (List.length (calls w)) (qemu_request name)) as [v|e].
  - destruct Hexp as (l & ->). simpl.
    eexists. split; [reflexivity|]. simpl. rewrite !app_nil_r. auto.
  - eexists. split; [reflexivity|].
    simpl. rewrite !app_nil_r. auto.
Qed.

(** The state of the loop of [get_vms] when it ends, over nodes whose
    calls raise or return lists. *)
Lemma get_vms_loop (nodes : list value) (names : list string) (w : world) :
  remote (List.length (calls w)) nodes_request = Ok (VList nodes) ->
  Forall2 named nodes names ->
  (forall i name,
      nth_error names i = Some name ->
      list_or_raises (remote (S (List.length (calls w)) + i) (qemu_request name))) ->
  exists w',
    get_vms w
    = try_
        (let (vms, vms_by_node) :=
           visit vms_next (S (List.length (calls w))) names ([], []) in
         running_vms <- lift (rfilter is_running vms);;
         node_stats <- lift (node_stats_of vms_by_node []);;
         ret (VDict [kv "total_vms" (VInt (Z.of_nat (List.length vms)));
                     kv "total_running"
                        (VInt (Z.of_nat (List.length running_vms)));
                     kv "nodes" (VDict node_stats);
                     kv "vms" (VList vms)]))
        (fun e => ret (error_envelope ("Failed to get VMs: " +++ exn_str e)))
        w'
    /\ calls w'
       = (calls w
          ++ nodes_request :: map (fun name : string => qemu_request name) names)%list
    /\ stdout w'
       = (stdout w ++ fanout vm_complaints (S (List.length (calls w))) names)%list.
Proof.
  intros Hnodes Hnames Hexp.
  unfold get_vms, try_, bind.
  unfold call at 1. rewrite Hnodes. unfold lift at 1. simpl py_iter. cbv iota beta.
  set (w1 := mkWorld _ _ _ _ _ _).
  assert (Hlen : List.length (calls w1) = S (List.length (calls w))).
  { subst w1. simpl. rewrite length_app. simpl. lia. }
  destruct (foldM_visit get_vms_node vms_next
              (fun name : string => qemu_request name) list_or_raises
              (fun _ _ => []) vm_complaints
              get_vms_node_step_lists nodes names ([], []) w1 Hnames)
    as (w2 & Hrun & Hcalls & _ & Hout).
  { intros i name Hi. rewrite Hlen. now apply Hexp. }
  rewrite Hrun, Hlen. exists w2. split; [reflexivity|].
  rewrite Hcalls, Hout, Hlen. subst w1. simpl. rewrite <- app_assoc.
  split; reflexivity.
Qed.

Lemma records_are_lists (r : res value) : records_or_raises r -> list_or_raises r.
Proof. destruct r as [v|e]; [|auto]. intros (l & -> & _). now exists l. Qed.

Lemma summarisable_are_lists (r : res value) : vms_or_raises r -> list_or_raises r.
Proof. destruct r as [v|e]; [|auto]. intros (l & -> & _). now exists l. Qed.

Lemma fanout_Forall {A} (P : A -> Prop) (c : nat -> string -> list A)
  (names : list string) :
  forall k,
    (forall i name, nth_error names i = Some name -> Forall P (c (k + i)%nat name)) ->
    Forall P (fanout c k names).
Proof.
  induction names as [|name rest IH]; intros k H; simpl; [constructor|].
  apply Forall_app. split.
  - specialize (H 0%nat name eq_refl). now rewrite Nat.add_0_r in H.
  - apply IH. intros i nm Hi. specialize (H (S i) nm Hi).
    now replace (S k + i)%nat with (k + S i)%nat by lia.
Qed.

Lemma rfilter_is_running_missing (l : list value) :
  Forall is_dict l ->
  Exists (fun vm => py_getitem vm "status" = Raise (KeyError "status")) l ->
  rfilter is_running l = Raise (KeyError "status").
Proof.
  induction 1 as [|vm l [d ->] _ IH]; intros Hex; [inversion Hex|].
  cbn [rfilter]. unfold is_running at 1. cbn [py_getitem].
  cbn [py_getitem] in Hex.
  destruct (dict_get d "status") as [st|] eqn:E; [|reflexivity].
  cbn [rbind]. rewrite IH; [reflexivity|].
  inversion Hex as [? ? Hhd|? ? Htl]; subst; [|assumption].
  cbn [py_getitem] in Hhd. rewrite E in Hhd. discriminate.
Qed.

(** X11.  One record without a [status] makes [get_vms] fail as a whole:
    when every node's call raises or returns a list of records and some
    record of some list has no [status] field, the answer is the error
    envelope of the [KeyError], although every list was fetched. *)
Theorem get_vms_fails_on_a_record_without_status :
  forall (nodes : list value) (names : list string) (w : world),
    let k := S (List.length (calls w)) in
    remote (List.length (calls w)) nodes_request = Ok (VList nodes) ->
    Forall2 named nodes names ->
    (forall i name, nth_error names i = Some name ->
                    records_or_raises (remote (k + i) (qemu_request name))) ->
    Exists (fun vm => py_getitem vm "status" = Raise (KeyError "status"))
           (fanout vm_contribution k names) ->
    fst (get_vms w) = Ok (error_envelope "Failed to get VMs: 'status'")
    /\ calls (snd (get_vms w))
       = (calls w
          ++ nodes_request :: map (fun name : string => qemu_request name) names)%list.
Proof.
  intros nodes names w k Hnodes Hnames Hexp Hex.
  destruct (get_vms_loop nodes names w Hnodes Hnames) as (w' & Hrun & Hcalls & _).
  { intros i name Hi. apply records_are_lists. now apply Hexp. }
  assert (Hdicts : Forall is_dict (fanout vm_contribution k names)).
  { apply fanout_Forall. intros i name Hi. specialize (Hexp i name Hi).
    unfold vm_contribution.
    destruct (remote (k + i) (qemu_request name)) as [v|e]; [|constructor].
    destruct Hexp as (l & -> & Hl). exact Hl. }
  pose proof (visit_vms_fst names k ([], [])) as Hfst. simpl in Hfst.
  rewrite Hrun. unfold try_, bind.
  fold k. destruct (visit vms_next k names ([], [])) as [vms by_node].
  simpl in Hfst. subst vms.
  unfold lift at 1. rewrite (rfilter_is_running_missing _ Hdicts Hex).
  split; [reflexivity|exact Hcalls].
Qed.

Lemma running_summaries (l : list value) :
  Forall summarisable l ->
  rmap (fun vm =>
          vmid <~ py_getitem vm "vmid";;
          name <~ py_getitem vm "name";;
          st <~ py_getitem vm "status";;
          Ok (VDict [kv "vmid" vmid; kv "name" name; kv "status" st]))
       (filter running_vm l)
  = Ok (map vm_summary (filter running_vm l)).
Proof.
  induction 1 as [|vm l (st & Hst & Hrun) _ IH]; [reflexivity|].
  assert (Hr : running_vm vm = py_eq_str st "running")
    by (unfold running_vm; now rewrite Hst).
  cbn [filter]. rewrite Hr.
  destruct (py_eq_str st "running") eqn:E; [|exact IH].
  destruct (Hrun eq_refl) as (vmid & name & Hvmid & Hname).
  cbn [rmap map]. rewrite Hvmid, Hname, Hst. cbn [rbind]. rewrite IH.
  unfold vm_summary, item. rewrite Hvmid, Hname, Hst. reflexivity.
Qed.

Lemma node_stat_summary (l : list value) :
  Forall summarisable l -> node_stat (VList l) = Ok (node_summary l).
Proof.
  intros Hl. unfold node_stat. cbn [py_iter rbind].
  rewrite (rfilter_is_running l Hl). cbn [rbind py_len].
  rewrite (running_summaries l Hl). reflexivity.
Qed.

Lemma node_stats_of_entries (entries : list (string * list value)) :
  Forall (fun e => Forall summarisable (snd e)) entries ->
  NoDup (map fst entries) ->
  forall done : list (string * list value),
    (forall name, In name (map fst entries) -> ~ In name (map fst done)) ->
    node_stats_of (json_object (map by_node_entry entries))
                  (json_object (map node_stats_entry done))
    = Ok (json_object (map node_stats_entry (done ++ entries))).
Proof.
  induction 1 as [|[name l] entries Hl _ IH]; intros Hnodup done Hfresh.
  - simpl. now rewrite app_nil_r.
  - simpl in Hnodup. inversion Hnodup as [|? ? Hname Hrest]; subst.
    cbn [map json_object by_node_entry fst snd node_stats_of].
    simpl in Hl. rewrite (node_stat_summary l Hl). cbn [rbind].
    rewrite dict_set_fresh.
    2:{ rewrite map_map. cbn [node_stats_entry fst].
        change (fun x : string * list value => fst x) with (@fst string (list value)).
        apply Hfresh. simpl. auto. }
    replace (map node_stats_entry done ++ [(name, node_summary l)])%list
      with (map node_stats_entry (done ++ [(name, l)]))
      by (rewrite map_app; reflexivity).
    fold (json_object (map by_node_entry entries)).
    rewrite (IH Hrest (done ++ [(name, l)])%list).
    + now rewrite <- app_assoc.
    + intros nm Hnm Hin. rewrite map_app, in_app_iff in Hin.
      destruct Hin as [Hin|[<-|[]]]; [|contradiction].
      apply (Hfresh nm); simpl; auto.
Qed.

Lemma fanout_answered_names (names : list string) :
  forall k name, In name (map fst (fanout answered k names)) -> In name names.
Proof.
  induction names as [|nm rest IH]; intros k name; simpl; [auto|].
  rewrite map_app, in_app_iff. intros [H|H]; [|right; now apply (IH (S k))].
  unfold answered in H.
  destruct (remote k (qemu_request nm)) as [[]|]; simpl in H;
    try contradiction.
  destruct H as [<-|[]]. now left.
Qed.

Lemma fanout_answered_nodup (names : list string) :
  NoDup names -> forall k, NoDup (map fst (fanout answered k names)).
Proof.
  induction 1 as [|nm rest Hnm _ IH]; intros k; simpl; [constructor|].
  rewrite map_app. unfold answered at 1.
  destruct (remote k (qemu_request nm)) as [[]|]; simpl; try apply IH.
  constructor; [|apply IH].
  intros Hin. apply Hnm. now apply (fanout_answered_names rest (S k)).
Qed.

Lemma fanout_answered_vms (names : list string) :
  forall k,
    List.concat (map snd (fanout answered k names))
    = fanout vm_contribution k names.
Proof.
  induction names as [|nm rest IH]; intros k; simpl; [reflexivity|].
  rewrite map_app, concat_app, IH. unfold answered, vm_contribution.
  destruct (remote k (qemu_request nm)) as [[]|]; simpl;
    rewrite ?app_nil_r; reflexivity.
Qed.

Lemma visit_vms_by_node (names : list string) :
  NoDup names ->
  forall k (vms : list value) (done : list (string * list value)),
    (forall name, In name names -> ~ In name (map fst done)) ->
    snd (visit vms_next k names (vms, json_object (map by_node_entry done)))
    = json_object (map by_node_entry (done ++ fanout answered k names)).
Proof.
  induction 1 as [|nm rest Hnm Hrest IH]; intros k vms done Hfresh.
  - simpl. now rewrite app_nil_r.
  - cbn [visit fanout]. unfold vms_next at 2, answered at 1. cbn [fst snd].
    destruct (remote k (qemu_request nm)) as [[| | | |l|]|].
    5:{ rewrite dict_set_fresh.
        2:{ rewrite map_map. cbn [by_node_entry fst].
            change (fun x : string * list value => fst x)
              with (@fst string (list value)).
            apply Hfresh. simpl. auto. }
        replace (map by_node_entry done ++ [(nm, VList l)])%list
          with (map by_node_entry (done ++ [(nm, l)]))
          by (rewrite map_app; reflexivity).
        rewrite IH.
        - now rewrite <- app_assoc.
        - intros name Hname Hin. rewrite map_app, in_app_iff in Hin.
          destruct Hin as [Hin|[<-|[]]]; [|contradiction].
          apply (Hfresh name); simpl; auto. }
    all: cbn [app]; apply IH; intros name Hname; apply Hfresh; simpl; auto.
Qed.

Lemma length_concat_sum {A} (ls : list (list A)) :
  List.length (List.concat ls) = list_sum (map (@List.length A) ls).
Proof.
  induction ls as [|l ls IH]; simpl; [reflexivity|].
  now rewrite length_app, IH.
Qed.

Lemma filter_concat {A} (f : A -> bool) (ls : list (list A)) :
  filter f (List.concat ls) = List.concat (map (filter f) ls).
Proof.
  induction ls as [|l ls IH]; simpl; [reflexivity|].
  now rewrite filter_app, IH.
Qed.

(** X12.  Over nodes with distinct names whose calls raise or return
    lists of records that can be summarised, the summary of [get_vms] is
    consistent: [vms] is the concatenation of the lists of the nodes that
    answered, [nodes] has one entry for each of them, in order, with its
    own total and running count, and the totals and the running counts
    of the nodes add up to [total_vms] and [total_running]. *)
Theorem get_vms_totals_add_up :
  forall (nodes : list value) (names : list string) (w : world),
    let k := S (List.length (calls w)) in
    remote (List.length (calls w)) nodes_request = Ok (VList nodes) ->
    Forall2 named nodes names ->
    NoDup names ->
    (forall i name, nth_error names i = Some name ->
                    vms_or_raises (remote (k + i) (qemu_request name))) ->
    let entries := fanout answered k names in
    let vms := List.concat (map snd entries) in
    let running := filter running_vm vms in
    fst (get_vms w)
    = Ok (VDict [kv "total_vms" (VInt (Z.of_nat (List.length vms)));
                 kv "total_running" (VInt (Z.of_nat (List.length running)));
                 kv "nodes" (VDict (json_object (map node_stats_entry entries)));
                 kv "vms" (VList vms)])
    /\ List.length vms
       = list_sum (map (fun e => List.length (snd e)) entries)
    /\ List.length running
       = list_sum (map (fun e => List.length (filter running_vm (snd e)))
                       entries).
Proof.
  intros nodes names w k Hnodes Hnames Hnodup Hexp entries vms running.
  split; [|split].
  - destruct (get_vms_loop nodes names w Hnodes Hnames) as (w' & Hrun & _).
    { intros i name Hi. apply summarisable_are_lists. now apply Hexp. }
    destruct (visit_vms names k ([], []) Hexp) as (Hfst & Hvms & _);
      [constructor|constructor|].
    assert (Hsnd : snd (visit vms_next k names ([], []))
                   = json_object (map by_node_entry entries)).
    { apply (visit_vms_by_node names Hnodup k [] []). intros name _ []. }
    rewrite Hrun. unfold try_, bind. fold k.
    destruct (visit vms_next k names ([], [])) as [vms' by_node].
    cbn [fst snd] in Hfst, Hvms, Hsnd.
    rewrite Hsnd.
    assert (Hv : vms' = vms).
    { rewrite Hfst. unfold vms, entries. cbn [app].
      symmetry. apply fanout_answered_vms. }
    rewrite Hv in *. clear Hv Hfst.
    unfold lift at 1. rewrite (rfilter_is_running vms Hvms).
    unfold lift at 1.
    assert (Hstats : node_stats_of (json_object (map by_node_entry entries)) []
                     = Ok (json_object (map node_stats_entry entries))).
    { apply (node_stats_of_entries entries) with (done := []).
      - apply fanout_Forall. intros i name Hi. specialize (Hexp i name Hi).
        unfold answered.
        destruct (remote (k + i) (qemu_request name)) as [v|e]; [|constructor].
        destruct Hexp as (l & -> & Hl). constructor; [exact Hl|constructor].
      - now apply fanout_answered_nodup.
      - intros name _ []. }
    rewrite Hstats. reflexivity.
  - unfold vms. rewrite length_concat_sum, map_map. reflexivity.
  - unfold running, vms. rewrite filter_concat, length_concat_sum, !map_map.
    reflexivity.
Qed.

Lemma dict_get_set_same (d : dict) (k : string) (v : value) :
  dict_get (dict_set d (VStr k) v) (VStr k) = Some v.
Proof.
  induction d as [|[k' v'] d IH]; cbn [dict_set dict_get].
  - cbn [key_eq]. now rewrite String.eqb_refl.
  - destruct (key_eq (VStr k) k') eqn:E; cbn [dict_get]; rewrite E;
      [reflexivity|exact IH].
Qed.

Lemma dict_get_set_other (d : dict) (a b : string) (v : value) :
  a <> b ->
  dict_get (dict_set d (VStr a) v) (VStr b) = dict_get d (VStr b).
Proof.
  intros Hab. induction d as [|[k' v'] d IH]; simpl.
  - destruct (String.eqb_spec b a); [congruence|reflexivity].
  - destruct k'; simpl; try exact IH.
    destruct (String.eqb_spec a s) as [->|Ha]; simpl.
    + destruct (String.eqb_spec b s); [congruence|reflexivity].
    + destruct (String.eqb b s); [reflexivity|exact IH].
Qed.

(** X13.  Every entry of the list [get_templates] returns is marked as a
    template ([template == 1]) and carries in [node] the name of a node
    of the cluster list; [total_templates] is the length of the list. *)
Theorem get_templates_lists_tagged_templates :
  forall (nodes : list value) (names : list string) (w : world),
    let k := S (List.length (calls w)) in
    remote (List.length (calls w)) nodes_request = Ok (VList nodes) ->
    Forall2 named nodes names ->
    (forall i name, nth_error names i = Some name ->
                    records_or_raises (remote (k + i) (qemu_request name))) ->
    exists templates,
      fst (get_templates w)
      = Ok (VDict [kv "total_templates" (VInt (Z.of_nat (List.length templates)));
                   kv "templates" (VList templates)])
      /\ Forall (fun t =>
                   marked_template t = true
                   /\ exists name,
                        In name names /\ field t "node" VNone = VStr name)
                templates.
Proof.
  intros nodes names w k Hnodes Hnames Hexp.
  destruct (get_templates_fanout nodes names w Hnodes Hnames Hexp)
    as (w' & Hrun & _).
  exists (fanout template_contribution k names). split; [now rewrite Hrun|].
  apply fanout_Forall. intros i name Hi. specialize (Hexp i name Hi).
  unfold template_contribution.
  destruct (remote (k + i) (qemu_request name)) as [v|e]; [|constructor].
  destruct Hexp as (l & -> & Hl).
  induction Hl as [|t l [d ->] _ IH]; [constructor|].
  cbn [filter]. destruct (marked_template (VDict d)) eqn:E; [|exact IH].
  cbn [map]. constructor; [|exact IH]. split.
  - unfold marked_template, field, tagged in *. cbn [py_get] in *.
    rewrite dict_get_set_other by discriminate. exact E.
  - exists name. split; [eapply nth_error_In; exact Hi|].
    unfold field, tagged. cbn [py_get]. now rewrite dict_get_set_same.
Qed.

(** ** The container tools *)

(** X14.  [get_container_status] reads the status, then the
    configuration, and changes nothing.  The memory total it reports is
    in bytes: the configured number of megabytes, 512 when the
    configuration has no [memory], times 1048576. *)
Theorem get_container_status_memory_in_bytes :
  forall (node vmid : value) (status config : dict) (megabytes : Z) (w : world),
    remote (List.length (calls w)) (lxc_status_request node vmid)
    = Ok (VDict status) ->
    remote (S (List.length (calls w))) (lxc_config_request node vmid)
    = Ok (VDict config) ->
    field (VDict config) "memory" (VInt 512) = VInt megabytes ->
    exists record w',
      ContainerTools_get_container_status node vmid w
      = (Ok (Some (format_response record "container_status")), w')
      /\ calls w'
         = (calls w ++ [lxc_status_request node vmid;
                        lxc_config_request node vmid])%list
      /\ field record "memory" VNone
         = VDict [kv "used" (field (VDict status) "mem" (VInt 0));
                  kv "total" (VInt (megabytes * 1048576))].
Proof.
  intros node vmid status config megabytes w Hstatus Hconfig Hmem.
  unfold ContainerTools_get_container_status, handler, try_, bind.
  unfold call at 1. rewrite Hstatus.
  unfold call at 1. cbn [calls].
  assert (Hlen : List.length (calls w ++ [lxc_status_request node vmid])
                 = S (List.length (calls w))).
  { rewrite length_app. simpl. lia. }
  rewrite Hlen, Hconfig.
  unfold lift. unfold field in Hmem. cbn [py_get] in *. rewrite Hmem.
  cbn [py_mul rbind ret].
  eexists _, _. split; [reflexivity|]. cbn [calls]. rewrite <- app_assoc.
  split; [reflexivity|].
  unfold field. cbn.
  replace (megabytes * 1024 * 1024) with (megabytes * 1048576) by lia.
  reflexivity.
Qed.

(** X15.  [execute_command] does not wait for the command: it submits
    it, reads the status of its task once, and reads the log only when
    that status says [exitstatus == 'OK'].  A task that has no exit
    status yet is reported as a failure, with exit code 1 and the text
    'Unknown error', after two remote calls.  Whenever the handler
    replies, the reply says success exactly when the exit status read
    was 'OK', and its exit code is 0 then and 1 otherwise. *)
Theorem execute_command_reports_a_running_task_as_failed :
  forall (node vmid command task_id task_status : value) (w : world),
    remote (List.length (calls w)) (lxc_exec_request node vmid command)
    = Ok task_id ->
    remote (S (List.length (calls w))) (task_status_request node task_id)
    = Ok task_status ->
    (forall d, task_status = VDict d -> dict_get d "exitstatus" = None ->
               ContainerTools_execute_command node vmid command w
               = (Ok (Some (format_response
                              (command_outcome false
                                 "Command execution failed: Unknown error")
                              "container_command")),
                  called (task_status_request node task_id)
                         (called (lxc_exec_request node vmid command) w)))
    /\ (forall c w',
           ContainerTools_execute_command node vmid command w = (Ok (Some c), w') ->
           exists output,
             c = format_response
                   (command_outcome
                      (py_eq_str (field task_status "exitstatus" VNone) "OK")
                      output)
                   "container_command").
Proof.
  intros node vmid command task_id task_status w Hexec Hstatus.
  assert (Hlen : List.length (calls w ++ [lxc_exec_request node vmid command])
                 = S (List.length (calls w))).
  { rewrite length_app. simpl. lia. }
  rewrite <- Hlen in Hstatus.
  split.
  - intros d -> Hnone.
    unfold ContainerTools_execute_command, handler, try_, bind.
    unfold call at 1. rewrite Hexec.
    unfold call at 1. cbn [calls]. rewrite Hstatus.
    unfold lift. cbn [py_get]. rewrite Hnone. reflexivity.
  - intros c w'.
    unfold ContainerTools_execute_command, handler, try_, bind.
    unfold call at 1. rewrite Hexec.
    unfold call at 1. cbn [calls]. rewrite Hstatus.
    unfold lift at 1. unfold field.
    destruct (py_get task_status "exitstatus" VNone) as [exitstatus|e].
    2:{ destruct (handle_error _ e _) as [[[]|e'] w2]; discriminate. }
    destruct (py_eq_str exitstatus "OK").
    + unfold call at 1.
      destruct (remote _ (task_log_request node task_id)) as [task_log|e].
      2:{ destruct (handle_error _ e _) as [[[]|e'] w2]; discriminate. }
      unfold lift at 1.
      destruct (log_texts task_log) as [texts|e].
      2:{ destruct (handle_error _ e _) as [[[]|e'] w2]; discriminate. }
      unfold lift at 1.
      destruct (py_join newline texts) as [output|e].
      2:{ destruct (handle_error _ e _) as [[[]|e'] w2]; discriminate. }
      unfold ret. intros H. injection H as <- _. now exists output.
    + unfold lift at 1.
      destruct (py_get task_status "exitstatus" (VStr "Unknown error"))
        as [reason|e].
      2:{ destruct (handle_error _ e _) as [[[]|e'] w2]; discriminate. }
      unfold ret. intros H. injection H as <- _. eexists. reflexivity.
Qed.

(** X16.  A failure of the history query never fails a performance
    report: when the status query answers a mapping, both
    [get_container_performance] and [get_vm_performance] return a report
    after exactly two remote calls, with the answer of the history query
    as its history, or the empty list when that query raised. *)
Theorem performance_reports_survive_a_failed_history :
  forall (node vmid : value) (status : dict) (w : world),
    let k := List.length (calls w) in
    (remote k (lxc_status_request node vmid) = Ok (VDict status) ->
     exists report w',
       ContainerTools_get_container_performance node vmid w
       = (Ok (Some (format_response report "container_performance")), w')
       /\ calls w' = (calls w ++ [lxc_status_request node vmid;
                                  lxc_rrddata_request node vmid])%list
       /\ field report "historical_data" VNone
          = history_of (remote (S k) (lxc_rrddata_request node vmid)))
    /\ (remote k (vm_status_request node vmid) = Ok (VDict status) ->
        exists report w',
          VMLifecycleTools_get_vm_performance node vmid w
          = (Ok (Some (format_response report "vm_performance")), w')
          /\ calls w' = (calls w ++ [vm_status_request node vmid;
                                     qemu_rrddata_request node vmid])%list
          /\ field report "historical" VNone
             = history_of (remote (S k) (qemu_rrddata_request node vmid))).
Proof.
  intros node vmid status w k. subst k.
  split; intros Hstatus;
    unfold ContainerTools_get_container_performance,
      VMLifecycleTools_get_vm_performance, handler, try_, bind;
    unfold call at 1; rewrite Hstatus;
    unfold call at 1; cbn [calls];
    match goal with
    | |- context [List.length (calls w ++ [?r])] =>
        replace (List.length (calls w ++ [r])) with (S (List.length (calls w)))
          by (rewrite length_app; simpl; lia)
    end;
    destruct (remote (S (List.length (calls w))) _) as [rrd|e];
    unfold lift, ret; cbn [performance_record py_get rbind];
    eexists _, _; (split; [reflexivity|]); cbn [calls];
    rewrite <- app_assoc; (split; reflexivity).
Qed.

Lemma rfilter_is_container_template (l : list value) :
  Forall content_is_text l ->
  rfilter is_container_template l = Ok (filter names_container_template l).
Proof.
  induction 1 as [|t l ([d ->] & c & Hc) _ IH]; [reflexivity|].
  cbn [rfilter filter]. unfold is_container_template at 1, names_container_template at 1.
  unfold field in *. cbn [py_get] in *. rewrite Hc. cbn [rbind py_startswith].
  rewrite IH. reflexivity.
Qed.

(** X17.  [get_container_templates] keeps, in the order of the storage
    listing, exactly the entries whose [content] starts with 'vztmpl';
    an entry without [content] is left out.  An entry whose [content] is
    present and no string makes the whole listing fail: the attribute
    error goes to the error hook. *)
Theorem get_container_templates_filters_by_content :
  forall (node storage : value) (entries : list value) (w : world),
    let request := storage_request node (opt_param "storage" storage) in
    remote (List.length (calls w)) request = Ok (VList entries) ->
    (Forall content_is_text entries ->
     ContainerTools_get_container_templates node storage w
     = (Ok (Some (format_response
                    (VList (filter names_container_template entries))
                    "container_templates")),
        called request w))
    /\ (forall (before after : list value) (d : dict) (c : value),
           entries = (before ++ VDict d :: after)%list ->
           Forall content_is_text before ->
           dict_get d "content" = Some c ->
           (forall s, c <> VStr s) ->
           ContainerTools_get_container_templates node storage w
           = handed_to_hook "get container templates"
               (AttributeError (type_name c) "startswith")
               (called request w)).
Proof.
  intros node storage entries w request Hanswer. split.
  - intros Hentries.
    unfold ContainerTools_get_container_templates, handler, try_, bind.
    fold request. unfold call at 1. rewrite Hanswer.
    unfold lift. cbn [py_iter].
    rewrite (rfilter_is_container_template entries Hentries). reflexivity.
  - intros before after d c -> Hbefore Hc Hnot.
    unfold ContainerTools_get_container_templates, handler, try_, bind.
    fold request. unfold call at 1. rewrite Hanswer.
    unfold lift. cbn [py_iter].
    assert (Hraise : rfilter is_container_template (before ++ VDict d :: after)
                     = Raise (AttributeError (type_name c) "startswith")).
    { clear Hanswer. induction Hbefore as [|t l ([d' ->] & c' & Hc') _ IH].
      - cbn [app rfilter]. unfold is_container_template at 1.
        cbn [py_get]. rewrite Hc. cbn [rbind].
        destruct c; try reflexivity. now contradiction (Hnot s).
      - cbn [app rfilter]. unfold is_container_template at 1.
        unfold field in Hc'. cbn [py_get] in *. rewrite Hc'.
        cbn [rbind py_startswith]. rewrite IH. reflexivity. }
    rewrite Hraise. reflexivity.
Qed.

(** ** The power operations of the lifecycle tools *)

(** X18.  [start_vm], [stop_vm] and [reboot_vm] of the lifecycle tools
    read the task from the [data] field of the answer.  When the remote
    answers the POST with anything but a mapping (a task identifier as a
    string, say) the operation has been requested and the handler still
    ends in the error hook, with the attribute error of [get]; when the
    answer is a mapping, the reply carries its [data] field, [None] when
    it has none. *)
Theorem lifecycle_power_operations_need_a_mapping :
  forall (op : string) (node vmid result : value) (w : world),
    remote (List.length (calls w)) (power_request node vmid op) = Ok result ->
    (~ is_dict result ->
     VMLifecycleTools_power op node vmid w
     = handed_to_hook (op +++ " VM " +++ py_str vmid)
         (AttributeError (type_name result) "get")
         (called (power_request node vmid op) w))
    /\ (is_dict result ->
        VMLifecycleTools_power op node vmid w
        = (Ok (Some (format_response
                       (VDict [kv "success" (VBool true);
                               kv "task_id" (field result "data" VNone);
                               kv "message"
                                  (VStr ("VM " +++ py_str vmid +++ " " +++ op
                                         +++ " initiated"))])
                       "vm_operation")),
           called (power_request node vmid op) w)).
Proof.
  intros op node vmid result w Hanswer. split; intros H.
  - unfold VMLifecycleTools_power, handler, try_, bind.
    unfold call at 1. rewrite Hanswer.
    unfold lift. rewrite (py_get_not_dict _ _ _ H). reflexivity.
  - destruct H as [d ->].
    unfold VMLifecycleTools_power, handler, try_, bind.
    unfold call at 1. rewrite Hanswer. reflexivity.
Qed.

(** ** The template tools *)

(** X19.  On a stopped virtual machine [create_template] converts last:
    when a name or a description is given it first PUTs them, and only
    when that call answered does it PUT [template = 1], in a call of its
    own that ends the run.  When the first PUT raises, the conversion is
    not attempted: the exception goes to the error hook after two remote
    calls. *)
Theorem create_template_converts_last :
  forall (node vmid name description vm_status status : value) (w : world),
    let context := "create template from VM " +++ py_str vmid in
    let rename :=
      vm_config_put node vmid
        (opt_param "name" name ++ opt_param "description" description) in
    let convert := vm_config_put node vmid [("template", VInt 1)] in
    let asked := called (vm_status_request node vmid) w in
    remote (List.length (calls w)) (vm_status_request node vmid) = Ok vm_status ->
    py_get vm_status "status" VNone = Ok status ->
    py_eq_str status "stopped" = true ->
    TemplateTools_create_template node vmid name description w
    = if truthy name || truthy description then
        match remote (List.length (calls asked)) rename with
        | Ok _ => concluded context convert (converted vmid) (called rename asked)
        | Raise e => handed_to_hook context e (called rename asked)
        end
      else concluded context convert (converted vmid) asked.
Proof.
  intros node vmid name description vm_status status w context rename convert
         asked Hstatus Hget Hstopped.
  unfold TemplateTools_create_template, handler, try_, bind.
  unfold call at 1. rewrite Hstatus. unfold lift at 1. rewrite Hget, Hstopped.
  cbn [negb]. fold rename convert context. fold (called (vm_status_request node vmid) w).
  fold asked.
  destruct (truthy name || truthy description).
  - unfold call at 1. fold (called rename asked).
    destruct (remote (List.length (calls asked)) rename) as [x|e];
      [|reflexivity].
    unfold ret at 1. unfold call at 1. fold (called convert (called rename asked)).
    unfold concluded.
    destruct (remote (List.length (calls (called rename asked))) convert);
      reflexivity.
  - unfold ret at 1. unfold call at 1. fold (called convert asked).
    unfold concluded.
    destruct (remote (List.length (calls asked)) convert); reflexivity.
Qed.

(** X20.  [update_template] takes a setting as given only when it is
    truthy: on a template, a call whose name, description, cores and
    memory are all [None], empty or zero changes nothing.  It answers
    [success = False] with 'No update parameters provided' after the one
    call that read the configuration. *)
Theorem update_template_without_settings :
  forall (node vmid name description cores memory vm_config template : value)
         (w : world),
    remote (List.length (calls w)) (vm_config_request node vmid) = Ok vm_config ->
    py_get vm_config "template" VNone = Ok template ->
    py_eq_int template 1 = true ->
    truthy name = false -> truthy description = false ->
    truthy cores = false -> truthy memory = false ->
    TemplateTools_update_template node vmid name description cores memory w
    = (Ok (Some (format_response (failure "No update parameters provided")
                                 "template_operation")),
       called (vm_config_request node vmid) w).
Proof.
  intros node vmid name description cores memory vm_config template w
         Hconfig Hget Htemplate Hname Hdescription Hcores Hmemory.
  unfold TemplateTools_update_template, handler, try_, bind.
  unfold call at 1. rewrite Hconfig. unfold lift at 1. rewrite Hget, Htemplate.
  unfold opt_param. rewrite Hname, Hdescription, Hcores, Hmemory. reflexivity.
Qed.

(** X21.  Once the remote has accepted the clone, [clone_template] of
    the template tools reports success whatever becomes of the
    description.  The description is PUT only when a description and a
    target identifier are both given, on the target node when one is
    given and on the source node otherwise, right after the clone
    request; when that call raises, a warning is logged and the reply is
    the same.  Without a target identifier the description is dropped. *)
Theorem clone_template_description_is_best_effort :
  forall (node template_vmid name target_node target_vmid target_storage
          full_clone description task_id : value) (w : world),
    let clone :=
      clone_request node template_vmid
        (template_clone_params name target_node target_vmid target_storage
                               full_clone) in
    let describe :=
      vm_config_put (if truthy target_node then target_node else node)
                    target_vmid [("description", description)] in
    let cloned := called clone w in
    remote (List.length (calls w)) clone = Ok task_id ->
    TemplateTools_clone_template node template_vmid name target_node target_vmid
                                 target_storage full_clone description w
    = (Ok (Some (clone_initiated template_vmid name task_id)),
       if truthy description && truthy target_vmid then
         match remote (List.length (calls cloned)) describe with
         | Ok _ => called describe cloned
         | Raise e =>
             logged ("Could not update description for cloned VM: "
                     +++ exn_str e)
                    (called describe cloned)
         end
       else cloned).
Proof.
  intros node template_vmid name target_node target_vmid target_storage
         full_clone description task_id w clone describe cloned Hclone.
  unfold TemplateTools_clone_template, handler, try_, bind.
  fold clone. unfold call at 1. rewrite Hclone. fold (called clone w). fold cloned.
  destruct (truthy description && truthy target_vmid); [|reflexivity].
  fold describe. unfold call at 1. fold (called describe cloned).
  destruct (remote (List.length (calls cloned)) describe); reflexivity.
Qed.

(** ** The log of a task *)

Lemma log_texts_of_records (entries : list value) :
  Forall is_dict entries ->
  rmap (fun entry => py_get entry "t" (VStr EmptyString)) entries
  = Ok (map (fun entry => field entry "t" (VStr EmptyString)) entries).
Proof.
  induction 1 as [|entry rest [d ->] _ IH]; [reflexivity|].
  cbn [rmap map]. rewrite IH. reflexivity.
Qed.

Lemma log_texts_need_records (entries : list value) (texts : list value) :
  rmap (fun entry => py_get entry "t" (VStr EmptyString)) entries = Ok texts ->
  Forall is_dict entries.
Proof.
  revert texts. induction entries as [|entry rest IH]; intros texts H;
    [constructor|].
  cbn [rmap] in H.
  destruct (py_get entry "t" (VStr EmptyString)) as [text|] eqn:E;
    [|discriminate].
  cbn [rbind] in H.
  destruct (rmap _ rest) as [ts|] eqn:Erest; [|discriminate].
  constructor; [|now apply (IH ts)].
  destruct entry; try discriminate E. now exists d.
Qed.

(** X22.  [_get_task_log] never raises and never returns part of a log.
    It makes one remote call.  When the call answers a list of mappings
    it returns the text [t] of every entry, in order, the empty string
    for an entry without one.  It returns the empty list when the call
    raised, when the answer cannot be iterated, and when one of the
    entries is no mapping, whatever the entries before it. *)
Theorem get_task_log_is_all_or_nothing :
  forall (node upid : value) (w : world),
    let answer := remote (List.length (calls w)) (task_log_request node upid) in
    exists texts,
      TaskTools_get_task_log node upid w
      = (Ok (VList texts), called (task_log_request node upid) w)
      /\ (forall entries,
             answer = Ok (VList entries) ->
             Forall is_dict entries ->
             texts = map (fun entry => field entry "t" (VStr EmptyString))
                         entries)
      /\ (forall entries,
             answer = Ok (VList entries) ->
             ~ Forall is_dict entries ->
             texts = [])
      /\ (forall e, answer = Raise e -> texts = [])
      /\ (forall x e, answer = Ok x -> py_iter x = Raise e -> texts = []).
Proof.
  intros node upid w answer.
  unfold TaskTools_get_task_log, try_, bind, call.
  fold (called (task_log_request node upid) w). fold answer.
  destruct answer as [x|e] eqn:Hanswer.
  - unfold lift, log_texts.
    destruct (py_iter x) as [entries|e] eqn:Hiter.
    + cbn [rbind].
      destruct (rmap (fun entry => py_get entry "t" (VStr EmptyString)) entries)
        as [texts|e] eqn:Hmap.
      * exists texts. split; [reflexivity|].
        pose proof (log_texts_need_records _ _ Hmap) as Hrecords.
        rewrite (log_texts_of_records _ Hrecords) in Hmap.
        injection Hmap as <-.
        split; [|split; [|split]].
        -- intros l H _. injection H as ->. cbn [py_iter] in Hiter.
           now injection Hiter as <-.
        -- intros l H Hnot. injection H as ->. cbn [py_iter] in Hiter.
           injection Hiter as <-. contradiction.
        -- discriminate.
        -- intros x' e' H. injection H as <-. rewrite Hiter. discriminate.
      * exists []. split; [reflexivity|].
        split; [|split; [|split]]; auto.
        intros l H Hl. injection H as ->. cbn [py_iter] in Hiter.
        injection Hiter as <-.
        rewrite (log_texts_of_records _ Hl) in Hmap. discriminate.
    + exists []. split; [reflexivity|].
      split; [|split; [|split]]; auto.
      intros l H _. injection H as ->. discriminate Hiter.
  - exists []. split; [reflexivity|].
    split; [|split; [|split]]; auto; discriminate.
Qed.

(** ** Listings over nodes that answer anything *)

Lemma collect_backups_leading (name : string) (items : list value) :
  forall acc,
    collect_backups (VStr name) items acc
    = (acc ++ map (backup_entry name)
                  (filter is_backup (leading_records items)))%list.
Proof.
  induction items as [|b items IH]; intros acc.
  - simpl. now rewrite app_nil_r.
  - destruct b; try (simpl; now rewrite app_nil_r).
    cbn [collect_backups leading_records filter]. unfold is_backup at 1, field.
    cbn [py_get].
    destruct (py_eq_str _ "backup").
    + cbn [backup_record py_get rbind map]. rewrite IH, <- app_assoc.
      reflexivity.
    + apply IH.
Qed.

Lemma list_backups_node_any (storage vmid : value) :
  forall s node name w,
    named node name ->
    True ->
    exists w',
      list_backups_node storage vmid s node w
      = (Ok (s ++ backups_of storage vmid (List.length (calls w)) name)%list, w')
      /\ calls w'
         = (calls w ++ [storage_request name (backup_params storage vmid)])%list
      /\ logs w' = (logs w ++ [])%list
      /\ stdout w' = (stdout w ++ [])%list.
Proof.
  intros s node name w Hname _.
  unfold list_backups_node, bind, lift, attempt, call.
  rewrite Hname. unfold backups_of.
  destruct (remote (List.length (calls w)) _) as [v|e].
  - destruct (py_iter v) as [items|e].
    + rewrite collect_backups_leading.
      eexists. split; [reflexivity|]. simpl. rewrite !app_nil_r. auto.
    + eexists. split; [unfold ret; rewrite app_nil_r; reflexivity|].
      simpl. rewrite !app_nil_r. auto.
  - eexists. split; [unfold ret; rewrite app_nil_r; reflexivity|].
    simpl. rewrite !app_nil_r. auto.
Qed.

Lemma fanout_nothing {A} (names : list string) :
  forall k, fanout (fun (_ : nat) (_ : string) => @nil A) k names = [].
Proof. induction names; intros k; simpl; auto. Qed.

(** X23.  No node can make [list_backups] fail or complain.  Once the
    node list is fetched, whatever the per-node calls do (raise, answer
    something that is no list, answer a list with entries that are no
    mappings) the listing ends normally, with nothing logged or printed.
    A node contributes the backups among the records that come before
    the first malformed entry of its answer: what follows that entry is
    dropped without a word. *)
Theorem list_backups_never_complains :
  forall (nodes : list value) (names : list string) (storage vmid : value)
         (w : world),
    remote (List.length (calls w)) nodes_request = Ok (VList nodes) ->
    Forall2 named nodes names ->
    exists w',
      BackupTools_list_backups storage vmid w
      = (Ok (Some (format_response
                     (VList (fanout (backups_of storage vmid)
                                    (S (List.length (calls w))) names))
                     "backups")), w')
      /\ logs w' = logs w /\ stdout w' = stdout w
      /\ calls w'
         = (calls w
            ++ nodes_request
               :: map (fun name : string =>
                         storage_request name (backup_params storage vmid))
                      names)%list.
Proof.
  intros nodes names storage vmid w Hnodes Hnames.
  unfold BackupTools_list_backups, handler, try_, bind.
  unfold call at 1. rewrite Hnodes. unfold lift at 1. simpl py_iter. cbv iota beta.
  set (w1 := mkWorld _ _ _ _ _ _).
  assert (Hlen : List.length (calls w1) = S (List.length (calls w))).
  { subst w1. simpl. rewrite length_app. simpl. lia. }
  destruct (foldM_visit (list_backups_node storage vmid)
              (fun k name acc => (acc ++ backups_of storage vmid k name)%list)
              (fun name : string =>
                 storage_request name (backup_params storage vmid))
              (fun _ => True)
              (fun _ _ => []) (fun _ _ => [])
              (list_backups_node_any storage vmid) nodes names [] w1 Hnames)
    as (w2 & Hrun & Hcalls & Hlogs & Hout); [auto|].
  rewrite Hrun, Hlen, fanout_visit. simpl.
  eexists. split; [reflexivity|].
  rewrite Hlogs, Hout, Hcalls, !fanout_nothing, !app_nil_r. subst w1. simpl.
  rewrite <- app_assoc. auto.
Qed.

(** ** The task listing at its edges *)

Lemma tasks_of_nodes_without_limit (limit : Z) (vmid : value)
  (node : value) (name : string) (rest : list value) (w : world) :
  limit <= 0 ->
  named node name ->
  answers_records (remote (List.length (calls w))
                          (tasks_request name limit vmid)) ->
  tasks_of_nodes limit vmid (node :: rest) [] w
  = (Ok (firstn 1 (task_contribution limit vmid (List.length (calls w)) name)),
     called (tasks_request name limit vmid) w).
Proof.
  intros Hlimit Hnode (l & Hanswer & Hl).
  cbn [tasks_of_nodes]. unfold bind, lift, call. unfold named in Hnode.
  rewrite Hnode, Hanswer. cbn [py_iter].
  rewrite (collect_tasks_takes limit name l Hl).
  cbn [app List.length].
  replace (Z.to_nat (Z.max 1 (limit - Z.of_nat 0))) with 1%nat by lia.
  unfold task_contribution. rewrite Hanswer.
  assert (Hr : reached limit (firstn 1 (map (task_entry name) l)) = true).
  { unfold reached. apply Z.leb_le. lia. }
  rewrite Hr. reflexivity.
Qed.

(** X24.  The limit of [get_tasks] is not a bound below one.  With a
    limit of zero or less both loops stop at their first test: only the
    first node of the list is asked, whatever the number of nodes, and
    the list handed to the response builder is the first task of that
    node, one entry and not none, when the node has a task.  With a
    node filter the same holds of the one node. *)
Theorem get_tasks_with_no_limit_left :
  forall (limit : Z) (vmid : value) (w : world),
    limit <= 0 ->
    (forall (node first : value) (name : string) (rest : list value),
        truthy node = false ->
        remote (List.length (calls w)) nodes_request
        = Ok (VList (first :: rest)) ->
        named first name ->
        answers_records (remote (S (List.length (calls w)))
                                (tasks_request name limit vmid)) ->
        TaskTools_get_tasks limit vmid node w
        = (Ok (Some (format_response
                       (VList (firstn 1 (task_contribution
                                           limit vmid
                                           (S (List.length (calls w))) name)))
                       "tasks")),
           called (tasks_request name limit vmid) (called nodes_request w)))
    /\ (forall (name : string),
           truthy (VStr name) = true ->
           answers_records (remote (List.length (calls w))
                                   (tasks_request name limit vmid)) ->
           TaskTools_get_tasks limit vmid (VStr name) w
           = (Ok (Some (format_response
                          (VList (firstn 1 (task_contribution
                                              limit vmid
                                              (List.length (calls w)) name)))
                          "tasks")),
              called (tasks_request name limit vmid) w)).
Proof.
  intros limit vmid w Hlimit. split.
  - intros node first name rest Hnode Hnodes Hfirst Hanswer.
    assert (Hlen : List.length (calls (called nodes_request w))
                   = S (List.length (calls w))).
    { simpl. rewrite length_app. simpl. lia. }
    assert (Hlist : get_tasks_list limit vmid node w
                    = tasks_of_nodes limit vmid (first :: rest) []
                                     (called nodes_request w)).
    { unfold get_tasks_list, bind, call, lift. rewrite Hnode, Hnodes.
      reflexivity. }
    unfold TaskTools_get_tasks, handler, try_, bind.
    rewrite Hlist, (tasks_of_nodes_without_limit limit vmid first name rest);
      [|exact Hlimit|exact Hfirst|now rewrite Hlen].
    rewrite Hlen. reflexivity.
  - intros name Hname Hanswer.
    assert (Hlist : get_tasks_list limit vmid (VStr name) w
                    = tasks_of_nodes limit vmid [VDict [kv "node" (VStr name)]]
                                     [] w).
    { unfold get_tasks_list, bind, ret, lift. rewrite Hname. reflexivity. }
    unfold TaskTools_get_tasks, handler, try_, bind.
    rewrite Hlist, (tasks_of_nodes_without_limit limit vmid _ name []);
      [reflexivity|exact Hlimit|reflexivity|exact Hanswer].
Qed.

(** X25.  [get_tasks] has no per-node [try]: with a node filter it does
    not fetch the node list, it asks that one node, and when the call
    raises the whole listing ends in the error hook. *)
Theorem get_tasks_on_one_node :
  forall (limit : Z) (vmid node : value) (w : world),
    let request := tasks_request node limit vmid in
    truthy node = true ->
    match remote (List.length (calls w)) request with
    | Raise e =>
        TaskTools_get_tasks limit vmid node w
        = handed_to_hook "get tasks" e (called request w)
    | Ok answer =>
        forall items tasks,
          py_iter answer = Ok items ->
          collect_tasks limit node items [] = Ok tasks ->
          TaskTools_get_tasks limit vmid node w
          = (Ok (Some (format_response (VList tasks) "tasks")),
             called request w)
    end.
Proof.
  intros limit vmid node w request Hnode.
  assert (Hlist : get_tasks_list limit vmid node w
                  = match remote (List.length (calls w)) request with
                    | Raise e => (Raise e, called request w)
                    | Ok answer =>
                        match py_iter answer with
                        | Raise e => (Raise e, called request w)
                        | Ok items =>
                            match collect_tasks limit node items [] with
                            | Raise e => (Raise e, called request w)
                            | Ok tasks => (Ok tasks, called request w)
                            end
                        end
                    end).
  { unfold get_tasks_list. rewrite Hnode. unfold bind at 1. unfold ret at 1.
    unfold bind at 1. unfold lift at 1. cbn [py_iter].
    cbn [tasks_of_nodes]. unfold bind at 1. unfold lift at 1.
    change (py_getitem (VDict [kv "node" node]) "node") with (@Ok exn _ node).
    cbv iota beta. fold request.
    unfold bind at 1. unfold call at 1. fold (called request w).
    destruct (remote (List.length (calls w)) request) as [answer|e];
      [|reflexivity].
    unfold bind at 1. unfold lift at 1.
    destruct (py_iter answer) as [items|e]; [|reflexivity].
    unfold bind at 1. unfold lift at 1.
    destruct (collect_tasks limit node items []) as [tasks|e]; [|reflexivity].
    destruct (reached limit tasks); reflexivity. }
  unfold TaskTools_get_tasks, handler, try_, bind.
  rewrite Hlist. unfold handed_to_hook, bind.
  destruct (remote (List.length (calls w)) request) as [answer|e]; [|reflexivity].
  intros items tasks Hiter Hcollect. rewrite Hiter, Hcollect. reflexivity.
Qed.

(** ** More renderers *)

Lemma vm_template_lines_nonempty (t : value) (b : list string) :
  vm_template_lines t = Ok b -> b <> [].
Proof.
  unfold vm_template_lines.
  repeat match goal with
         | |- context [rbind ?r _] =>
             destruct r; cbn [rbind]; [|discriminate]
         end.
  intros H. injection H as <-. discriminate.
Qed.

(** X26.  The renderer of virtual-machine templates follows the rule of
    the other list renderers with a sentinel: the empty list gives its
    one 'no templates' line and nothing else, a non-empty list the title
    line followed, for each template in order, by one empty line and the
    template's block (or raises what the first template that cannot be
    rendered raises). *)
Theorem vm_templates_sentinel_and_blocks :
  ProxmoxTemplates_vm_templates (VList []) = Ok no_vm_templates
  /\ (forall t rest,
         rendered vm_template_lines (RESOURCES "template" +++ " VM Templates")
                  (t :: rest)
                  (ProxmoxTemplates_vm_templates (VList (t :: rest)))).
Proof.
  split; [reflexivity|].
  intros t rest. unfold ProxmoxTemplates_vm_templates.
  cbn [truthy negb py_iter rbind].
  destruct (rmap vm_template_lines (t :: rest)) as [blocks|e] eqn:E.
  - destruct (rmap_blocks _ _ _ vm_template_lines_nonempty E) as [H1 H2].
    cbn [rendered]. exists blocks. split; [assumption|].
    now apply render_blocks_separated.
  - cbn [rendered]. now apply rmap_raise.
Qed.




Lemma bucket_section_entries (title : string) (p : string -> bool)
  (items : list (string * value)) :
  bucket_section title (VDict (json_object (select p items)))
  = Ok (section title (entry_lines p items)).
Proof.
  unfold bucket_section, entry_lines.
  destruct (select p items) as [|[k v] rest]; [reflexivity|].
  cbn [json_object map truthy py_items rbind fst snd section py_str].
  do 3 f_equal. rewrite map_map. reflexivity.
Qed.

(** X28.  What [get_template_details] builds, the renderer of template
    details shows: after the title and the settings, a 'Disks' section
    with exactly the entries whose key has prefix [scsi], [ide] or
    [sata], and a 'Network Interfaces' section with every entry whose
    key has prefix [net], [netif] included, each section left out when
    it would be empty, each entry in the order of the configuration. *)
Theorem template_details_show_the_buckets :
  forall (node vmid vm_info : value) (items : list (string * value)),
    ProxmoxTemplates_template_details
      (template_details_of node vmid vm_info items
         (select disk_key items) (select net_prefixed_key items))
    = Ok (join newline
            (details_head node vmid vm_info items
             ++ section (SECTIONS "storage" +++ " Disks")
                        (entry_lines disk_key items)
             ++ section (SECTIONS "network" +++ " Network Interfaces")
                        (entry_lines net_prefixed_key items))).
Proof.
  intros node vmid vm_info items.
  unfold ProxmoxTemplates_template_details, template_details_of.
  cbn [truthy negb py_get dict_get kv key_eq String.eqb Ascii.eqb Bool.eqb
       rbind].
  rewrite !bucket_section_entries. reflexivity.
Qed.

Lemma has_slash_after_last (s : string) : has_slash (after_last_slash s) = false.
Proof.
  induction s as [|c s IH]; [reflexivity|].
  cbn [after_last_slash].
  destruct (has_slash s) eqn:Hs; [exact IH|].
  destruct (Ascii.eqb c "/"%char) eqn:Hc; [exact Hs|].
  cbn [has_slash]. now rewrite Hc, Hs.
Qed.

Lemma after_last_slash_splits (s : string) :
  has_slash s = true ->
  exists dir, s = dir +++ "/" +++ after_last_slash s.
Proof.
  induction s as [|c s IH]; [discriminate|].
  cbn [has_slash after_last_slash]. intros H.
  destruct (has_slash s) eqn:Hs.
  - destruct (IH eq_refl) as (dir & Hdir).
    exists (String c dir). change (String c s = String c (dir +++ "/" +++ after_last_slash s)).
    f_equal. exact Hdir.
  - rewrite orb_false_r in H. rewrite H.
    apply Ascii.eqb_eq in H. subst c. now exists EmptyString.
Qed.

Lemma after_last_slash_plain (s : string) :
  has_slash s = false -> after_last_slash s = s.
Proof.
  destruct s as [|c s]; [reflexivity|].
  cbn [has_slash after_last_slash]. intros H.
  apply orb_false_elim in H. destruct H as [Hc Hs]. now rewrite Hs, Hc.
Qed.

(** X29.  The name the renderer of container templates shows for a
    volume identifier that is a string is what follows its last slash:
    the name contains no slash, the identifier is some directory part,
    a slash and the name, and an identifier without a slash is shown as
    it is. *)
Theorem template_name_follows_the_last_slash :
  forall volid : string,
    exists name : string,
      template_name_of (VStr volid) = Ok (VStr name)
      /\ has_slash name = false
      /\ (if has_slash volid
          then exists dir, volid = dir +++ "/" +++ name
          else name = volid).
Proof.
  intros volid. exists (after_last_slash volid).
  split; [reflexivity|]. split; [apply has_slash_after_last|].
  destruct (has_slash volid) eqn:H.
  - now apply after_last_slash_splits.
  - now apply after_last_slash_plain.
Qed.

Lemma outcome_lines_of_mapping (done failed : string) (d : dict) :
  exists lines, outcome_lines done failed (VDict d) = Ok lines.
Proof.
  unfold outcome_lines. cbn [py_get py_contains rbind].
  destruct (truthy _); cbn [rbind];
    match goal with
    | |- context [dict_get d ?k] => destruct (dict_get d k)
    end; cbn [rbind]; eexists; reflexivity.
Qed.

(** X30.  The renderers of operation outcomes never raise on a mapping,
    and show what the tools hand to the response builder.  Under the
    kinds [template_operation] and [template_clone] a failed
    precondition is one line, the error marker and the message; a
    success is the success marker and the message, followed by an empty
    line and the task identifier when the envelope carries one.  Under
    the kind [container_command] the first line says that the command
    succeeded exactly when the exit code is 0, and the output follows. *)
Theorem operation_renderers_show_the_envelope :
  (forall d : dict,
      (exists text, ProxmoxTemplates_template_operation (VDict d) = Ok text)
      /\ (exists text, ProxmoxTemplates_template_clone (VDict d) = Ok text)
      /\ (exists text, ProxmoxTemplates_container_command (VDict d) = Ok text))
  /\ (forall (message : string) (task_id : value),
         ProxmoxTemplates_template_operation (failure message)
         = Ok (SECTIONS "error" +++ " " +++ message)
         /\ ProxmoxTemplates_template_operation (success_with message None)
            = Ok (SECTIONS "success" +++ " " +++ message)
         /\ ProxmoxTemplates_template_operation
              (success_with message (Some task_id))
            = Ok (join newline [SECTIONS "success" +++ " " +++ message;
                                EmptyString; "Task ID: " +++ py_str task_id])
         /\ ProxmoxTemplates_template_clone (success_with message (Some task_id))
            = Ok (join newline [SECTIONS "success" +++ " " +++ message;
                                EmptyString; "Task ID: " +++ py_str task_id]))
  /\ (forall output : string,
         ProxmoxTemplates_container_command (command_outcome true output)
         = Ok (join newline
                 [SECTIONS "success"
                    +++ " Command executed successfully (exit code: 0)";
                  EmptyString; "Output:"; output])
         /\ ProxmoxTemplates_container_command (command_outcome false output)
            = Ok (join newline
                    [SECTIONS "error"
                       +++ " Command execution failed (exit code: 1)";
                     EmptyString; "Output:"; output])).
Proof.
  split; [|split].
  - intros d. split; [|split].
    + unfold ProxmoxTemplates_template_operation.
      destruct (outcome_lines_of_mapping "Operation completed successfully"
                  "Operation failed" d) as (lines & ->).
      eexists. reflexivity.
    + unfold ProxmoxTemplates_template_clone.
      destruct (outcome_lines_of_mapping "Template cloned successfully"
                  "Template clone failed" d) as (lines & ->).
      eexists. reflexivity.
    + unfold ProxmoxTemplates_container_command. cbn [py_get rbind].
      eexists. reflexivity.
  - intros message task_id. repeat split.
  - intros output. split; reflexivity.
Qed.

End Gateway.

(* ================================================================== *)
(** * Worked runs *)

(** ** The dispatcher of the simple server *)

Lemma handle_mcp_request_unknown_tool_witness :
  handle_mcp_request plain_repr (scripted []) instant "python" "proxmox_api.py"
    (Ok sample_settings) unknown_request world0
  = (Ok (VDict [kv "error" (VStr "Unknown tool: unknown_op")]), world0).
Proof.
  apply (handle_mcp_request_unknown_tool plain_repr (scripted []) instant
           "python" "proxmox_api.py" (Ok sample_settings)
           unknown_request "unknown_op" world0).
  - reflexivity.
  - simpl. intuition discriminate.
Defined.

(** The answer to an unknown tool has an [error] field and no [success]
    field: its success flag is not [false], it is absent. *)
Lemma unknown_tool_reply_has_no_success_field :
  fst (handle_mcp_request plain_repr (scripted []) instant "python"
         "proxmox_api.py" (Ok sample_settings) unknown_request world0)
  = Ok (VDict [kv "error" (VStr "Unknown tool: unknown_op")])
  /\ success_field (VDict [kv "error" (VStr "Unknown tool: unknown_op")]) = None
  /\ success_field (VDict [kv "error" (VStr "Unknown tool: unknown_op")])
     <> Some (VBool false).
Proof.
  split; [reflexivity|]. split; [reflexivity|]. discriminate.
Qed.

Lemma handle_mcp_request_missing_argument_witness :
  handle_mcp_request plain_repr (scripted []) instant "python" "proxmox_api.py"
    (Ok sample_settings) start_vm_request world0
  = (Ok (VDict [kv "error"
                   (VStr "Node name and VM ID are required for start_vm")]),
     world0).
Proof.
  apply (handle_mcp_request_missing_argument plain_repr (scripted []) instant
           "python" "proxmox_api.py" (Ok sample_settings)
           start_vm_request (VDict [kv "node" (VStr "pve1")]) VNone
           "start_vm" "vmid" ["node"; "vmid"] world0).
  - simpl. repeat (first [left; reflexivity | right]).
  - simpl. auto.
  - reflexivity.
  - reflexivity.
  - reflexivity.
  - reflexivity.
Defined.

(** The answer to [start_vm] without [vmid] has an [error] field and no
    [success] field, and the script has not been run. *)
Lemma missing_argument_reply_has_no_success_field :
  handle_mcp_request plain_repr (scripted []) instant "python" "proxmox_api.py"
    (Ok sample_settings) start_vm_request world0
  = (Ok (VDict [kv "error"
                   (VStr "Node name and VM ID are required for start_vm")]),
     world0)
  /\ success_field
       (VDict [kv "error"
                  (VStr "Node name and VM ID are required for start_vm")])
     = None
  /\ success_field
       (VDict [kv "error"
                  (VStr "Node name and VM ID are required for start_vm")])
     <> Some (VBool false).
Proof.
  split; [reflexivity|]. split; [reflexivity|]. discriminate.
Qed.

(** ** Fan-out over three nodes, the second unreachable *)

Lemma three_nodes_named :
  Forall2 named
          [node_record "pve1"; node_record "pve2"; node_record "pve3"]
          three_names.
Proof. repeat constructor. Qed.

Lemma three_nodes_records (req : string -> request) :
  forall i name,
    nth_error three_names i = Some name ->
    records_or_raises (scripted three_nodes (1 + i) (req name)).
Proof.
  intros [|[|[|i]]] name H; simpl in H; try discriminate.
  - simpl. eexists. split; [reflexivity|]. repeat constructor. eexists. reflexivity.
  - exact I.
  - simpl. eexists. split; [reflexivity|]. repeat constructor. eexists. reflexivity.
  - destruct i; discriminate.
Qed.

Lemma three_nodes_vms :
  forall i name,
    nth_error three_names i = Some name ->
    vms_or_raises (scripted three_nodes (1 + i) (qemu_request name)).
Proof.
  intros [|[|[|i]]] name H; simpl in H; try discriminate.
  - simpl. eexists. split; [reflexivity|]. repeat constructor.
    eexists. split; [reflexivity|]. intros _. eexists _, _. split; reflexivity.
  - exact I.
  - simpl. eexists. split; [reflexivity|]. repeat constructor.
    eexists. split; [reflexivity|]. intros _. eexists _, _. split; reflexivity.
  - destruct i; discriminate.
Qed.







(** [TemplateTools.get_templates] over the three nodes of a steady
    remote: the templates of the first and third node, each with its
    disks, and one warning for the second node. *)
Example TemplateTools_get_templates_skips_failed_node :
  exists l w',
    TemplateTools_get_templates plain_repr steady_cluster instant
      (value * string) paired failing_hook world0
    = (Ok (Some (VList l, "vm_templates")), w')
    /\ map (fun t => field t "node" VNone) l = [VStr "pve1"; VStr "pve3"]
    /\ map (fun t => field t "disks" VNone) l
       = [VDict [kv "scsi0" (VStr "local:100/disk-0");
                 kv "ide2" (VStr "none,media=cdrom")];
          VDict [kv "scsi0" (VStr "local:100/disk-0");
                 kv "ide2" (VStr "none,media=cdrom")]]
    /\ logs w' = ["Could not get templates for node pve2: pve2 unreachable"].
Proof.
  eexists _, _. split; [vm_compute; reflexivity|]. repeat split.
Qed.

(** ** Template tools on a running guest that is no template *)

Lemma template_preconditions_guard_mutation_witness :
  (exists w',
      TemplateTools_create_template plain_repr (scripted [Ok running_template])
        instant (value * string) paired failing_hook
        (VStr "pve1") (VStr "100") VNone VNone world0
      = (Ok (Some (failure "VM 100 must be stopped before converting to template. Current status: running",
                   "template_operation")), w')
      /\ calls w' = [vm_status_request (VStr "pve1") (VStr "100")])
  /\ (exists w',
         TemplateTools_update_template plain_repr (scripted [Ok stopped_guest])
           instant (value * string) paired failing_hook
           (VStr "pve1") (VStr "100") (VStr "web2") VNone VNone VNone world0
         = (Ok (Some (failure "VM 100 is not a template", "template_operation")),
            w')
         /\ calls w' = [vm_config_request (VStr "pve1") (VStr "100")])
  /\ (exists w',
         TemplateTools_delete_template plain_repr (scripted [Ok stopped_guest])
           instant (value * string) paired failing_hook
           (VStr "pve1") (VStr "100") world0
         = (Ok (Some (failure "VM 100 is not a template", "template_operation")),
            w')
         /\ calls w' = [vm_config_request (VStr "pve1") (VStr "100")]).
Proof.
  destruct (template_preconditions_guard_mutation plain_repr
              (scripted [Ok running_template]) instant (value * string) paired
              failing_hook (VStr "pve1") (VStr "100") world0)
    as (Hcreate & _ & _).
  destruct (template_preconditions_guard_mutation plain_repr
              (scripted [Ok stopped_guest]) instant (value * string) paired
              failing_hook (VStr "pve1") (VStr "100") world0)
    as (_ & Hupdate & Hdelete).
  destruct (Hcreate VNone VNone running_template (VStr "running")
                    eq_refl eq_refl eq_refl)
    as (w1 & Hrun1 & _ & Hcalls1 & _).
  destruct (Hupdate (VStr "web2") VNone VNone VNone stopped_guest VNone
                    eq_refl eq_refl eq_refl)
    as (w2 & Hrun2 & _ & Hcalls2 & _).
  destruct (Hdelete stopped_guest VNone eq_refl eq_refl eq_refl)
    as (w3 & Hrun3 & _ & Hcalls3 & _).
  split; [|split]; [exists w1|exists w2|exists w3]; split; assumption.
Defined.

(** ** Buckets of a configuration that has the key [netif] *)

Lemma sample_config_keys_distinct : NoDup (map fst sample_config).
Proof.
  repeat constructor; simpl; intuition discriminate.
Qed.

Lemma config_keys_are_bucketed_by_prefix_witness :
  ProxmoxTemplates_container_config plain_repr bracketed
    (VDict (json_object sample_config))
  = Ok (join newline
          [ "[configuration] Container Configuration";
            EmptyString;
            detail "Hostname" "ct1";
            "  " +++ bullet +++ " CPU: N/A cores";
            "  " +++ bullet +++ " Memory: 512 MB";
            "  " +++ bullet +++ " Swap: N/A MB";
            detail "Start on boot" "No";
            EmptyString;
            "[network] Network Interfaces";
            detail "net0" "name=eth0,bridge=vmbr0";
            EmptyString;
            "[storage] Storage";
            detail "mp0" "local:100/data";
            detail "rootfs" "local:100/root" ])
  /\ exists w',
       TemplateTools_get_template_details plain_repr (scripted template_script)
         instant (value * string) paired failing_hook
         (VStr "pve1") (VStr "9000") world0
       = (Ok (Some
                (template_details_of plain_repr (VStr "pve1") (VStr "9000")
                   (VDict [kv "template" (VInt 1); kv "name" (VStr "golden")])
                   sample_config
                   [("scsi0", VStr "local:100/disk-0");
                    ("ide2", VStr "none,media=cdrom")]
                   [("net0", VStr "name=eth0,bridge=vmbr0");
                    ("netif", VStr "legacy")],
                 "template_details")), w').
Proof.
  exact (config_keys_are_bucketed_by_prefix plain_repr (scripted template_script)
           instant (value * string) paired failing_hook bracketed
           sample_config (VStr "pve1") (VStr "9000")
           (VDict [kv "template" (VInt 1); kv "name" (VStr "golden")])
           (VInt 1) world0 sample_config_keys_distinct eq_refl eq_refl eq_refl
           eq_refl).
Defined.

(** [get_template_details] on a template whose configuration has the
    key [netif]: the key is among the networks it reports. *)
Lemma template_details_networks_keep_netif :
  fst (TemplateTools_get_template_details plain_repr (scripted template_script)
         instant (value * string) paired failing_hook
         (VStr "pve1") (VStr "9000") world0)
  = Ok (Some
          (VDict [kv "vmid" (VStr "9000"); kv "node" (VStr "pve1");
                  kv "name" (VStr "golden");
                  kv "description" (VStr "No description");
                  kv "cores" (VStr "N/A"); kv "memory" (VInt 512);
                  kv "os_type" (VStr "N/A");
                  kv "disks"
                     (VDict [kv "scsi0" (VStr "local:100/disk-0");
                             kv "ide2" (VStr "none,media=cdrom")]);
                  kv "networks"
                     (VDict [kv "net0" (VStr "name=eth0,bridge=vmbr0");
                             kv "netif" (VStr "legacy")])],
           "template_details"))
  /\ net_interface_key "netif" = false.
Proof. split; reflexivity. Qed.

(** ** Waiting for a task that stops at the second poll *)


Example wait_for_task_stopped_ok :
  wait_for_task plain_repr (scripted task_script) instant instant 152
                (VStr "pve1") (VStr "UPID:1") 300 2 world0
  = Some (VDict [kv "success" (VBool true);
                 kv "status" (VDict [kv "status" (VStr "stopped");
                                     kv "exitstatus" (VStr "OK")])],
          mkWorld [task_status_request (VStr "pve1") (VStr "UPID:1");
                   task_status_request (VStr "pve1") (VStr "UPID:1")]
                  [] [] 2000000 1 0).
Proof. vm_compute. reflexivity. Qed.

(** A task that never stops: the wait ends with the timeout message
    after [timeout / interval] polls. *)
Example wait_for_task_times_out :
  fst_of (wait_for_task plain_repr
            (fun _ _ => Ok (VDict [kv "status" (VStr "running")]))
            instant instant 7 (VStr "pve1") (VStr "UPID:1") 10 2 world0)
  = Some (error_envelope "Task UPID:1 did not complete within 10 seconds").
Proof. vm_compute. reflexivity. Qed.

(** ** Listing tasks with a limit of two *)

Lemma get_tasks_respects_limit_witness :
  exists w',
    TaskTools_get_tasks (scripted tasks_script) instant (value * string)
      paired failing_hook 2 VNone VNone world0
    = (Ok (Some (VList [task_record_of "pve1" "UPID:1";
                        task_record_of "pve1" "UPID:2"],
                 "tasks")), w')
    /\ calls w' = [nodes_request; tasks_request (VStr "pve1") 2 VNone].
Proof.
  destruct (get_tasks_respects_limit (scripted tasks_script) instant
              (value * string) paired failing_hook 2 VNone)
    as (_ & Hexact & _); [lia|].
  apply (Hexact VNone [node_record "pve1"; node_record "pve2"]
                ["pve1"; "pve2"] world0 eq_refl eq_refl).
  - repeat constructor.
  - intros [|i] name Hi.
    + injection Hi as <-. eexists. split; [reflexivity|].
      repeat constructor; eexists; reflexivity.
    + destruct i; discriminate Hi.
Defined.

(** With a limit of four the first node leaves the listing short: the
    second node is asked, and a second node that cannot be asked ends
    the whole listing in the error hook. *)
Example get_tasks_asks_on_while_short :
  TaskTools_get_tasks (scripted tasks_script) instant (value * string)
    paired failing_hook 4 VNone VNone world0
  = handed_to_hook (value * string) failing_hook "get tasks"
      (ApiError "connection lost")
      (called instant (tasks_request (VStr "pve2") 4 VNone)
         (called instant (tasks_request (VStr "pve1") 4 VNone)
            (called instant nodes_request world0))).
Proof. reflexivity. Qed.

(** ** The random fallback of [clone_template] *)

(** C10.  When the next-identifier query raises, [clone_template] does
    not report it (nothing is logged or printed): it draws an identifier
    between 100 and 999 from the random source, submits the clone with it
    and, when the clone is accepted, returns a success envelope carrying
    it.  Two runs on the
    same arguments and the same remote whose draws differ submit
    different clone requests, and every identifier of the range is the
    draw of some random source. *)
Theorem clone_template_falls_back_to_a_random_id :
  forall (py_repr : value -> string) (remote : nat -> request -> res value)
         (latency : nat -> N) (entropy1 entropy2 : nat -> Z)
         (node template_vmid new_vm_name target_node full_clone storage : value)
         (w : world) (e : exn),
    remote (List.length (calls w)) nextid_request = Raise e ->
    let submitted (id : Z) :=
      clone_request node template_vmid
        (clone_params (VInt id) new_vm_name target_node full_clone storage) in
    let run (entropy : nat -> Z) :=
      clone_template py_repr remote latency entropy node template_vmid
                     new_vm_name target_node full_clone storage w in
    100 <= fallback_vmid entropy1 w <= 999
    /\ calls (snd (run entropy1))
       = (calls w ++ [nextid_request; submitted (fallback_vmid entropy1 w)])%list
    /\ logs (snd (run entropy1)) = logs w
    /\ stdout (snd (run entropy1)) = stdout w
    /\ (forall task_result,
           remote (S (List.length (calls w)))
                  (submitted (fallback_vmid entropy1 w)) = Ok task_result ->
           exists message,
             fst (run entropy1)
             = Ok (VDict [kv "success" (VBool true);
                          kv "task_id" (task_id_of task_result);
                          kv "new_vmid" (VInt (fallback_vmid entropy1 w));
                          kv "message" (VStr message)]))
    /\ (fallback_vmid entropy1 w <> fallback_vmid entropy2 w ->
        calls (snd (run entropy1)) <> calls (snd (run entropy2)))
    /\ (forall n, 100 <= n <= 999 ->
                  fallback_vmid (constant_draw (n - 100)) w = n).
Proof.
  intros py_repr remote latency entropy1 entropy2 node template_vmid
         new_vm_name target_node full_clone storage w e Hnextid submitted run.
  destruct (clone_template_fallback py_repr remote latency entropy1 node
              template_vmid new_vm_name target_node full_clone storage w e
              Hnextid) as (Hcalls1 & Hlogs1 & Hout1 & Hreply1).
  destruct (clone_template_fallback py_repr remote latency entropy2 node
              template_vmid new_vm_name target_node full_clone storage w e
              Hnextid) as [Hcalls2 _].
  split; [|split; [|split; [|split; [|split; [|split]]]]].
  - unfold fallback_vmid.
    pose proof (Z.mod_pos_bound (entropy1 (draws w)) 900). lia.
  - exact Hcalls1.
  - exact Hlogs1.
  - exact Hout1.
  - intros task_result Hpost. eexists. exact (Hreply1 task_result Hpost).
  - intros Hdiff Heq. apply Hdiff.
    unfold run in Heq. rewrite Hcalls1, Hcalls2 in Heq.
    apply app_inv_head in Heq. unfold clone_request, clone_params in Heq.
    injection Heq as Heq. exact Heq.
  - intros n Hn. unfold fallback_vmid, constant_draw.
    rewrite Z.mod_small by lia. lia.
Qed.

Lemma clone_template_falls_back_to_a_random_id_witness :
  calls (snd (clone_template plain_repr (scripted clone_script) instant
                (constant_draw 5) (VStr "pve1") (VStr "9000") (VStr "web2")
                VNone (VBool true) VNone world0))
  = [nextid_request;
     clone_request (VStr "pve1") (VStr "9000")
       [("newid", VInt 105); ("name", VStr "web2"); ("full", VInt 1)]]
  /\ calls (snd (clone_template plain_repr (scripted clone_script) instant
                   (constant_draw 5) (VStr "pve1") (VStr "9000") (VStr "web2")
                   VNone (VBool true) VNone world0))
     <> calls (snd (clone_template plain_repr (scripted clone_script) instant
                      (constant_draw 7) (VStr "pve1") (VStr "9000")
                      (VStr "web2") VNone (VBool true) VNone world0)).
Proof.
  destruct (clone_template_falls_back_to_a_random_id plain_repr
              (scripted clone_script) instant (constant_draw 5)
              (constant_draw 7) (VStr "pve1") (VStr "9000") (VStr "web2")
              VNone (VBool true) VNone world0 (ApiError "nextid unavailable")
              eq_refl)
    as (_ & Hcalls & _ & _ & _ & Hdiff & _).
  split; [exact Hcalls|].
  apply Hdiff. vm_compute. discriminate.
Defined.

(** The run behind the witness: the failure of the query is not in the
    answer, the drawn identifier is. *)
Example clone_template_reports_success :
  fst (clone_template plain_repr (scripted clone_script) instant
         (constant_draw 5) (VStr "pve1") (VStr "9000") (VStr "web2")
         VNone (VBool true) VNone world0)
  = Ok (VDict [kv "success" (VBool true);
               kv "task_id" (VStr "UPID:clone");
               kv "new_vmid" (VInt 105);
               kv "message"
                  (VStr "Started cloning template 9000 to create new VM 'web2' with ID 105")]).
Proof. vm_compute. reflexivity. Qed.

(** ** Percentages of an empty pool and of a pool that is half full *)



(** The list of nodes shows the memory and the disk of each node. *)
Example node_list_of_a_busy_node :
  ProxmoxTemplates_node_list plain_repr bracketed in_bytes in_seconds unchanged
    Z in_tenths tenths_1f (VList [busy_node])
  = Ok (join newline
          [ "[node] Proxmox Nodes";
            EmptyString;
            "[node] pve1";
            detail "Status" "online";
            detail "Uptime" "3600s";
            detail "CPU Cores" "8";
            detail "Memory" "512 B / 1024 B (50.0%)";
            detail "Disk" "512 B / 1024 B (50.0%)" ]).
Proof. reflexivity. Qed.

(** * Worked runs of the further properties *)

(** ** The dispatcher on malformed requests *)

Lemma handle_mcp_request_malformed_witness :
  handle_mcp_request plain_repr (scripted []) instant "python" "proxmox_api.py"
    (Ok sample_settings) (VList []) world0
  = (Ok (error_envelope
           "Error handling MCP request: 'list' object has no attribute 'get'"),
     logged "Error handling MCP request: 'list' object has no attribute 'get'"
            world0)
  /\ handle_mcp_request plain_repr (scripted []) instant "python" "proxmox_api.py"
    (Ok sample_settings) start_vm_with_text
                        world0
     = (Ok (error_envelope
              "Error handling MCP request: 'str' object has no attribute 'get'"),
        logged "Error handling MCP request: 'str' object has no attribute 'get'"
               world0).
Proof.
  split.
  - apply (handle_mcp_request_malformed plain_repr (scripted []) instant
             "python" "proxmox_api.py" (Ok sample_settings)
             (VList []) world0).
    intros [d H]. discriminate.
  - apply (proj2 (handle_mcp_request_malformed plain_repr (scripted []) instant
                    "python" "proxmox_api.py" (Ok sample_settings)
                    start_vm_with_text world0)
             "start_vm" ["node"; "vmid"] (VStr "pve1")).
    + simpl. repeat (first [left; reflexivity | right]).
    + discriminate.
    + reflexivity.
    + reflexivity.
    + intros [d H]. discriminate.
Defined.

Lemma handle_mcp_request_plain_tool_witness :
  handle_mcp_request plain_repr (scripted [Ok (VList [])]) instant
    "python" "proxmox_api.py" (Ok sample_settings) get_nodes_with_text world0
  = handle_mcp_request plain_repr (scripted [Ok (VList [])]) instant
      "python" "proxmox_api.py" (Ok sample_settings)
      (VDict [kv "tool" (VStr "get_nodes")]) world0
  /\ exists v w',
       handle_mcp_request plain_repr (scripted [Ok (VList [])]) instant
         "python" "proxmox_api.py" (Ok sample_settings) get_nodes_with_text
         world0
       = (Ok v, w')
       /\ calls w'
          = [Script [VStr "python"; VStr "proxmox_api.py";
                     VStr "--host"; VStr "pve.example.org";
                     VStr "--user"; VStr "root@pam";
                     VStr "--token-name"; VStr "mcp";
                     VStr "--token-value"; VStr "secret";
                     VStr "--action"; VStr "get_nodes"]]
       /\ v = VList [].
Proof.
  destruct (handle_mcp_request_plain_tool plain_repr (scripted [Ok (VList [])])
              instant "python" "proxmox_api.py" (Ok sample_settings)
              get_nodes_with_text "get_nodes" world0)
    as [Hsame (v & w' & Hrun & Hcalls & Hv)].
  - simpl. now left.
  - reflexivity.
  - split; [exact Hsame|]. exists v, w'. auto.
Defined.

(** Without a configuration the same request ends the process, and with a
    configuration that lacks the token it is answered with an error
    envelope; the script is run in neither case. *)
Example handle_mcp_request_without_configuration :
  handle_mcp_request plain_repr (scripted [Ok (VList [])]) instant
    "python" "proxmox_api.py" (Raise (ApiError "No such file: config.json"))
    get_nodes_with_text world0
  = (Raise (SystemExit 1),
     logged "Failed to load configuration: No such file: config.json" world0)
  /\ handle_mcp_request plain_repr (scripted [Ok (VList [])]) instant
       "python" "proxmox_api.py"
       (Ok (VDict [kv "proxmox" (VDict [kv "host" (VStr "pve.example.org")]);
                   kv "auth" (VDict [kv "user" (VStr "root@pam")])]))
       get_nodes_with_text world0
     = (Ok (error_envelope "Error handling MCP request: 'token_name'"),
        logged "Error handling MCP request: 'token_name'" world0).
Proof. split; reflexivity. Qed.

(** ** The interactive loop *)


(** With [--once], a request on the first line is answered and [main]
    returns; without the flag the same input leaves the loop running, a
    Ctrl-C after the line lets [main] return, and a configuration that
    cannot be loaded ends the process at the first request. *)
Example interactive_loop_answers_once :
  fst_of (interactive_loop plain_repr (scripted [Ok (VList [])]) instant
            "python" "proxmox_api.py" (Ok sample_settings) first_text
            one_line_decoder blank 1 true
            (typed ("get_nodes" +++ newline)) world0)
  = Some Returned
  /\ interactive_loop plain_repr (scripted [Ok (VList [])]) instant
       "python" "proxmox_api.py" (Ok sample_settings) first_text
       one_line_decoder blank 50 false
       (typed ("get_nodes" +++ newline)) world0
     = None
  /\ fst_of (interactive_loop plain_repr (scripted [Ok (VList [])]) instant
               "python" "proxmox_api.py" (Ok sample_settings) first_text
               one_line_decoder blank 50 false
               (typed ("get_nodes" +++ newline) ++ [CtrlC]) world0)
     = Some Returned
  /\ fst_of (interactive_loop plain_repr (scripted [Ok (VList [])]) instant
               "python" "proxmox_api.py" (Raise (ApiError "No such file"))
               first_text one_line_decoder blank 50 false
               (typed ("get_nodes" +++ newline)) world0)
     = Some (Exited 1).
Proof. repeat split; vm_compute; reflexivity. Qed.

(** ** The script's operations at their edges *)

Lemma update_vm_config_sends_what_is_given_witness :
  update_vm_config plain_repr (scripted []) instant (VStr "pve1") (VStr "100")
                   VNone VNone VNone VNone world0
  = (Ok (error_envelope "No configuration parameters provided"), world0)
  /\ exists reply,
       update_vm_config plain_repr (scripted [Ok VNone]) instant
                        (VStr "pve1") (VStr "100")
                        (VInt 0) VNone (VStr EmptyString) VNone world0
       = (Ok reply,
          called instant
                 (qemu_config_put (VStr "pve1") (VStr "100")
                                  [("cores", VInt 0); ("name", VStr EmptyString)])
                 world0)
       /\ success_field reply = Some (VBool true)
       /\ field reply "updated_params" VNone
          = VDict [kv "cores" (VInt 0); kv "name" (VStr EmptyString)].
Proof.
  split.
  - apply (update_vm_config_sends_what_is_given plain_repr (scripted []) instant
             (VStr "pve1") (VStr "100") VNone VNone VNone VNone world0).
    reflexivity.
  - apply (update_vm_config_sends_what_is_given plain_repr (scripted [Ok VNone])
             instant (VStr "pve1") (VStr "100") (VInt 0) VNone (VStr EmptyString)
             VNone world0).
    discriminate.
Defined.

Lemma wait_for_task_without_time_witness :
  wait_for_task plain_repr (scripted task_script) instant instant 1
                (VStr "pve1") (VStr "UPID:1") 0 2 world0
  = Some (error_envelope "Task UPID:1 did not complete within 0 seconds", world0).
Proof.
  apply (wait_for_task_without_time plain_repr (scripted task_script) instant
           instant (VStr "pve1") (VStr "UPID:1") 0 2 0%nat world0).
  lia.
Defined.

(** ** Summaries over the nodes *)

Lemma get_vms_fails_on_a_record_without_status_witness :
  fst (get_vms plain_repr (scripted statusless_script) instant first_text world0)
  = Ok (error_envelope "Failed to get VMs: 'status'")
  /\ calls (snd (get_vms plain_repr (scripted statusless_script) instant
                         first_text world0))
     = [nodes_request; qemu_request (VStr "pve1")].
Proof.
  apply (get_vms_fails_on_a_record_without_status plain_repr
           (scripted statusless_script) instant first_text
           [node_record "pve1"] ["pve1"] world0).
  - reflexivity.
  - repeat constructor.
  - intros [|[|i]] name H; simpl in H; try discriminate.
    simpl. eexists. split; [reflexivity|]. repeat constructor. eexists. reflexivity.
  - apply Exists_cons_hd. reflexivity.
Defined.

Lemma three_names_distinct : NoDup three_names.
Proof.
  repeat constructor; simpl; intros H;
    repeat (destruct H as [H|H]; [discriminate|]); exact H.
Qed.

Lemma get_vms_totals_add_up_witness :
  fst (get_vms plain_repr (scripted three_nodes) instant first_text world0)
  = Ok (VDict [kv "total_vms" (VInt 2);
               kv "total_running" (VInt 1);
               kv "nodes"
                  (VDict [kv "pve1" (node_summary [guest 101 "web" "running"]);
                          kv "pve3" (node_summary [guest 301 "db" "stopped"])]);
               kv "vms" (VList [guest 101 "web" "running";
                                guest 301 "db" "stopped"])])
  /\ (2 = list_sum [1; 1])%nat
  /\ (1 = list_sum [1; 0])%nat.
Proof.
  exact (get_vms_totals_add_up plain_repr (scripted three_nodes) instant
           first_text
           [node_record "pve1"; node_record "pve2"; node_record "pve3"]
           three_names world0 eq_refl three_nodes_named three_names_distinct
           three_nodes_vms).
Defined.

Lemma get_templates_lists_tagged_templates_witness :
  exists templates,
    fst (get_templates plain_repr (scripted three_nodes) instant first_text world0)
    = Ok (VDict [kv "total_templates" (VInt (Z.of_nat (List.length templates)));
                 kv "templates" (VList templates)])
    /\ Forall (fun t =>
                 marked_template t = true
                 /\ exists name,
                      In name three_names /\ field t "node" VNone = VStr name)
              templates.
Proof.
  apply (get_templates_lists_tagged_templates plain_repr (scripted three_nodes)
           instant first_text
           [node_record "pve1"; node_record "pve2"; node_record "pve3"]
           three_names world0 eq_refl three_nodes_named
           (three_nodes_records (fun name : string => qemu_request name))).
Defined.
(** ** The tools on small clusters *)

Lemma get_container_status_memory_in_bytes_witness :
  exists record w',
    ContainerTools_get_container_status plain_repr (scripted container_script)
      instant (value * string) paired failing_hook (VStr "pve1") (VStr "200")
      world0
    = (Ok (Some (record, "container_status")), w')
    /\ calls w' = [lxc_status_request (VStr "pve1") (VStr "200");
                   lxc_config_request (VStr "pve1") (VStr "200")]
    /\ field record "memory" VNone
       = VDict [kv "used" (VInt 1048576); kv "total" (VInt 536870912)].
Proof.
  exact (get_container_status_memory_in_bytes plain_repr
           (scripted container_script) instant (value * string) paired
           failing_hook (VStr "pve1") (VStr "200")
           [kv "status" (VStr "running"); kv "mem" (VInt 1048576)]
           [kv "hostname" (VStr "ct1")] 512 world0 eq_refl eq_refl eq_refl).
Defined.

Lemma execute_command_reports_a_running_task_as_failed_witness :
  ContainerTools_execute_command plain_repr (scripted command_script) instant
    (value * string) paired failing_hook (VStr "pve1") (VStr "200")
    (VStr "uname -a") world0
  = (Ok (Some (command_outcome false "Command execution failed: Unknown error",
               "container_command")),
     called instant (task_status_request (VStr "pve1") (VStr "UPID:exec"))
            (called instant
                    (lxc_exec_request (VStr "pve1") (VStr "200") (VStr "uname -a"))
                    world0)).
Proof.
  apply (proj1 (execute_command_reports_a_running_task_as_failed plain_repr
                  (scripted command_script) instant (value * string) paired
                  failing_hook (VStr "pve1") (VStr "200") (VStr "uname -a")
                  (VStr "UPID:exec") (VDict [kv "status" (VStr "running")])
                  world0 eq_refl eq_refl)
           [kv "status" (VStr "running")] eq_refl eq_refl).
Defined.

Lemma performance_reports_survive_a_failed_history_witness :
  exists report w',
    ContainerTools_get_container_performance plain_repr
      (scripted performance_script) instant (value * string) paired failing_hook (VStr "pve1") (VStr "200")
      world0
    = (Ok (Some (report, "container_performance")), w')
    /\ calls w' = [lxc_status_request (VStr "pve1") (VStr "200");
                   lxc_rrddata_request (VStr "pve1") (VStr "200")]
    /\ field report "historical_data" VNone = VList [].
Proof.
  apply (proj1 (performance_reports_survive_a_failed_history plain_repr
                  (scripted performance_script) instant (value * string) paired
                  failing_hook (VStr "pve1") (VStr "200")
                  [kv "cpu" (VInt 0); kv "mem" (VInt 2048)] world0)).
  reflexivity.
Defined.

Lemma storage_listing_is_text : Forall content_is_text storage_listing.
Proof.
  repeat constructor; try (eexists; reflexivity).
Qed.

Lemma get_container_templates_filters_by_content_witness :
  ContainerTools_get_container_templates (scripted [Ok (VList storage_listing)])
    instant (value * string) paired failing_hook (VStr "pve1") VNone world0
  = (Ok (Some (VList [storage_entry "local:vztmpl/debian-12.tar.zst" "vztmpl"],
               "container_templates")),
     called instant (storage_request (VStr "pve1") []) world0).
Proof.
  apply (proj1 (get_container_templates_filters_by_content
                  (scripted [Ok (VList storage_listing)]) instant
                  (value * string) paired failing_hook (VStr "pve1") VNone
                  storage_listing world0 eq_refl)).
  exact storage_listing_is_text.
Defined.

(** An entry whose [content] is [None] after the template: the listing
    fails although the template had been found. *)
Example get_container_templates_fails_on_null_content :
  ContainerTools_get_container_templates
    (scripted [Ok (VList [storage_entry "local:vztmpl/debian-12.tar.zst" "vztmpl";
                          VDict [kv "content" VNone]])])
    instant (value * string) paired failing_hook (VStr "pve1") VNone world0
  = (Raise (ApiError "Failed to get container templates: 'NoneType' object has no attribute 'startswith'"),
     logged "Failed to get container templates: 'NoneType' object has no attribute 'startswith'"
            (called instant (storage_request (VStr "pve1") []) world0)).
Proof. reflexivity. Qed.

Lemma lifecycle_power_operations_need_a_mapping_witness :
  VMLifecycleTools_start_vm plain_repr (scripted upid_script) instant
    (value * string) paired failing_hook (VStr "pve1") (VStr "100") world0
  = (Raise (ApiError "Failed to start VM 100: 'str' object has no attribute 'get'"),
     logged "Failed to start VM 100: 'str' object has no attribute 'get'"
            (called instant (power_request (VStr "pve1") (VStr "100") "start")
                    world0)).
Proof.
  apply (proj1 (lifecycle_power_operations_need_a_mapping plain_repr
                  (scripted upid_script) instant (value * string) paired
                  failing_hook "start" (VStr "pve1") (VStr "100")
                  (VStr "UPID:pve1:start") world0 eq_refl)).
  intros [d H]. discriminate.
Defined.

Lemma create_template_converts_last_witness :
  TemplateTools_create_template plain_repr (scripted locked_script) instant
    (value * string) paired failing_hook (VStr "pve1") (VStr "100")
    (VStr "golden") VNone world0
  = handed_to_hook (value * string) failing_hook "create template from VM 100"
      (ApiError "VM is locked")
      (called instant
              (vm_config_put (VStr "pve1") (VStr "100") [("name", VStr "golden")])
              (called instant (vm_status_request (VStr "pve1") (VStr "100"))
                      world0)).
Proof.
  exact (create_template_converts_last plain_repr (scripted locked_script) instant
           (value * string) paired failing_hook (VStr "pve1") (VStr "100")
           (VStr "golden") VNone (VDict [kv "status" (VStr "stopped")])
           (VStr "stopped") world0 eq_refl eq_refl eq_refl).
Defined.

Lemma update_template_without_settings_witness :
  TemplateTools_update_template plain_repr (scripted marked_script) instant
    (value * string) paired failing_hook (VStr "pve1") (VStr "9000")
    (VStr EmptyString) VNone (VInt 0) (VInt 0) world0
  = (Ok (Some (failure "No update parameters provided", "template_operation")),
     called instant (vm_config_request (VStr "pve1") (VStr "9000")) world0).
Proof.
  exact (update_template_without_settings plain_repr (scripted marked_script)
           instant (value * string) paired failing_hook (VStr "pve1")
           (VStr "9000") (VStr EmptyString) VNone (VInt 0) (VInt 0)
           (VDict [kv "template" (VInt 1)]) (VInt 1) world0
           eq_refl eq_refl eq_refl eq_refl eq_refl eq_refl eq_refl).
Defined.

Lemma clone_template_description_is_best_effort_witness :
  TemplateTools_clone_template plain_repr (scripted early_script) instant
    (value * string) paired failing_hook (VStr "pve1") (VStr "9000")
    (VStr "web2") VNone (VStr "120") VNone (VBool true) (VStr "front end") world0
  = (Ok (Some (clone_initiated plain_repr (value * string) paired
                 (VStr "9000") (VStr "web2") (VStr "UPID:clone"))),
     logged "Could not update description for cloned VM: VM 120 does not exist"
            (called instant
                    (vm_config_put (VStr "pve1") (VStr "120")
                                   [("description", VStr "front end")])
                    (called instant
                            (clone_request (VStr "pve1") (VStr "9000")
                               [("name", VStr "web2"); ("full", VInt 1);
                                ("newid", VStr "120")])
                            world0))).
Proof.
  exact (clone_template_description_is_best_effort plain_repr
           (scripted early_script) instant (value * string) paired failing_hook
           (VStr "pve1") (VStr "9000") (VStr "web2") VNone (VStr "120") VNone
           (VBool true) (VStr "front end") (VStr "UPID:clone") world0 eq_refl).
Defined.

Lemma list_backups_never_complains_witness :
  exists w',
    BackupTools_list_backups (scripted untidy_nodes) instant (value * string)
      paired failing_hook VNone VNone world0
    = (Ok (Some (VList [backup_entry "pve1" (guest 101 "web" "running")],
                 "backups")), w')
    /\ logs w' = [] /\ stdout w' = []
    /\ calls w'
       = nodes_request
         :: map (fun name : string => storage_request name []) three_names.
Proof.
  exact (list_backups_never_complains (scripted untidy_nodes) instant
           (value * string) paired failing_hook
           [node_record "pve1"; node_record "pve2"; node_record "pve3"]
           three_names VNone VNone world0 eq_refl three_nodes_named).
Defined.

Lemma get_tasks_with_no_limit_left_witness :
  TaskTools_get_tasks (scripted tasks_script) instant (value * string)
    paired failing_hook 0 VNone VNone world0
  = (Ok (Some (VList [task_record_of "pve1" "UPID:1"], "tasks")),
     called instant (tasks_request (VStr "pve1") 0 VNone)
            (called instant nodes_request world0)).
Proof.
  apply (proj1 (get_tasks_with_no_limit_left (scripted tasks_script) instant
                  (value * string) paired failing_hook 0 VNone world0
                  (Z.le_refl 0))
           VNone (node_record "pve1") "pve1" [node_record "pve2"]).
  - reflexivity.
  - reflexivity.
  - reflexivity.
  - eexists. split; [reflexivity|]. repeat constructor; eexists; reflexivity.
Defined.

Lemma get_tasks_on_one_node_witness :
  TaskTools_get_tasks (scripted [Raise (ApiError "pve9 unreachable")]) instant
    (value * string) paired failing_hook 50 VNone (VStr "pve9") world0
  = handed_to_hook (value * string) failing_hook "get tasks"
      (ApiError "pve9 unreachable")
      (called instant (tasks_request (VStr "pve9") 50 VNone) world0).
Proof.
  exact (get_tasks_on_one_node (scripted [Raise (ApiError "pve9 unreachable")])
           instant (value * string) paired failing_hook 50 VNone (VStr "pve9")
           world0 eq_refl).
Defined.
